(** * dataclass_rest: the declarative REST client core ([base.py])

    A shallow embedding of [base.py]: the [rest] decorator and the wrapper
    it returns, [create_args_class], and [BaseClient] with [handle_error],
    [_filter_params] and [request].

    Python objects are modelled by the value universe [PyVal]; dictionaries
    are insertion-ordered association lists, as Python dictionaries are;
    exceptions are values of [Exn] carried by the result type [Res].  The
    methods of [BaseClient] run in a small state-and-exception monad whose
    state holds the attributes of the client object, the requests handed to
    the transport and the records made by the logger.

    Collaborators that live outside the repository are inputs of the model:
    the serializer ([Factory], with [dump] and [load]) and the transport
    (the [session] function) are fields of the client;
    [string.Formatter().parse], [str.format] and [inspect.getcallargs] are
    modelled on the fragment described at their definitions.

    The file has three parts: the model of the code, the notions used in
    the statements together with the data of the examples, and the
    properties. *)

From Stdlib Require Import ZArith String Ascii List Bool Lia DecimalString.
From stdpp Require Import base option gmap strings.

Set Warnings "-register-all".

Local Open Scope string_scope.
Local Open Scope Z_scope.

(** ** Exceptions *)

(** The exception classes the module defines ([ApiError], [NotFoundError])
    or catches ([RequestException] of [requests], with its subclasses, and
    [JSONDecodeError] of [json]), the built-in ones raised by the
    standard-library calls it makes, and [OtherError] for any class
    unrelated to these (a serializer error, say).

    The two classes caught overlap.  [RequestException] stands for an
    error of that class that is no decode error (a connection error, a
    timeout), and [JSONDecodeError] for the error of the [json] module
    itself, which is no [RequestException].  [RequestsJSONDecodeError] is
    [requests.exceptions.JSONDecodeError], a subclass of both, which
    [Response.json()] raises for a body that is not JSON since
    [requests] 2.27.

    [ApiError] carries its message and the [__cause__] set by
    [raise ... from error]. *)
Inductive Exn : Type :=
  | ApiError (msg : string) (cause : option Exn)
  | NotFoundError
  | RequestException (detail : string)
  | JSONDecodeError (detail : string)
  | RequestsJSONDecodeError (detail : string)
  | KeyError (key : string)
  | IndexError (detail : string)
  | ValueError (detail : string)
  | TypeError (detail : string)
  | AttributeError (attr : string)
  | OtherError (cls : string) (detail : string).

(** [isinstance(e, ApiError)]: [NotFoundError] is the one subclass. *)
Definition is_ApiError (e : Exn) : bool :=
  match e with ApiError _ _ | NotFoundError => true | _ => false end.

(** [isinstance(e, RequestException)], the test of the first [except]
    clause of [request]. *)
Definition is_RequestException (e : Exn) : bool :=
  match e with
  | RequestException _ | RequestsJSONDecodeError _ => true
  | _ => false
  end.

(** [isinstance(e, JSONDecodeError)], the test of the second [except]
    clause of [request]. *)
Definition is_JSONDecodeError (e : Exn) : bool :=
  match e with
  | JSONDecodeError _ | RequestsJSONDecodeError _ => true
  | _ => false
  end.

(** ** Results *)

(** The outcome of a Python expression: a value, a raised exception, or
    [Beyond] when the input leaves the fragment of a standard-library
    function that the model covers (no behaviour is claimed there). *)
Inductive Res (A : Type) : Type :=
  | Ok (a : A)
  | Raise (e : Exn)
  | Beyond (what : string).
Arguments Ok {A} a.
Arguments Raise {A} e.
Arguments Beyond {A} what.

#[global] Instance res_ret : MRet Res := fun A a => Ok a.

#[global] Instance res_bind : MBind Res := fun A B k r =>
  match r with
  | Ok a => k a
  | Raise e => Raise e
  | Beyond w => Beyond w
  end.

#[global] Instance res_fmap : FMap Res := fun A B f r =>
  match r with
  | Ok a => Ok (f a)
  | Raise e => Raise e
  | Beyond w => Beyond w
  end.

(** ** Python values *)

(** Type objects as they occur in annotations: [typing.Any], a class
    (identified by its name), or a [TypedDict] class with its fields. *)
Inductive TypeDesc : Type :=
  | TAny
  | TClass (name : string)
  | TTypedDict (name : string) (fields : list (string * TypeDesc)).

(** The number a [float] object denotes: not-a-number, an infinity, or
    the binary fraction [m * 2^e]. *)
Inductive FloatValue : Type :=
  | FNan
  | FInf (negative : bool)
  | FFinite (m e : Z).

(** [x == y] on numbers: not-a-number equals nothing, itself included. *)
Definition float_eqb (x y : FloatValue) : bool :=
  match x, y with
  | FInf a, FInf b => Bool.eqb a b
  | FFinite m1 e1, FFinite m2 e2 =>
      let low := Z.min e1 e2 in
      m1 * 2 ^ (e1 - low) =? m2 * 2 ^ (e2 - low)
  | _, _ => false
  end.

(** The values that flow through the client: [None], booleans, integers,
    floats, strings, lists, dictionaries, type objects, and instances
    compared by identity ([VObj], with the address standing for the
    identity), such as the client itself.

    A float is given by the number it denotes, which [==] and truth
    testing read, and by its [repr], the text that [str] and [format]
    return for it ([1.5], [1e+16], [inf]); the text is part of the
    value, the model does not compute it from the number. *)
Inductive PyVal : Type :=
  | VNone
  | VBool (b : bool)
  | VInt (z : Z)
  | VFloat (x : FloatValue) (repr : string)
  | VStr (s : string)
  | VList (items : list PyVal)
  | VDict (entries : list (string * PyVal))
  | VType (t : TypeDesc)
  | VObj (addr : nat).

Abbreviation PyDict := (list (string * PyVal)).

(** [d.get(k)] on an insertion-ordered dictionary. *)
Fixpoint dict_get {V} (k : string) (d : list (string * V)) : option V :=
  match d with
  | [] => None
  | (k', v) :: d' => if String.eqb k k' then Some v else dict_get k d'
  end.

(** [k in d]. *)
Definition dict_mem {V} (k : string) (d : list (string * V)) : bool :=
  match dict_get k d with Some _ => true | None => false end.

(** [d[k] = v]: the value is replaced in place when the key exists, and
    the entry is appended otherwise. *)
Fixpoint dict_set {V} (k : string) (v : V) (d : list (string * V))
  : list (string * V) :=
  match d with
  | [] => [(k, v)]
  | (k', v') :: d' =>
      if String.eqb k k' then (k', v) :: d' else (k', v') :: dict_set k v d'
  end.

(** Class objects are equal when they are the same class; two [TypedDict]
    classes are taken to be the same when name and fields agree. *)
Fixpoint type_eqb (a b : TypeDesc) : bool :=
  match a, b with
  | TAny, TAny => true
  | TClass x, TClass y => String.eqb x y
  | TTypedDict n fs, TTypedDict m gs =>
      String.eqb n m &&
      (fix fields_eqb (fs gs : list (string * TypeDesc)) : bool :=
         match fs, gs with
         | [], [] => true
         | (k, t) :: fs', (k', t') :: gs' =>
             String.eqb k k' && type_eqb t t' && fields_eqb fs' gs'
         | _, _ => false
         end) fs gs
  | _, _ => false
  end.

(** [a == b].  Booleans are integers ([True == 1]) and numbers compare by
    what they denote ([1 == 1.0]); lists compare element-wise;
    dictionaries compare as mappings, whatever the order of their entries;
    instances compare by identity.  Only instances have an identity here,
    so the shortcut by which Python takes an element of a container to
    equal itself when it is the same object is left out; it shows only
    for a float that is not a number. *)
Fixpoint py_eq (a b : PyVal) : bool :=
  match a, b with
  | VNone, VNone => true
  | VBool x, VBool y => Bool.eqb x y
  | VBool x, VInt y => Z.b2z x =? y
  | VInt x, VBool y => x =? Z.b2z y
  | VInt x, VInt y => x =? y
  | VFloat x _, VFloat y _ => float_eqb x y
  | VFloat x _, VInt y => float_eqb x (FFinite y 0)
  | VInt x, VFloat y _ => float_eqb (FFinite x 0) y
  | VFloat x _, VBool y => float_eqb x (FFinite (Z.b2z y) 0)
  | VBool x, VFloat y _ => float_eqb (FFinite (Z.b2z x) 0) y
  | VStr x, VStr y => String.eqb x y
  | VList xs, VList ys =>
      (fix list_eq (xs ys : list PyVal) : bool :=
         match xs, ys with
         | [], [] => true
         | x :: xs', y :: ys' => py_eq x y && list_eq xs' ys'
         | _, _ => false
         end) xs ys
  | VDict xs, VDict ys =>
      (length xs =? length ys)%nat &&
      (fix all_in (xs : list (string * PyVal)) : bool :=
         match xs with
         | [] => true
         | (k, v) :: xs' =>
             match dict_get k ys with
             | Some w => py_eq v w && all_in xs'
             | None => false
             end
         end) xs
  | VType s, VType t => type_eqb s t
  | VObj i, VObj j => (i =? j)%nat
  | _, _ => false
  end.

(** [a != b]. *)
Definition py_ne (a b : PyVal) : bool := negb (py_eq a b).

(** [v in seq] for a tuple or list [seq]: some element equals [v]. *)
Definition py_in (v : PyVal) (seq : list PyVal) : bool :=
  existsb (fun x => py_eq x v) seq.

(** Truth value testing, as [if x:] and [not x] do it.  Functions, classes
    and plain instances are true. *)
Definition py_truthy (v : PyVal) : bool :=
  match v with
  | VNone => false
  | VBool b => b
  | VInt z => negb (z =? 0)
  | VFloat (FFinite m _) _ => negb (m =? 0)
  | VFloat _ _ => true
  | VStr s => negb (String.eqb s "")
  | VList l => match l with [] => false | _ => true end
  | VDict d => match d with [] => false | _ => true end
  | VType _ => true
  | VObj _ => true
  end.

(** [str(v)] for the primitive values; the text of other values (reprs of
    containers and of instances) is not modelled. *)
Definition py_str (v : PyVal) : Res string :=
  match v with
  | VNone => Ok "None"
  | VBool true => Ok "True"
  | VBool false => Ok "False"
  | VInt z => Ok (NilZero.string_of_int (Z.to_int z))
  | VFloat _ repr => Ok repr
  | VStr s => Ok s
  | _ => Beyond "str() of a container, class or instance"
  end.

Definition is_primitive (v : PyVal) : bool :=
  match v with
  | VNone | VBool _ | VInt _ | VFloat _ _ | VStr _ => true
  | _ => false
  end.

(** ** URL templates: [string.Formatter().parse] and [str.format] *)

(** Both functions read the template through the same markup iterator,
    which yields one chunk per step: the literal text up to the next brace
    and, when a replacement field follows, the field's name.  An escaped
    brace ends a chunk whose literal text includes one brace.  The iterator
    stops at the end of the template or at the first malformed brace, with
    [ValueError].

    Modelled fragment: fields of the form [{name}].  A conversion
    ([!r]), a format specification ([:>4]) and an index ([[0]]) put the
    template outside it. *)
Inductive Markup : Type :=
  | MkEnd
  | MkStop (e : Exn)
  | MkBeyond (what : string)
  | MkChunk (literal : string) (field : option string) (more : Markup).

(** Where the iterator is: in literal text, or inside a replacement field
    whose preceding literal text is [lit]. *)
Inductive ScanMode : Type :=
  | InLiteral (acc : string)
  | InField (lit : string) (acc : string).

Definition snoc_char (s : string) (c : ascii) : string := s ++ String c "".

Fixpoint markup_from (s : string) (m : ScanMode) : Markup :=
  match s with
  | EmptyString =>
      match m with
      | InLiteral acc =>
          if String.eqb acc "" then MkEnd else MkChunk acc None MkEnd
      | InField _ _ => MkStop (ValueError "expected '}' before end of string")
      end
  | String c rest =>
      match m with
      | InLiteral acc =>
          if Ascii.eqb c "{" then
            match rest with
            | EmptyString =>
                MkStop (ValueError "Single '{' encountered in format string")
            | String c' rest' =>
                if Ascii.eqb c' "{"
                then MkChunk (snoc_char acc c) None
                       (markup_from rest' (InLiteral ""))
                else markup_from rest (InField acc "")
            end
          else if Ascii.eqb c "}" then
            match rest with
            | EmptyString =>
                MkStop (ValueError "Single '}' encountered in format string")
            | String c' rest' =>
                if Ascii.eqb c' "}"
                then MkChunk (snoc_char acc c) None
                       (markup_from rest' (InLiteral ""))
                else
                  MkStop (ValueError "Single '}' encountered in format string")
            end
          else markup_from rest (InLiteral (snoc_char acc c))
      | InField lit acc =>
          if Ascii.eqb c "}" then
            MkChunk lit (Some acc) (markup_from rest (InLiteral ""))
          else if Ascii.eqb c "{" then
            MkStop (ValueError "unexpected '{' in field name")
          else if Ascii.eqb c "[" then MkBeyond "index in a field name"
          else if Ascii.eqb c ":" then MkBeyond "format specification"
          else if Ascii.eqb c "!" then MkBeyond "conversion"
          else markup_from rest (InField lit (snoc_char acc c))
      end
  end.

Definition markup (template : string) : Markup :=
  markup_from template (InLiteral "").

(** [[x[1] for x in string.Formatter().parse(url_format)]]: the field name
    of every chunk, [None] for a chunk of literal text only.  The list
    comprehension runs the iterator to its end, so a malformed template
    raises here. *)
Fixpoint field_names (m : Markup) : Res (list (option string)) :=
  match m with
  | MkEnd => Ok []
  | MkStop e => Raise e
  | MkBeyond w => Beyond w
  | MkChunk _ f more => cons f <$> field_names more
  end.

Definition all_digits (s : string) : bool :=
  forallb (fun c => (48 <=? nat_of_ascii c)%nat && (nat_of_ascii c <=? 57)%nat)
          (list_ascii_of_string s).

Definition has_dot (s : string) : bool :=
  existsb (fun c => Ascii.eqb c ".") (list_ascii_of_string s).

(** The text a replacement field contributes when the template is
    formatted with keyword arguments [kwargs] only: the empty name and a
    number ask for a positional argument, of which there is none; any other
    name is looked up among the keywords, and the value found is formatted
    with the empty format specification, which gives [str(value)].
    Attribute access ([{a.b}]) is outside the modelled fragment. *)
Definition format_field (kwargs : PyDict) (name : string) : Res string :=
  if String.eqb name "" then
    Raise (IndexError "Replacement index 0 out of range for positional args tuple")
  else if has_dot name then Beyond "attribute in a field name"
  else if all_digits name then Beyond "numbered field"
  else
    match dict_get name kwargs with
    | Some v => py_str v
    | None => Raise (KeyError name)
    end.

(** [str.format] renders chunk after chunk, so the error raised is the
    first one met from the left, be it a missing key or a malformed
    brace. *)
Fixpoint format_markup (kwargs : PyDict) (m : Markup) (out : string)
  : Res string :=
  match m with
  | MkEnd => Ok out
  | MkStop e => Raise e
  | MkBeyond w => Beyond w
  | MkChunk lit f more =>
      match f with
      | None => format_markup kwargs more (out ++ lit)
      | Some name =>
          text ← format_field kwargs name;
          format_markup kwargs more (out ++ lit ++ text)
      end
  end.

(** [template.format] applied to the keyword arguments [kwargs]. *)
Definition str_format (template : string) (kwargs : PyDict) : Res string :=
  format_markup kwargs (markup template) "".

(** ** Method declarations and call-argument binding *)

(** What the decorator reads of the decorated function: its name, the
    names of its parameters with the receiver first
    ([getfullargspec(func).args]), the default values of the last
    parameters, and its annotations, [return] included.  Functions with
    [*args], [**kwargs] or keyword-only parameters are not modelled. *)
Record FuncDecl : Type := {
  fn_name : string;
  fn_args : list string;
  fn_defaults : list PyVal;
  fn_annotations : list (string * TypeDesc)
}.

(** [hints.get(name)]: the annotation as a type object, or [None]. *)
Definition hints_get (hints : list (string * TypeDesc)) (name : string)
  : PyVal :=
  match dict_get name hints with
  | Some t => VType t
  | None => VNone
  end.

(** [getcallargs]: the loop [for i in range(n): arg2value[args[i]] =
    positional[i]] with [n] the shorter of the two lengths. *)
Fixpoint bind_positional (args : list string) (positional : list PyVal)
    (arg2value : PyDict) : PyDict :=
  match args, positional with
  | a :: args', v :: positional' =>
      bind_positional args' positional' (dict_set a v arg2value)
  | _, _ => arg2value
  end.

(** [getcallargs]: the loop over [named.items()].  The [detail] of the
    [TypeError]s names the kind of error and the argument, it is not the
    text of Python's message. *)
Fixpoint bind_named (args : list string) (named : PyDict)
    (arg2value : PyDict) : Res PyDict :=
  match named with
  | [] => Ok arg2value
  | (kw, value) :: named' =>
      if negb (existsb (String.eqb kw) args) then
        Raise (TypeError ("unexpected keyword argument " ++ kw))
      else if dict_mem kw arg2value then
        Raise (TypeError ("multiple values for argument " ++ kw))
      else bind_named args named' (dict_set kw value arg2value)
  end.

(** [getcallargs]: the loop over the parameters without a default. *)
Fixpoint check_required (req : list string) (arg2value : PyDict)
  : Res unit :=
  match req with
  | [] => Ok tt
  | arg :: req' =>
      if dict_mem arg arg2value then check_required req' arg2value
      else Raise (TypeError "missing required positional arguments")
  end.

(** [getcallargs]: the loop that fills in the defaults. *)
Fixpoint fill_defaults (opt : list string) (defaults : list PyVal)
    (arg2value : PyDict) : PyDict :=
  match opt, defaults with
  | arg :: opt', d :: defaults' =>
      fill_defaults opt' defaults'
        (if dict_mem arg arg2value then arg2value
         else dict_set arg d arg2value)
  | _, _ => arg2value
  end.

(** [inspect.getcallargs(func, *positional, **named)] for a plain
    function. *)
Definition getcallargs (func : FuncDecl) (positional : list PyVal)
    (named : PyDict) : Res PyDict :=
  let args := fn_args func in
  let num_pos := length positional in
  let num_args := length args in
  let num_defaults := length (fn_defaults func) in
  let arg2value := bind_positional args positional [] in
  arg2value ← bind_named args named arg2value;
  if (num_args <? num_pos)%nat then
    Raise (TypeError "too many positional arguments")
  else if (num_pos <? num_args)%nat then
    _ ← check_required (firstn (num_args - num_defaults) args) arg2value;
    Ok (fill_defaults (skipn (num_args - num_defaults) args)
          (fn_defaults func) arg2value)
  else Ok arg2value.

(** ** The decorator *)

(** [x in skipped], where [skipped] holds field names and [None]s. *)
Definition in_skipped (x : string) (skipped : list (option string)) : bool :=
  existsb (fun o => match o with
                    | Some y => String.eqb y x
                    | None => false
                    end) skipped.

(** The loop of [create_args_class]: the first parameter is the receiver
    and is passed over, as is every parameter named in [skipped]; the
    others become fields with their annotation, [Any] when there is
    none. *)
Fixpoint args_fields (args : list string) (self_processed : bool)
    (annotations : list (string * TypeDesc)) (skipped : list (option string))
    (fields : list (string * TypeDesc)) : list (string * TypeDesc) :=
  match args with
  | [] => fields
  | x :: args' =>
      if negb self_processed then
        args_fields args' true annotations skipped fields
      else if in_skipped x skipped then
        args_fields args' self_processed annotations skipped fields
      else
        args_fields args' self_processed annotations skipped
          (dict_set x (default TAny (dict_get x annotations)) fields)
  end.

Definition create_args_class (func : FuncDecl)
    (skipped : list (option string)) : TypeDesc :=
  TTypedDict (fn_name func ++ "_Args")
    (args_fields (fn_args func) false (fn_annotations func) skipped []).

(** What [inner] closes over: the arguments of [rest] and the values
    computed by [dec] when the method is declared. *)
Record Route : Type := {
  rt_func : FuncDecl;
  rt_url_format : string;
  rt_method : string;
  rt_body_name : string;
  rt_result_class : PyVal;
  rt_body_class : PyVal;
  rt_args_class : TypeDesc
}.

(** [rest(url_format, method=..., body_name=...)(func)]: the work done at
    declaration time.  The only step that can fail is the parse of the
    template. *)
Definition rest (url_format method body_name : string) (func : FuncDecl)
  : Res Route :=
  let hints := fn_annotations func in
  let result_class := hints_get hints "return" in
  let body_class := hints_get hints body_name in
  skipped ← field_names (markup url_format);
  let skipped := (skipped ++ [Some body_name])%list in
  let args_class := create_args_class func skipped in
  Ok {| rt_func := func; rt_url_format := url_format; rt_method := method;
        rt_body_name := body_name; rt_result_class := result_class;
        rt_body_class := body_class; rt_args_class := args_class |}.

Definition get (url_format : string) := rest url_format "GET" "".
Definition delete (url_format : string) := rest url_format "DELETE" "".
Definition patch (url_format body_name : string) :=
  rest url_format "PATCH" body_name.
Definition put (url_format body_name : string) :=
  rest url_format "PUT" body_name.
Definition post (url_format body_name : string) :=
  rest url_format "POST" body_name.

(** ** The client object and its collaborators *)

(** What the client reads of a transport response: [response.ok],
    [response.status_code] and the outcome of [response.json()]. *)
Record Response : Type := {
  ok : bool;
  status_code : Z;
  json : Res PyVal
}.

(** [str(response)], which is [<Response [404]>] for status 404. *)
Definition response_str (r : Response) : string :=
  "<Response [" ++ NilZero.string_of_int (Z.to_int (status_code r)) ++ "]>".

(** The keyword arguments of [session.request]. *)
Record Request : Type := {
  rq_method : string;
  rq_url : string;
  rq_params : PyVal;
  rq_json : PyVal
}.

(** The serializer: [dump(value, class_)] and [load(data, class_)]. *)
Record Factory : Type := {
  dump : PyVal -> PyVal -> Res PyVal;
  load : PyVal -> PyVal -> Res PyVal
}.

(** An error handler is a callable taking the response. *)
Definition Handler : Type := Response -> Res PyVal.

(** The attributes set by [BaseClient.__init__], and the identity of the
    client object. *)
Record Client : Type := {
  obj_id : nat;
  base_url : string;
  session : Request -> Res Response;
  error_handlers : gmap (string * Z) Handler;
  factory : Factory
}.

Inductive LogArg : Type :=
  | LStr (s : string)
  | LExn (e : Exn).

Record LogRecord : Type := {
  log_level : string;
  log_msg : string;
  log_args : list LogArg
}.

(** What decides whether the module's logger makes a record of a call:
    its [disabled] flag, the level below which [logging.disable] silences
    every logger ([manager.disable]), and its effective level, which is
    its own level or that of the nearest ancestor that has one. *)
Record LoggerConfig : Type := {
  lg_disabled : bool;
  lg_manager_disable : Z;
  lg_effective_level : Z
}.

(** The numeric value of a level of [logging]. *)
Definition level_no (level : string) : Z :=
  if String.eqb level "DEBUG" then 10
  else if String.eqb level "INFO" then 20
  else if String.eqb level "WARNING" then 30
  else if String.eqb level "ERROR" then 40
  else if String.eqb level "CRITICAL" then 50
  else 0.

(** [Logger.isEnabledFor(level)]. *)
Definition is_enabled_for (cfg : LoggerConfig) (level : Z) : bool :=
  if lg_disabled cfg then false
  else if level <=? lg_manager_disable cfg then false
  else lg_effective_level cfg <=? level.

(** The configuration [logging] starts with: nothing disabled, and the
    level of the root logger, [WARNING], as the effective level. *)
Definition default_logging : LoggerConfig :=
  {| lg_disabled := false; lg_manager_disable := 0;
     lg_effective_level := 30 |}.

(** A configuration in which the logger records every level. *)
Definition debug_logging : LoggerConfig :=
  {| lg_disabled := false; lg_manager_disable := 0;
     lg_effective_level := 10 |}.

(** The state a method of the client runs in: the client object, the
    requests handed to the transport so far (latest first), the
    configuration of the logger and the records the logger has made
    (latest first). *)
Record State : Type := {
  st_self : Client;
  st_sent : list Request;
  st_logger : LoggerConfig;
  st_log : list LogRecord
}.

(** ** The monad of the client's methods *)

Definition M (A : Type) : Type := State -> Res A * State.

#[global] Instance M_ret : MRet M := fun A a st => (Ok a, st).

#[global] Instance M_bind : MBind M := fun A B k m st =>
  match m st with
  | (Ok a, st') => k a st'
  | (Raise e, st') => (Raise e, st')
  | (Beyond w, st') => (Beyond w, st')
  end.

(** A pure computation, which may raise. *)
Definition lift {A} (r : Res A) : M A := fun st => (r, st).

(** [raise e]. *)
Definition raise {A} (e : Exn) : M A := lift (Raise e).

(** [self.attribute]. *)
Definition attr {A} (f : Client -> A) : M A :=
  fun st => (Ok (f (st_self st)), st).

(** Assignment to the attributes of [self]. *)
Definition set_self (c : Client) : M unit :=
  fun st => (Ok tt, {| st_self := c; st_sent := st_sent st;
                       st_logger := st_logger st; st_log := st_log st |}).

(** [try: body except ...]: [handlers] gives the clause that matches the
    exception, if one does. *)
Definition try_except {A} (body : M A) (handlers : Exn -> option (M A))
  : M A := fun st =>
  match body st with
  | (Raise e, st') =>
      match handlers e with
      | Some clause => clause st'
      | None => (Raise e, st')
      end
  | other => other
  end.

(** [self.session.request(method=..., url=..., params=..., json=...)]. *)
Definition session_request (rq : Request) : M Response := fun st =>
  (session (st_self st) rq,
   {| st_self := st_self st; st_sent := rq :: st_sent st;
      st_logger := st_logger st; st_log := st_log st |}).

(** The log after a call of the logger at [level]: the record is made
    only if the logger is enabled for the level. *)
Definition log_after (cfg : LoggerConfig) (level msg : string)
    (args : list LogArg) (log : list LogRecord) : list LogRecord :=
  if is_enabled_for cfg (level_no level) then
    {| log_level := level; log_msg := msg; log_args := args |} :: log
  else log.

(** [logger.debug(msg, *args)] and [logger.error(msg, *args)], with the
    level as an argument. *)
Definition logger_log (level msg : string) (args : list LogArg) : M unit :=
  fun st =>
  (Ok tt, {| st_self := st_self st; st_sent := st_sent st;
             st_logger := st_logger st;
             st_log := log_after (st_logger st) level msg args (st_log st) |}).

(** [s.rstrip("/")]. *)
Fixpoint rstrip_slash (s : string) : string :=
  match s with
  | EmptyString => EmptyString
  | String c rest =>
      match rstrip_slash rest with
      | EmptyString => if Ascii.eqb c "/" then EmptyString else String c ""
      | rest' => String c rest'
      end
  end.

(** ** [BaseClient] *)

(** [_handle_404]. *)
Definition _handle_404 : Handler := fun _ => Raise NotFoundError.

(** [_init_factory] gives the serializer, [Factory()] in [BaseClient]
    itself; it is an argument here. *)
Definition __init__ (id : nat) (base_url : string)
    (session : Request -> Res Response) (_init_factory : Factory) : Client :=
  {| obj_id := id;
     base_url := rstrip_slash base_url;
     session := session;
     error_handlers := {[ ("", 404) := _handle_404 ]};
     factory := _init_factory |}.

(** [not handler] for the result of [dict.get]: [None] is false, and a
    function or a bound method is true. *)
Definition not_handler (handler : option Handler) : bool :=
  match handler with
  | None => true
  | Some _ => false
  end.

(** The value of the local variable [handler] once the two lookups of
    [handle_error] are done. *)
Definition handle_error_lookup (method : string) (response : Response)
  : M (option Handler) :=
  table ← attr error_handlers;
  let handler := table !! (method, status_code response) in
  if not_handler handler then
    table ← attr error_handlers;
    mret (table !! ("", status_code response))
  else mret handler.

(** [handle_error]: after the lookups the method raises [ApiError] when no
    handler was found, and otherwise falls off its end, returning [None];
    the handler found is not called. *)
Definition handle_error (method : string) (response : Response) : M PyVal :=
  handler ← handle_error_lookup method response;
  if not_handler handler then
    raise (ApiError (response_str response) None)
  else mret VNone.

(** [params.items()]. *)
Definition py_items (params : PyVal) : Res PyDict :=
  match params with
  | VDict d => Ok d
  | _ => Raise (AttributeError "items")
  end.

(** [skip and v in skip], for [skip] a sequence or [None]. *)
Definition skip_and_in (skip : option (list PyVal)) (v : PyVal) : bool :=
  match skip with
  | None => false
  | Some [] => false
  | Some seq => py_in v seq
  end.

(** [_filter_params]. *)
Definition _filter_params (params : PyVal) (skip : option (list PyVal))
  : M PyVal :=
  if negb (py_truthy params) then mret params
  else
    items ← lift (py_items params);
    self ← attr obj_id;
    mret (VDict (List.filter (fun kv => orb (py_ne (snd kv) (VObj self))
                                           (skip_and_in skip (snd kv)))
                             items)).

(** The two [except] clauses of [request], tried in the order of the
    source: an error of both classes goes to the first. *)
Definition request_handlers (url : string) (error : Exn) : option (M PyVal) :=
  if is_RequestException error then
    Some (_ ← logger_log "ERROR"
                "RequestException when connecting with url: `%s`, error: `%s`"
                [LStr url; LExn error];
          raise (ApiError "RequestException" (Some error)))
  else if is_JSONDecodeError error then
    Some (_ ← logger_log "ERROR"
                "Cannot decode response for url: `%s`, error: `%s`"
                [LStr url; LExn error];
          raise (ApiError "Cannot decode response" (Some error)))
  else None.

(** [request]. *)
Definition request (url method : string) (params body : PyVal)
    (body_class result_class : PyVal) : M PyVal :=
  base ← attr base_url;
  let url := base ++ "/" ++ url in
  _ ← logger_log "DEBUG" "Sending requests to `%s`" [LStr url];
  body ← (if py_truthy body_class then
            fac ← attr factory;
            lift (dump fac body body_class)
          else mret body);
  try_except
    (query ← _filter_params params (Some [result_class; body_class]);
     response ← session_request {| rq_method := method; rq_url := url;
                                   rq_params := query; rq_json := body |};
     if negb (ok response) then handle_error method response
     else
       result ← lift (json response);
       if py_truthy result_class then
         fac ← attr factory;
         lift (load fac result result_class)
       else mret result)
    (request_handlers url).

(** [params.get(body_name)]. *)
Definition py_get (params : PyVal) (key : string) : Res PyVal :=
  match params with
  | VDict d => Ok (default VNone (dict_get key d))
  | _ => Raise (AttributeError "get")
  end.

(** The first two statements of [inner]: the call arguments are bound to
    the parameters of the decorated function, the receiver first, and the
    URL template is formatted with the mapping obtained. *)
Definition inner_bind (r : Route) (self : PyVal) (args : list PyVal)
    (kwargs : PyDict) : Res (PyDict * string) :=
  params ← getcallargs (rt_func r) (self :: args) kwargs;
  url ← str_format (rt_url_format r) params;
  Ok (params, url).

(** [inner(self, *args, **kwargs)], the method the decorator puts in place
    of the decorated function.  A keyword argument named [self] clashes
    with the receiver. *)
Definition inner (r : Route) (args : list PyVal) (kwargs : PyDict)
  : M PyVal :=
  self ← attr obj_id;
  if dict_mem "self" kwargs then
    raise (TypeError "multiple values for argument self")
  else
    bound ← lift (inner_bind r (VObj self) args kwargs);
    fac ← attr factory;
    params ← lift (dump fac (VDict (fst bound)) (VType (rt_args_class r)));
    body ← lift (py_get params (rt_body_name r));
    request (snd bound) (rt_method r) params body
            (rt_body_class r) (rt_result_class r).

(** ** A serializer and a transport for the examples *)

(** A serializer that dumps a dictionary against a [TypedDict] class by
    keeping the declared fields that are present, in the order of the
    declaration, and leaves every other value as it is. *)
Fixpoint project_fields (fields : list (string * TypeDesc)) (d : PyDict)
  : PyDict :=
  match fields with
  | [] => []
  | (k, _) :: fields' =>
      match dict_get k d with
      | Some v => (k, v) :: project_fields fields' d
      | None => project_fields fields' d
      end
  end.

Definition plain_factory : Factory :=
  {| dump := fun value class_ =>
       match class_, value with
       | VType (TTypedDict _ fields), VDict d =>
           Ok (VDict (project_fields fields d))
       | VType (TTypedDict _ _), _ =>
           Raise (OtherError "SerializationError" "not a mapping")
       | _, _ => Ok value
       end;
     load := fun data _ => Ok data |}.

(** A transport that answers every request with the same response. *)
Definition fixed_session (r : Response) : Request -> Res Response :=
  fun _ => Ok r.

(** A transport that cannot connect. *)
Definition failing_session (e : Exn) : Request -> Res Response :=
  fun _ => Raise e.

(** The state before the first call of a client, with the logging
    defaults. *)
Definition fresh (c : Client) : State :=
  {| st_self := c; st_sent := []; st_logger := default_logging;
     st_log := [] |}.

(** The same state, with the logger set to record every level. *)
Definition fresh_verbose (c : Client) : State :=
  {| st_self := c; st_sent := []; st_logger := debug_logging;
     st_log := [] |}.

(** ** Clients and methods for the examples *)

(** A handler for [GET] and 404. *)
Definition gone_handler : Handler :=
  fun _ => Raise (OtherError "GoneError" "").

(** A client whose table has an entry for [GET] and 404 next to the
    default one, and whose transport answers 404. *)
Definition routed_client : Client :=
  {| obj_id := 1;
     base_url := "http://api";
     session := fixed_session {| ok := false; status_code := 404;
                                 json := Ok VNone |};
     error_handlers := <[ ("GET", 404) := gone_handler ]>
                         {[ ("", 404) := _handle_404 ]};
     factory := plain_factory |}.

Definition offline_client : Client :=
  __init__ 1 "http://api/"
    (failing_session (RequestException "connection refused")) plain_factory.

(** A client whose transport answers 200 with a body that is not JSON
    and reports it with the error of the [json] module. *)
Definition garbled_client : Client :=
  __init__ 1 "http://api/"
    (fixed_session {| ok := true; status_code := 200;
                      json := Raise (JSONDecodeError "Expecting value") |})
    plain_factory.

(** The same, with the error that [requests] raises from
    [Response.json()]. *)
Definition undecodable_client : Client :=
  __init__ 1 "http://api/"
    (fixed_session {| ok := true; status_code := 200;
                      json := Raise (RequestsJSONDecodeError
                                       "Expecting value") |})
    plain_factory.

(** A serializer that loads the integer [n] into instance number [n] of
    the result class, and a client whose transport answers 200 with
    body [7]. *)
Definition boxing_factory : Factory :=
  {| dump := dump plain_factory;
     load := fun data _ =>
       match data with
       | VInt n => Ok (VObj (Z.to_nat n))
       | _ => Raise (OtherError "SerializationError" "not a number")
       end |}.

Definition answering_client : Client :=
  __init__ 1 "http://api/"
    (fixed_session {| ok := true; status_code := 200; json := Ok (VInt 7) |})
    boxing_factory.

(** [def list_items(self, id: int, kind: str = "open", page: int = 1)]
    under [@get("todos/{id}/items/{kind}")]. *)
Definition list_items : FuncDecl :=
  {| fn_name := "list_items";
     fn_args := ["self"; "id"; "kind"; "page"];
     fn_defaults := [VStr "open"; VInt 1];
     fn_annotations := [("id", TClass "int"); ("kind", TClass "str");
                        ("page", TClass "int")] |}.

Definition items_route : Route :=
  {| rt_func := list_items;
     rt_url_format := "todos/{id}/items/{kind}";
     rt_method := "GET";
     rt_body_name := "";
     rt_result_class := VNone;
     rt_body_class := VNone;
     rt_args_class := TTypedDict "list_items_Args" [("page", TClass "int")] |}.

(** [def get_todo(self, id: int) -> Todo]. *)
Definition get_todo : FuncDecl :=
  {| fn_name := "get_todo";
     fn_args := ["self"; "id"];
     fn_defaults := [];
     fn_annotations := [("id", TClass "int"); ("return", TClass "Todo")] |}.

(** [def add_todo(self, body: Todo, tag: str) -> Todo] under
    [@post("todos")]. *)
Definition add_todo : FuncDecl :=
  {| fn_name := "add_todo";
     fn_args := ["self"; "body"; "tag"];
     fn_defaults := [];
     fn_annotations := [("body", TClass "Todo"); ("tag", TClass "str");
                        ("return", TClass "Todo")] |}.

Definition add_todo_route : Route :=
  {| rt_func := add_todo;
     rt_url_format := "todos";
     rt_method := "POST";
     rt_body_name := "body";
     rt_result_class := VType (TClass "Todo");
     rt_body_class := VType (TClass "Todo");
     rt_args_class := TTypedDict "add_todo_Args" [("tag", TClass "str")] |}.

(** * Notions used in the statements *)

(** ** Frame *)

(** The computation [m] leaves the component [f] of the state as it
    was. *)
Definition preserves {A X} (f : State -> X) (m : M A) : Prop :=
  forall st, f (snd (m st)) = f st.

(** The computation leaves the client object alone. *)
Definition keeps_client {A} (m : M A) : Prop := preserves st_self m.

(** ** Filtering *)

(** The test of the comprehension in [_filter_params], negated: an entry
    is dropped when its value equals the client and is not in [skip]. *)
Definition is_dropped (self : nat) (skip : list PyVal) (v : PyVal) : bool :=
  py_eq v (VObj self) && negb (py_in v skip).

(** Type objects and [None], the values that [hints.get] returns. *)
Definition is_class_or_none (v : PyVal) : bool :=
  match v with
  | VNone | VType _ => true
  | _ => false
  end.

(** The filter as the specification words it: the entries that remain are
    exactly those whose value is neither of the two sentinels. *)
Definition drops_exactly_sentinels (st : State) (d : PyDict)
    (result_class body_class : PyVal) : Prop :=
  exists d',
    _filter_params (VDict d) (Some [result_class; body_class]) st =
      (Ok (VDict d'), st)
    /\ forall k v, In (k, v) d' <->
                   In (k, v) d /\ v <> result_class /\ v <> body_class.

(** ** Dispatch *)

(** The request handed to the transport by [request], given the body and
    the query parameters that the first steps computed. *)
Definition request_sent (c : Client) (url method : string)
    (query body : PyVal) : Request :=
  {| rq_method := method; rq_url := base_url c ++ "/" ++ url;
     rq_params := query; rq_json := body |}.

(** [body = self.factory.dump(body, body_class)] under [if body_class:]. *)
Definition request_body (c : Client) (body body_class : PyVal) : Res PyVal :=
  if py_truthy body_class then dump (factory c) body body_class else Ok body.

(** ** Templates as segments *)

(** A template read as a sequence of literal text and placeholders. *)
Inductive Segment : Type :=
  | Lit (text : string)
  | Field (name : string).

(** Literal text as it is written in a template: braces are doubled. *)
Fixpoint escape_braces (s : string) : string :=
  match s with
  | EmptyString => EmptyString
  | String c rest =>
      if Ascii.eqb c "{" then String "{" (String "{" (escape_braces rest))
      else if Ascii.eqb c "}" then String "}" (String "}" (escape_braces rest))
      else String c (escape_braces rest)
  end.

Definition render_segment (seg : Segment) : string :=
  match seg with
  | Lit text => escape_braces text
  | Field name => "{" ++ name ++ "}"
  end.

Fixpoint render_template (segs : list Segment) : string :=
  match segs with
  | [] => ""
  | seg :: segs' => render_segment seg ++ render_template segs'
  end.

(** A placeholder name that is looked up among the keyword arguments as
    it stands: not empty, not a number, and free of the characters that
    end a name or start a conversion, a format specification, an index or
    an attribute.  Every Python identifier is such a name. *)
Definition plain_char (c : ascii) : bool :=
  negb (Ascii.eqb c "{" || Ascii.eqb c "}" || Ascii.eqb c "[" ||
        Ascii.eqb c ":" || Ascii.eqb c "!" || Ascii.eqb c ".").

Definition plain_name (name : string) : bool :=
  negb (String.eqb name "") && negb (all_digits name) &&
  forallb plain_char (list_ascii_of_string name).

Definition plain_segment (seg : Segment) : bool :=
  match seg with
  | Lit _ => true
  | Field name => plain_name name
  end.

(** Python identifiers, on ASCII: a letter or an underscore, followed by
    letters, digits and underscores.  Parameter names are identifiers. *)
Definition is_ident_start (c : ascii) : bool :=
  let n := nat_of_ascii c in
  ((65 <=? n) && (n <=? 90) || (97 <=? n) && (n <=? 122) || (n =? 95))%nat.

Definition is_ident_char (c : ascii) : bool :=
  let n := nat_of_ascii c in
  is_ident_start c || ((48 <=? n) && (n <=? 57))%nat.

Definition is_identifier (name : string) : bool :=
  match name with
  | EmptyString => false
  | String c rest =>
      is_ident_start c && forallb is_ident_char (list_ascii_of_string rest)
  end.

(** The text that stands for placeholder [name]: the string form of the
    value bound to it, and [KeyError] when there is none. *)
Definition field_value (kwargs : PyDict) (name : string) : Res string :=
  match dict_get name kwargs with
  | Some v => py_str v
  | None => Raise (KeyError name)
  end.

(** The template with its placeholders replaced from left to right. *)
Fixpoint substitute (kwargs : PyDict) (segs : list Segment) : Res string :=
  match segs with
  | [] => Ok ""
  | Lit text :: segs' => String.append text <$> substitute kwargs segs'
  | Field name :: segs' =>
      text ← field_value kwargs name;
      rest ← substitute kwargs segs';
      Ok (text ++ rest)
  end.

(** The outcome [r] of formatting the rest of a template, after the text
    [out] already produced. *)
Definition with_prefix (out : string) (r : Res string) : Res string :=
  String.append out <$> r.

(** The string form of a primitive value. *)
Definition py_text (v : PyVal) : string :=
  match py_str v with
  | Ok s => s
  | _ => ""
  end.

(** The template with every placeholder replaced by the string form of the
    value bound to its name. *)
Definition segment_text (params : PyDict) (seg : Segment) : string :=
  match seg with
  | Lit text => text
  | Field name =>
      match dict_get name params with
      | Some v => py_text v
      | None => ""
      end
  end.

Fixpoint fill_template (params : PyDict) (segs : list Segment) : string :=
  match segs with
  | [] => ""
  | seg :: segs' => segment_text params seg ++ fill_template params segs'
  end.

(** Every placeholder of [segs] is bound to a primitive value. *)
Definition bound_to_primitive (params : PyDict) (seg : Segment) : bool :=
  match seg with
  | Lit _ => true
  | Field name =>
      match dict_get name params with
      | Some v => is_primitive v
      | None => false
      end
  end.

Definition bound_to_primitives (params : PyDict) (segs : list Segment)
  : bool :=
  forallb (bound_to_primitive params) segs.

Definition is_field (x : string) (seg : Segment) : bool :=
  match seg with
  | Lit _ => false
  | Field name => String.eqb name x
  end.

(** The names collected from the chunks of [m] are the placeholders of
    [segs]. *)
Definition names_of (m : Markup) (segs : list Segment) : Prop :=
  exists names,
    field_names m = Ok names
    /\ forall x, in_skipped x names = existsb (is_field x) segs.

Definition items_template : list Segment :=
  [Lit "todos/"; Field "id"; Lit "/items/"; Field "kind"].

(** ** Binding *)

(** Dictionaries with the same entries, whatever their order. *)
Definition dict_equiv (d1 d2 : PyDict) : Prop :=
  forall k, dict_get k d1 = dict_get k d2.

(** Two outcomes of a binding that agree: the same failure, or mappings
    with the same entries. *)
Definition same_binding (r1 r2 : Res PyDict) : Prop :=
  match r1, r2 with
  | Ok d1, Ok d2 => dict_equiv d1 d2
  | Raise e1, Raise e2 => e1 = e2
  | Beyond w1, Beyond w2 => w1 = w2
  | _, _ => False
  end.

(** The steps of [getcallargs] that follow the two binding loops, for
    [num_pos] positional arguments. *)
Definition getcallargs_checks (func : FuncDecl) (num_pos : nat)
    (arg2value : PyDict) : Res PyDict :=
  let args := fn_args func in
  let num_args := length args in
  let num_defaults := length (fn_defaults func) in
  if (num_args <? num_pos)%nat then
    Raise (TypeError "too many positional arguments")
  else if (num_pos <? num_args)%nat then
    _ ← check_required (firstn (num_args - num_defaults) args) arg2value;
    Ok (fill_defaults (skipn (num_args - num_defaults) args)
          (fn_defaults func) arg2value)
  else Ok arg2value.

(** The default value of parameter [n], when it has one: the defaults
    belong to the last parameters. *)
Definition default_of (func : FuncDecl) (n : string) : option PyVal :=
  let args := fn_args func in
  let ds := fn_defaults func in
  dict_get n (combine (skipn (length args - length ds) args) ds).

(** The serializer dumps two mappings with the same entries to the same
    value for the class [t], whatever the order in which the entries were
    inserted. *)
Definition dump_ignores_order (fac : Factory) (t : TypeDesc) : Prop :=
  forall d1 d2 : PyDict,
    dict_equiv d1 d2 -> dump fac (VDict d1) (VType t) = dump fac (VDict d2) (VType t).


(** * Further notions *)

(** ** The convenience methods of [BaseClient] *)

(** [post], [get], [delete], [patch] and [put] are [partialmethod]s of
    [request] with the verb preset ([get] and [delete] also preset
    [body=None], which is the default of [request] anyway).  A keyword
    of the call overrides the preset one; an argument left out ([None]
    here) takes its preset or default value. *)
Module BaseClient.

Definition partial_request (preset_method : string) (url : string)
    (method : option string) (params body body_class result_class
      : option PyVal) : M PyVal :=
  request url (default preset_method method) (default VNone params)
    (default VNone body) (default VNone body_class)
    (default VNone result_class).

Definition post := partial_request "POST".
Definition get := partial_request "GET".
Definition delete := partial_request "DELETE".
Definition patch := partial_request "PATCH".
Definition put := partial_request "PUT".

End BaseClient.

(** ** Base URLs *)

(** [n] slashes. *)
Fixpoint slashes (n : nat) : string :=
  match n with
  | O => ""
  | S n' => String "/" (slashes n')
  end.

(** [s.endswith("/")]. *)
Fixpoint ends_with_slash (s : string) : bool :=
  match s with
  | EmptyString => false
  | String c EmptyString => Ascii.eqb c "/"
  | String _ rest => ends_with_slash rest
  end.

(** ** Handler tables *)

(** Some handler is registered for the verb and the code, or for the
    empty verb and the code. *)
Definition has_handler (table : gmap (string * Z) Handler)
    (method : string) (code : Z) : bool :=
  match table !! (method, code) with
  | Some _ => true
  | None =>
      match table !! ("", code) with
      | Some _ => true
      | None => false
      end
  end.

(** ** Argument classes *)

(** The fields of a [TypedDict] class. *)
Definition fields_of (t : TypeDesc) : list (string * TypeDesc) :=
  match t with
  | TTypedDict _ fields => fields
  | _ => []
  end.

(** [x] is a placeholder of the template. *)
Definition is_placeholder (x : string) (segs : list Segment) : bool :=
  existsb (is_field x) segs.

(** [x] is a parameter other than the first one, the receiver. *)
Definition is_later_parameter (x : string) (func : FuncDecl) : bool :=
  existsb (String.eqb x) (tl (fn_args func)).

(** The serializer returned a mapping with no key beyond the fields of
    the class it was given. *)
Definition only_fields (dumped : PyDict) (t : TypeDesc) : bool :=
  forallb (fun kv => dict_mem (fst kv) (fields_of t)) dumped.

(** Some keyword of the call is no parameter of the function. *)
Definition has_unknown_keyword (func : FuncDecl) (kwargs : PyDict) : bool :=
  existsb (fun kv => negb (existsb (String.eqb (fst kv)) (fn_args func)))
          kwargs.

(** ** More clients for the examples *)

(** A client whose transport answers 500. *)
Definition erroring_client : Client :=
  __init__ 1 "http://api/"
    (fixed_session {| ok := false; status_code := 500; json := Ok VNone |})
    plain_factory.

(** A client whose transport answers 200 with a body that the serializer
    does not load. *)
Definition mistyped_client : Client :=
  __init__ 1 "http://api/"
    (fixed_session {| ok := true; status_code := 200;
                      json := Ok (VStr "seven") |})
    boxing_factory.

(** A client whose serializer refuses everything. *)
Definition refusing_factory : Factory :=
  {| dump := fun _ _ => Raise (OtherError "SerializationError" "refused");
     load := fun _ _ => Raise (OtherError "SerializationError" "refused") |}.

Definition refusing_client : Client :=
  __init__ 1 "http://api/"
    (fixed_session {| ok := true; status_code := 200; json := Ok VNone |})
    refusing_factory.
(** * Properties *)

(** ** Running the monad *)

Lemma run_bind {A B} (m : M A) (k : A -> M B) (st : State) :
  (m ≫= k) st =
  match m st with
  | (Ok a, st') => k a st'
  | (Raise e, st') => (Raise e, st')
  | (Beyond w, st') => (Beyond w, st')
  end.
Proof. reflexivity. Qed.

Lemma run_ret {A} (a : A) (st : State) : (mret a : M A) st = (Ok a, st).
Proof. reflexivity. Qed.

Lemma run_attr {A} (f : Client -> A) (st : State) :
  attr f st = (Ok (f (st_self st)), st).
Proof. reflexivity. Qed.

Lemma run_lift {A} (r : Res A) (st : State) : lift r st = (r, st).
Proof. reflexivity. Qed.

Ltac run_m :=
  repeat (rewrite ?run_bind, ?run_ret, ?run_attr, ?run_lift; cbn [fst snd]).

(** ** Frame: what a computation leaves alone *)

Section Preserves.
Context {X : Type} (f : State -> X).

Lemma preserves_ret {A} (a : A) : preserves f (mret a : M A).
Proof. intros st. reflexivity. Qed.

Lemma preserves_lift {A} (r : Res A) : preserves f (lift r).
Proof. intros st. reflexivity. Qed.

Lemma preserves_raise {A} (e : Exn) : preserves f (raise e : M A).
Proof. intros st. reflexivity. Qed.

Lemma preserves_attr {A} (g : Client -> A) : preserves f (attr g).
Proof. intros st. reflexivity. Qed.

Lemma preserves_bind {A B} (m : M A) (k : A -> M B) :
  preserves f m -> (forall a, preserves f (k a)) -> preserves f (m ≫= k).
Proof.
  intros Hm Hk st. rewrite run_bind. specialize (Hm st).
  destruct (m st) as [[a | e | w] st']; cbn in *.
  - rewrite Hk. exact Hm.
  - exact Hm.
  - exact Hm.
Qed.

Lemma preserves_try_except {A} (body : M A)
    (handlers : Exn -> option (M A)) :
  preserves f body ->
  (forall e clause, handlers e = Some clause -> preserves f clause) ->
  preserves f (try_except body handlers).
Proof.
  intros Hb Hh st. unfold try_except. specialize (Hb st).
  destruct (body st) as [[a | e | w] st']; cbn in *; try exact Hb.
  destruct (handlers e) as [clause |] eqn:Hc; cbn; try exact Hb.
  rewrite (Hh _ _ Hc). exact Hb.
Qed.

Lemma preserves_if {A} (b : bool) (m1 m2 : M A) :
  preserves f m1 -> preserves f m2 -> preserves f (if b then m1 else m2).
Proof. destruct b; auto. Qed.
End Preserves.

(** The logger touches neither the client nor the
    requests sent; the transport is handed the request and does not touch
    the client. *)
Lemma logger_log_keeps_client level msg args :
  preserves st_self (logger_log level msg args).
Proof. intros st. reflexivity. Qed.

Lemma logger_log_keeps_sent level msg args :
  preserves st_sent (logger_log level msg args).
Proof. intros st. reflexivity. Qed.

Lemma session_request_keeps_client (rq : Request) :
  preserves st_self (session_request rq).
Proof. intros st. reflexivity. Qed.

Create HintDb frame.
#[local] Hint Resolve preserves_ret preserves_lift preserves_raise
  preserves_attr preserves_bind preserves_try_except preserves_if
  logger_log_keeps_client logger_log_keeps_sent
  session_request_keeps_client : frame.

(** Assignment to an attribute is what the frame property rules out. *)
Lemma set_self_changes (c : Client) (st : State) :
  st_self (snd (set_self c st)) = c.
Proof. reflexivity. Qed.

(** Error routing and filtering read the client and change nothing. *)
Lemma preserves_handle_error_lookup {X} (f : State -> X) method response :
  preserves f (handle_error_lookup method response).
Proof. unfold handle_error_lookup. auto 8 with frame. Qed.

Lemma preserves_handle_error {X} (f : State -> X) method response :
  preserves f (handle_error method response).
Proof.
  unfold handle_error. apply preserves_bind.
  - apply preserves_handle_error_lookup.
  - intros handler. auto with frame.
Qed.

Lemma preserves_filter_params {X} (f : State -> X) params skip :
  preserves f (_filter_params params skip).
Proof. unfold _filter_params. auto 8 with frame. Qed.

Lemma request_handlers_keep_client url e clause :
  request_handlers url e = Some clause -> preserves st_self clause.
Proof.
  unfold request_handlers.
  destruct (is_RequestException e); [| destruct (is_JSONDecodeError e)];
    intros H; inversion H; subst; clear H; auto 8 with frame.
Qed.

Lemma request_handlers_keep_sent url e clause :
  request_handlers url e = Some clause -> preserves st_sent clause.
Proof.
  unfold request_handlers.
  destruct (is_RequestException e); [| destruct (is_JSONDecodeError e)];
    intros H; inversion H; subst; clear H; auto 8 with frame.
Qed.

Lemma keeps_request url method params body body_class result_class :
  keeps_client (request url method params body body_class result_class).
Proof.
  unfold keeps_client, request.
  apply preserves_bind; [auto with frame | intros base].
  apply preserves_bind; [auto with frame | intros _].
  apply preserves_bind; [auto 8 with frame | intros body'].
  apply preserves_try_except.
  - apply preserves_bind; [apply preserves_filter_params | intros query].
    apply preserves_bind; [auto with frame | intros response].
    apply preserves_if; [apply preserves_handle_error | auto 8 with frame].
  - apply request_handlers_keep_client.
Qed.

Lemma keeps_inner r args kwargs : keeps_client (inner r args kwargs).
Proof.
  pose proof keeps_request as Hrequest.
  unfold keeps_client in *. unfold inner. auto 12 with frame.
Qed.

(** C10.  Request dispatch, query-parameter filtering and error routing
    leave the client object as it was, whether they return or raise: after
    the call the base URL, the session, the entries of the error-handler
    table and the serializer are the ones from before the call. *)
Theorem per_call_operations_keep_client
    (st : State) (url method : string)
    (params body body_class result_class : PyVal)
    (skip : option (list PyVal)) (response : Response) :
  let unchanged (st' : State) :=
    st_self st' = st_self st /\
    base_url (st_self st') = base_url (st_self st) /\
    session (st_self st') = session (st_self st) /\
    error_handlers (st_self st') = error_handlers (st_self st) /\
    factory (st_self st') = factory (st_self st) in
  unchanged (snd (request url method params body body_class result_class st))
  /\ unchanged (snd (_filter_params params skip st))
  /\ unchanged (snd (handle_error method response st)).
Proof.
  cbv beta zeta.
  pose proof (keeps_request url method params body body_class result_class st)
    as Hr.
  pose proof (preserves_filter_params st_self params skip st) as Hf.
  pose proof (preserves_handle_error st_self method response st) as Hh.
  rewrite Hr, Hf, Hh. tauto.
Qed.

(** ** Error routing *)

(** C5.  [handle_error] selects the handler in this order: the entry for
    the verb and the status code when there is one; otherwise the entry
    for the empty verb and the status code when there is one.  In both
    cases the method raises no [ApiError]: it ends with the entry selected
    in its local variable and returns [None].  When there is neither
    entry, it raises [ApiError] with the text of the response. *)
Theorem handler_lookup_order
    (st : State) (method : string) (response : Response) :
  let table := error_handlers (st_self st) in
  let code := status_code response in
  (forall h, table !! (method, code) = Some h ->
     handle_error_lookup method response st = (Ok (Some h), st)
     /\ handle_error method response st = (Ok VNone, st))
  /\ (forall h, table !! (method, code) = None ->
        table !! ("", code) = Some h ->
        handle_error_lookup method response st = (Ok (Some h), st)
        /\ handle_error method response st = (Ok VNone, st))
  /\ (table !! (method, code) = None ->
      table !! ("", code) = None ->
      handle_error_lookup method response st = (Ok None, st)
      /\ handle_error method response st =
         (Raise (ApiError (response_str response) None), st)).
Proof.
  cbv zeta.
  assert (Hnone : error_handlers (st_self st) !! (method, status_code response)
                  = None ->
                  handle_error_lookup method response st =
                  (Ok (error_handlers (st_self st) !! ("", status_code response)),
                   st)).
  { intros Hexact. unfold handle_error_lookup. run_m.
    rewrite Hexact. reflexivity. }
  assert (Hsome : forall h,
            error_handlers (st_self st) !! (method, status_code response)
            = Some h ->
            handle_error_lookup method response st = (Ok (Some h), st)).
  { intros h Hexact. unfold handle_error_lookup. run_m.
    rewrite Hexact. reflexivity. }
  split; [| split].
  - intros h Hexact. split; [exact (Hsome h Hexact) |].
    unfold handle_error. rewrite run_bind, (Hsome h Hexact). reflexivity.
  - intros h Hexact Hwild. split.
    + rewrite (Hnone Hexact), Hwild. reflexivity.
    + unfold handle_error. rewrite run_bind, (Hnone Hexact), Hwild.
      reflexivity.
  - intros Hexact Hwild. split.
    + rewrite (Hnone Hexact), Hwild. reflexivity.
    + unfold handle_error. rewrite run_bind, (Hnone Hexact), Hwild.
      reflexivity.
Qed.

(** With the table of a new client, a 404 finds the handler
    [_handle_404] for every verb, and that handler raises
    [NotFoundError] when it is called. *)
Lemma default_table_finds_404 id url sess fac method response :
  status_code response = 404 ->
  exists h,
    handle_error_lookup method response (fresh (__init__ id url sess fac)) =
      (Ok (Some h), fresh (__init__ id url sess fac))
    /\ h response = Raise NotFoundError.
Proof.
  intros Hc. exists _handle_404. split; [| reflexivity].
  unfold handle_error_lookup. run_m. rewrite Hc. cbn.
  rewrite lookup_singleton. case_decide; cbn.
  - reflexivity.
  - run_m. cbn. rewrite lookup_singleton_eq. reflexivity.
Qed.

(** C1, as the code has it: with the table of a new client, [handle_error]
    on a response with status 404 returns [None] for every verb; the
    handler it finds is not called and nothing is raised. *)
Theorem handle_error_404_returns_none
    (id : nat) (url : string) (sess : Request -> Res Response)
    (fac : Factory) (method : string) (is_ok : bool) (body : Res PyVal) :
  handle_error method {| ok := is_ok; status_code := 404; json := body |}
    (fresh (__init__ id url sess fac))
  = (Ok VNone, fresh (__init__ id url sess fac)).
Proof.
  unfold handle_error, handle_error_lookup. run_m. cbn.
  rewrite lookup_singleton. case_decide; cbn.
  - reflexivity.
  - run_m. cbn. rewrite lookup_singleton_eq. reflexivity.
Qed.

(** With the table of a new client, every other status code raises
    [ApiError]. *)
Lemma handle_error_default_other id url sess fac method response :
  status_code response <> 404 ->
  handle_error method response (fresh (__init__ id url sess fac)) =
  (Raise (ApiError (response_str response) None),
   fresh (__init__ id url sess fac)).
Proof.
  intros Hc. unfold handle_error, handle_error_lookup. run_m. cbn.
  rewrite lookup_singleton_ne by congruence. cbn. run_m. cbn.
  rewrite lookup_singleton_ne by congruence. reflexivity.
Qed.

Lemma handler_lookup_order_witness :
  let st := fresh routed_client in
  let status c := {| ok := false; status_code := c; json := Ok VNone |} in
  (handle_error_lookup "GET" (status 404) st = (Ok (Some gone_handler), st)
   /\ handle_error "GET" (status 404) st = (Ok VNone, st))
  /\ (handle_error_lookup "DELETE" (status 404) st
      = (Ok (Some _handle_404), st)
      /\ handle_error "DELETE" (status 404) st = (Ok VNone, st))
  /\ (handle_error_lookup "GET" (status 500) st = (Ok None, st)
      /\ handle_error "GET" (status 500) st =
         (Raise (ApiError "<Response [500]>" None), st)).
Proof.
  cbv zeta. split; [| split].
  - apply (proj1 (handler_lookup_order (fresh routed_client) "GET"
                    {| ok := false; status_code := 404; json := Ok VNone |})).
    vm_compute. reflexivity.
  - apply (proj1 (proj2 (handler_lookup_order (fresh routed_client) "DELETE"
                    {| ok := false; status_code := 404; json := Ok VNone |}))).
    + vm_compute. reflexivity.
    + vm_compute. reflexivity.
  - apply (proj2 (proj2 (handler_lookup_order (fresh routed_client) "GET"
                    {| ok := false; status_code := 500; json := Ok VNone |}))).
    + vm_compute. reflexivity.
    + vm_compute. reflexivity.
Defined.

(** ** Query-parameter filtering *)

Lemma py_eq_obj (v : PyVal) (self : nat) :
  py_eq v (VObj self) = true <-> v = VObj self.
Proof.
  destruct v; cbn; split; intros H; try discriminate.
  - apply Nat.eqb_eq in H. congruence.
  - inversion H. apply Nat.eqb_refl.
Qed.

Lemma is_dropped_client_only (self : nat) (rc bc v : PyVal) :
  is_class_or_none rc = true -> is_class_or_none bc = true ->
  (is_dropped self [rc; bc] v = true <-> v = VObj self).
Proof.
  intros Hrc Hbc. unfold is_dropped. rewrite andb_true_iff, py_eq_obj.
  split.
  - intros [H _]. exact H.
  - intros ->. split; [reflexivity |].
    destruct rc; try discriminate; destruct bc; try discriminate; reflexivity.
Qed.

Lemma run_filter_params_dict (st : State) (d : PyDict)
    (skip : option (list PyVal)) :
  d <> [] ->
  _filter_params (VDict d) skip st =
  (Ok (VDict (List.filter
                (fun kv => py_ne (snd kv) (VObj (obj_id (st_self st)))
                           || skip_and_in skip (snd kv)) d)), st).
Proof.
  intros Hd. unfold _filter_params. destruct d as [| kv d]; [congruence |].
  reflexivity.
Qed.

(** The filter of [request] on a mapping that is not empty, with the test
    of the comprehension read as the condition for dropping an entry. *)
Lemma filter_params_dict_dropped (st : State) (d : PyDict)
    (result_class body_class : PyVal) :
  d <> [] ->
  _filter_params (VDict d) (Some [result_class; body_class]) st =
  (Ok (VDict (List.filter
                (fun kv => negb (is_dropped (obj_id (st_self st))
                                   [result_class; body_class] (snd kv))) d)),
   st).
Proof.
  intros Hd. rewrite run_filter_params_dict by exact Hd. do 3 f_equal.
  apply List.filter_ext. intros [k v]. unfold is_dropped, py_ne, skip_and_in.
  cbn [snd]. rewrite negb_andb, negb_involutive. reflexivity.
Qed.

(** C2, amended.  A mapping that is empty or [None] is returned as it is.
    From any other mapping the filter of [request] drops exactly the
    entries whose value equals the client object itself and is not one of
    the two skip sentinels; every other entry is kept, in the same order
    and with the same value, an entry whose value is one of the sentinels
    included. *)
Theorem filter_params_drops_client_entries
    (st : State) (params result_class body_class : PyVal) :
  let self := obj_id (st_self st) in
  let skip := [result_class; body_class] in
  (py_truthy params = false ->
     _filter_params params (Some skip) st = (Ok params, st))
  /\ (forall d, params = VDict d -> d <> [] ->
        _filter_params params (Some skip) st =
          (Ok (VDict (List.filter
                        (fun kv => negb (is_dropped self skip (snd kv))) d)),
           st)
        /\ forall k v, In (k, v) d -> py_in v skip = true ->
             In (k, v) (List.filter
                          (fun kv => negb (is_dropped self skip (snd kv))) d)).
Proof.
  cbv zeta. split.
  - intros Hfalse. unfold _filter_params. rewrite Hfalse. reflexivity.
  - intros d -> Hd. split.
    + apply filter_params_dict_dropped, Hd.
    + intros k v Hin Hskip. apply List.filter_In. split; [exact Hin |].
      unfold is_dropped. cbn [snd]. rewrite Hskip.
      rewrite andb_false_r. reflexivity.
Qed.

Lemma filter_params_drops_client_entries_witness :
  let st := fresh routed_client in
  let todo := VType (TClass "Todo") in
  _filter_params VNone (Some [todo; VNone]) st = (Ok VNone, st)
  /\ _filter_params (VDict [("kind", todo); ("me", VObj 1); ("page", VInt 2)])
       (Some [todo; VNone]) st
     = (Ok (VDict [("kind", todo); ("page", VInt 2)]), st)
  /\ In ("kind", todo) [("kind", todo); ("page", VInt 2)].
Proof.
  cbv zeta.
  pose proof (filter_params_drops_client_entries (fresh routed_client) VNone
                (VType (TClass "Todo")) VNone) as Hnone.
  pose proof (filter_params_drops_client_entries (fresh routed_client)
                (VDict [("kind", VType (TClass "Todo")); ("me", VObj 1);
                        ("page", VInt 2)])
                (VType (TClass "Todo")) VNone) as Hdict.
  cbv zeta in Hnone, Hdict.
  destruct Hnone as [Hnone _]. destruct Hdict as [_ Hdict].
  specialize (Hnone eq_refl).
  specialize (Hdict _ eq_refl ltac:(discriminate)).
  destruct Hdict as [Hrun Hkept].
  split; [exact Hnone | split; [exact Hrun |]].
  apply (Hkept "kind" (VType (TClass "Todo"))).
  - left. reflexivity.
  - reflexivity.
Defined.

(** An entry whose value is the result class goes through the filter, and
    an entry whose value is the client does not. *)
Lemma filter_params_keeps_sentinel :
  ~ drops_exactly_sentinels (fresh routed_client)
      [("kind", VType (TClass "Todo")); ("me", VObj 1); ("page", VInt 2)]
      (VType (TClass "Todo")) VNone.
Proof.
  intros [d' [Hrun Hiff]].
  rewrite run_filter_params_dict in Hrun by discriminate.
  cbn in Hrun. inversion Hrun as [Hd']. clear Hrun.
  destruct (proj1 (Hiff "kind" (VType (TClass "Todo")))) as [_ [Hne _]].
  - rewrite <- Hd'. left. reflexivity.
  - apply Hne. reflexivity.
Qed.

(** ** The dispatcher *)

(** The filter reads the identity of the client and nothing else of the
    state, which it returns as it found it. *)
Lemma run_filter_params (st st' : State) params skip :
  st_self st' = st_self st ->
  _filter_params params skip st' = (fst (_filter_params params skip st), st').
Proof.
  intros Hself. unfold _filter_params.
  destruct (negb (py_truthy params)); [reflexivity |].
  run_m. destruct (py_items params) as [items | e | w]; cbn; try reflexivity.
  run_m. rewrite Hself. reflexivity.
Qed.

(** What [request] does once the body is serialized and the query
    parameters are filtered: it logs, hands the request to the transport
    and deals with the outcome under the two [except] clauses. *)
Lemma run_request (st : State) (url method : string)
    (params body body_class result_class body' query : PyVal) :
  let c := st_self st in
  let full := base_url c ++ "/" ++ url in
  request_body c body body_class = Ok body' ->
  fst (_filter_params params (Some [result_class; body_class]) st) = Ok query ->
  request url method params body body_class result_class st =
  try_except
    (response ← session_request (request_sent c url method query body');
     if negb (ok response) then handle_error method response
     else
       result ← lift (json response);
       if py_truthy result_class then
         fac ← attr factory;
         lift (load fac result result_class)
       else mret result)
    (request_handlers full)
    {| st_self := c; st_sent := st_sent st; st_logger := st_logger st;
       st_log := log_after (st_logger st) "DEBUG" "Sending requests to `%s`"
                   [LStr full] (st_log st) |}.
Proof.
  cbv zeta. intros Hbody Hquery. unfold request, request_body in *.
  rewrite run_bind, run_attr. rewrite run_bind. cbn [logger_log].
  rewrite run_bind.
  set (st1 := {| st_self := st_self st; st_sent := st_sent st; st_log := _ |}).
  assert (Hb : (if py_truthy body_class
                then fac ← attr factory; lift (dump fac body body_class)
                else mret body) st1 = (Ok body', st1)).
  { destruct (py_truthy body_class).
    - rewrite run_bind, run_attr, run_lift. cbn. rewrite Hbody. reflexivity.
    - inversion Hbody. reflexivity. }
  rewrite Hb. unfold try_except. rewrite !run_bind.
  rewrite (run_filter_params st st1) by reflexivity. rewrite Hquery.
  reflexivity.
Qed.

(** C6.  When the transport raises a [RequestException] for the request
    that [request] hands to it, [request] raises [ApiError] with the
    message [RequestException] and with the transport's error as its
    cause, never the transport's error itself. *)
Theorem request_wraps_transport_failure
    (st : State) (url method : string)
    (params body body_class result_class body' query : PyVal) (e : Exn) :
  let c := st_self st in
  request_body c body body_class = Ok body' ->
  fst (_filter_params params (Some [result_class; body_class]) st) = Ok query ->
  session c (request_sent c url method query body') = Raise e ->
  is_RequestException e = true ->
  fst (request url method params body body_class result_class st)
  = Raise (ApiError "RequestException" (Some e))
  /\ fst (request url method params body body_class result_class st)
     <> Raise e.
Proof.
  cbv zeta. intros Hbody Hquery Hsend He.
  rewrite (run_request st url method params body body_class result_class
             body' query Hbody Hquery).
  unfold try_except. rewrite run_bind. unfold session_request.
  cbn [st_self]. rewrite Hsend. unfold request_handlers. rewrite He.
  cbn. split; [reflexivity |].
  destruct e; try discriminate.
Qed.

(** What [request] does with a success response whose [json()] raises:
    the error goes to the [except] clauses. *)
Lemma run_request_json_raises
    (st : State) (url method : string)
    (params body body_class result_class body' query : PyVal)
    (response : Response) (e : Exn) :
  let c := st_self st in
  let full := base_url c ++ "/" ++ url in
  request_body c body body_class = Ok body' ->
  fst (_filter_params params (Some [result_class; body_class]) st) = Ok query ->
  session c (request_sent c url method query body') = Ok response ->
  ok response = true ->
  json response = Raise e ->
  request url method params body body_class result_class st =
  match request_handlers full e with
  | Some clause => clause
  | None => raise e
  end {| st_self := c;
         st_sent := request_sent c url method query body' :: st_sent st;
         st_logger := st_logger st;
         st_log := log_after (st_logger st) "DEBUG" "Sending requests to `%s`"
                     [LStr full] (st_log st) |}.
Proof.
  cbv zeta. intros Hbody Hquery Hsend Hok Hjson.
  rewrite (run_request st url method params body body_class result_class
             body' query Hbody Hquery).
  unfold try_except. rewrite run_bind. unfold session_request.
  cbn [st_self]. rewrite Hsend. cbn match. rewrite Hok. cbn [negb].
  rewrite run_bind, run_lift, Hjson.
  destruct (request_handlers _ e); reflexivity.
Qed.

(** When the transport answers with a success response whose [json()]
    raises a [JSONDecodeError] that is no [RequestException], the second
    [except] clause is the one that matches: [request] raises [ApiError]
    with the message [Cannot decode response] and with the decode error as
    its cause. *)
Lemma request_wraps_plain_decode_failure
    (st : State) (url method : string)
    (params body body_class result_class body' query : PyVal)
    (response : Response) (e : Exn) :
  let c := st_self st in
  request_body c body body_class = Ok body' ->
  fst (_filter_params params (Some [result_class; body_class]) st) = Ok query ->
  session c (request_sent c url method query body') = Ok response ->
  ok response = true ->
  json response = Raise e ->
  is_JSONDecodeError e = true ->
  is_RequestException e = false ->
  fst (request url method params body body_class result_class st)
  = Raise (ApiError "Cannot decode response" (Some e)).
Proof.
  cbv zeta. intros Hbody Hquery Hsend Hok Hjson He Hplain.
  rewrite (run_request_json_raises st url method params body body_class
             result_class body' query response e Hbody Hquery Hsend Hok Hjson).
  unfold request_handlers. rewrite Hplain, He. reflexivity.
Qed.

(** C7, as the code has it: when the transport answers with a success
    response whose [json()] raises a decode error that is a
    [JSONDecodeError] and a [RequestException] at once, as the error that
    [requests] raises for a body that is not JSON is, the first [except]
    clause catches it: [request] raises [ApiError] with the message
    [RequestException], not with the message [Cannot decode response] of
    the second clause, which is not reached. *)
Theorem request_decode_failure_caught_as_transport_failure
    (st : State) (url method : string)
    (params body body_class result_class body' query : PyVal)
    (response : Response) (e : Exn) :
  let c := st_self st in
  request_body c body body_class = Ok body' ->
  fst (_filter_params params (Some [result_class; body_class]) st) = Ok query ->
  session c (request_sent c url method query body') = Ok response ->
  ok response = true ->
  json response = Raise e ->
  is_JSONDecodeError e = true ->
  is_RequestException e = true ->
  fst (request url method params body body_class result_class st)
  = Raise (ApiError "RequestException" (Some e))
  /\ fst (request url method params body body_class result_class st)
     <> Raise (ApiError "Cannot decode response" (Some e)).
Proof.
  cbv zeta. intros Hbody Hquery Hsend Hok Hjson He Hboth.
  rewrite (run_request_json_raises st url method params body body_class
             result_class body' query response e Hbody Hquery Hsend Hok Hjson).
  unfold request_handlers. rewrite Hboth.
  split; [reflexivity | discriminate].
Qed.

(** C8.  When the transport answers with a success response whose body
    parses to [v]: with a declared result type [T] for which the
    serializer loads [v] into [o], [request] returns [o]; with no declared
    result type, [request] returns [v] itself. *)
Theorem request_returns_loaded_result
    (st : State) (url method : string)
    (params body body_class result_class body' query : PyVal)
    (response : Response) (v : PyVal) :
  let c := st_self st in
  request_body c body body_class = Ok body' ->
  fst (_filter_params params (Some [result_class; body_class]) st) = Ok query ->
  session c (request_sent c url method query body') = Ok response ->
  ok response = true ->
  json response = Ok v ->
  (forall T o, result_class = VType T ->
     load (factory c) v (VType T) = Ok o ->
     fst (request url method params body body_class result_class st) = Ok o)
  /\ (result_class = VNone ->
      fst (request url method params body body_class result_class st) = Ok v).
Proof.
  cbv zeta. intros Hbody Hquery Hsend Hok Hjson.
  rewrite (run_request st url method params body body_class result_class
             body' query Hbody Hquery).
  unfold try_except. rewrite run_bind. unfold session_request.
  cbn [st_self]. rewrite Hsend. cbn match. rewrite Hok. cbn [negb].
  rewrite run_bind, run_lift, Hjson. split.
  - intros T o -> Hload. cbn [py_truthy]. rewrite run_bind, run_attr, run_lift.
    cbn [st_self]. rewrite Hload. reflexivity.
  - intros ->. reflexivity.
Qed.

Lemma request_wraps_transport_failure_witness :
  fst (request "todos" "GET" (VDict [("page", VInt 1)]) VNone VNone VNone
         (fresh offline_client))
  = Raise (ApiError "RequestException"
             (Some (RequestException "connection refused"))).
Proof.
  apply (proj1 (request_wraps_transport_failure (fresh offline_client)
                  "todos" "GET" (VDict [("page", VInt 1)]) VNone VNone VNone
                  VNone (VDict [("page", VInt 1)])
                  (RequestException "connection refused")
                  eq_refl eq_refl eq_refl eq_refl)).
Defined.

Lemma request_wraps_plain_decode_failure_example :
  fst (request "todos" "GET" (VDict [("page", VInt 1)]) VNone VNone VNone
         (fresh garbled_client))
  = Raise (ApiError "Cannot decode response"
             (Some (JSONDecodeError "Expecting value"))).
Proof.
  apply (request_wraps_plain_decode_failure (fresh garbled_client)
           "todos" "GET" (VDict [("page", VInt 1)]) VNone VNone VNone
           VNone (VDict [("page", VInt 1)])
           {| ok := true; status_code := 200;
              json := Raise (JSONDecodeError "Expecting value") |}
           (JSONDecodeError "Expecting value")
           eq_refl eq_refl eq_refl eq_refl eq_refl eq_refl eq_refl).
Defined.

Lemma request_decode_failure_caught_as_transport_failure_witness :
  fst (request "todos" "GET" (VDict [("page", VInt 1)]) VNone VNone VNone
         (fresh undecodable_client))
  = Raise (ApiError "RequestException"
             (Some (RequestsJSONDecodeError "Expecting value")))
  /\ fst (request "todos" "GET" (VDict [("page", VInt 1)]) VNone VNone VNone
            (fresh undecodable_client))
     <> Raise (ApiError "Cannot decode response"
                 (Some (RequestsJSONDecodeError "Expecting value"))).
Proof.
  apply (request_decode_failure_caught_as_transport_failure
           (fresh undecodable_client)
           "todos" "GET" (VDict [("page", VInt 1)]) VNone VNone VNone
           VNone (VDict [("page", VInt 1)])
           {| ok := true; status_code := 200;
              json := Raise (RequestsJSONDecodeError "Expecting value") |}
           (RequestsJSONDecodeError "Expecting value")
           eq_refl eq_refl eq_refl eq_refl eq_refl eq_refl eq_refl).
Defined.

Lemma request_returns_loaded_result_witness :
  fst (request "todos/7" "GET" VNone VNone VNone (VType (TClass "Todo"))
         (fresh answering_client)) = Ok (VObj 7)
  /\ fst (request "todos/7" "GET" VNone VNone VNone VNone
            (fresh answering_client)) = Ok (VInt 7).
Proof.
  split.
  - apply (proj1 (request_returns_loaded_result (fresh answering_client)
                    "todos/7" "GET" VNone VNone VNone (VType (TClass "Todo"))
                    VNone VNone
                    {| ok := true; status_code := 200; json := Ok (VInt 7) |}
                    (VInt 7) eq_refl eq_refl eq_refl eq_refl eq_refl)
             (TClass "Todo") (VObj 7) eq_refl eq_refl).
  - apply (proj2 (request_returns_loaded_result (fresh answering_client)
                    "todos/7" "GET" VNone VNone VNone VNone
                    VNone VNone
                    {| ok := true; status_code := 200; json := Ok (VInt 7) |}
                    (VInt 7) eq_refl eq_refl eq_refl eq_refl eq_refl)
             eq_refl).
Defined.

(** ** Formatting a rendered template *)

Lemma str_app_cons (c : ascii) (s t : string) :
  String c s ++ t = String c (s ++ t).
Proof. reflexivity. Qed.

Lemma str_app_nil_l (s : string) : "" ++ s = s.
Proof. reflexivity. Qed.

Lemma str_app_nil_r (s : string) : s ++ "" = s.
Proof. induction s as [| c s IH]; [reflexivity |]. rewrite str_app_cons, IH. reflexivity. Qed.

Lemma str_app_assoc (s t u : string) : (s ++ t) ++ u = s ++ (t ++ u).
Proof.
  induction s as [| c s IH]; [reflexivity |].
  rewrite !str_app_cons, IH. reflexivity.
Qed.

Lemma plain_char_eqb (c : ascii) :
  plain_char c = true ->
  Ascii.eqb c "{" = false /\ Ascii.eqb c "}" = false /\
  Ascii.eqb c "[" = false /\ Ascii.eqb c ":" = false /\
  Ascii.eqb c "!" = false /\ Ascii.eqb c "." = false.
Proof.
  unfold plain_char. rewrite negb_true_iff, !orb_false_iff. tauto.
Qed.

Lemma ident_char_plain (c : ascii) :
  is_ident_char c = true -> plain_char c = true.
Proof.
  destruct c as [[] [] [] [] [] [] [] []]; intros H; try discriminate H;
    reflexivity.
Qed.

Lemma ident_start_char (c : ascii) :
  is_ident_start c = true ->
  is_ident_char c = true
  /\ ((48 <=? nat_of_ascii c) && (nat_of_ascii c <=? 57))%nat = false.
Proof.
  destruct c as [[] [] [] [] [] [] [] []]; intros H; try discriminate H;
    split; reflexivity.
Qed.

(** A parameter name can stand in a template as a placeholder. *)
Lemma identifier_is_plain (name : string) :
  is_identifier name = true -> plain_name name = true.
Proof.
  destruct name as [| c rest]; [discriminate |]. cbn [is_identifier].
  rewrite andb_true_iff. intros [Hstart Hrest].
  destruct (ident_start_char c Hstart) as [Hchar Hdigit].
  unfold plain_name, all_digits. cbn [list_ascii_of_string forallb String.eqb].
  rewrite Hdigit, (ident_char_plain c Hchar). cbn [negb andb].
  clear Hstart Hchar Hdigit.
  induction (list_ascii_of_string rest) as [| c' l IH]; [reflexivity |].
  cbn [forallb] in *. apply andb_true_iff in Hrest as [Hc Hl].
  rewrite (ident_char_plain c' Hc), (IH Hl). reflexivity.
Qed.

Lemma markup_field_name (name tail lit acc : string) :
  forallb plain_char (list_ascii_of_string name) = true ->
  markup_from (name ++ String "}" tail) (InField lit acc) =
  MkChunk lit (Some (acc ++ name)) (markup_from tail (InLiteral "")).
Proof.
  revert acc. induction name as [| c name IH]; intros acc Hplain.
  - rewrite str_app_nil_l, str_app_nil_r. reflexivity.
  - cbn [list_ascii_of_string forallb] in Hplain.
    apply andb_true_iff in Hplain as [Hc Hname].
    rewrite str_app_cons. cbn [markup_from].
    destruct (plain_char_eqb c Hc) as (Hopen & Hclose & Hidx & Hspec & Hconv & _).
    rewrite Hclose, Hopen, Hidx, Hspec, Hconv.
    rewrite IH by exact Hname. unfold snoc_char.
    rewrite str_app_assoc. reflexivity.
Qed.

Lemma format_field_plain (kwargs : PyDict) (name : string) :
  plain_name name = true -> format_field kwargs name = field_value kwargs name.
Proof.
  unfold plain_name, format_field, field_value.
  rewrite !andb_true_iff, !negb_true_iff. intros [[Hne Hdig] Hchars].
  rewrite Hne, Hdig.
  assert (Hdot : has_dot name = false).
  { unfold has_dot. clear Hne Hdig.
    induction (list_ascii_of_string name) as [| c l IH]; [reflexivity |].
    cbn [forallb existsb] in *. apply andb_true_iff in Hchars as [Hc Hl].
    destruct (plain_char_eqb c Hc) as (_ & _ & _ & _ & _ & Hdot).
    rewrite Hdot, (IH Hl). reflexivity. }
  rewrite Hdot. reflexivity.
Qed.

Lemma format_literal (kwargs : PyDict) (text tail : string) (rest : Res string) :
  (forall acc out,
     format_markup kwargs (markup_from tail (InLiteral acc)) out =
     with_prefix (out ++ acc) rest) ->
  forall acc out,
    format_markup kwargs
      (markup_from (escape_braces text ++ tail) (InLiteral acc)) out =
    with_prefix (out ++ acc ++ text) rest.
Proof.
  intros Htail. induction text as [| c text IH]; intros acc out.
  - cbn [escape_braces]. rewrite str_app_nil_l, str_app_nil_r. apply Htail.
  - cbn [escape_braces].
    destruct (Ascii.eqb c "{") eqn:Hopen; [| destruct (Ascii.eqb c "}") eqn:Hclose].
    + apply Ascii.eqb_eq in Hopen as ->. rewrite !str_app_cons.
      cbn [markup_from Ascii.eqb Bool.eqb format_markup].
      rewrite IH. unfold snoc_char. f_equal.
      rewrite str_app_nil_l, !str_app_assoc. reflexivity.
    + apply Ascii.eqb_eq in Hclose as ->. rewrite !str_app_cons.
      cbn [markup_from Ascii.eqb Bool.eqb format_markup].
      rewrite IH. unfold snoc_char. f_equal.
      rewrite str_app_nil_l, !str_app_assoc. reflexivity.
    + rewrite str_app_cons. cbn [markup_from]. rewrite Hopen, Hclose.
      rewrite IH. unfold snoc_char. f_equal.
      rewrite !str_app_assoc. reflexivity.
Qed.

Lemma with_prefix_fmap (out text : string) (r : Res string) :
  with_prefix out (String.append text <$> r) = with_prefix (out ++ text) r.
Proof.
  destruct r as [s | e | w]; cbn; try reflexivity.
  rewrite str_app_assoc. reflexivity.
Qed.

Lemma markup_enter_field (c : ascii) (rest acc : string) :
  Ascii.eqb c "{" = false ->
  markup_from (String "{" (String c rest)) (InLiteral acc) =
  markup_from (String c rest) (InField acc "").
Proof.
  intros Hc. cbn [markup_from Ascii.eqb Bool.eqb]. rewrite Hc. reflexivity.
Qed.

Lemma render_field_shape (name tail : string) :
  render_segment (Field name) ++ tail = String "{" (name ++ String "}" tail).
Proof.
  cbn [render_segment]. rewrite !str_app_assoc. reflexivity.
Qed.

Lemma format_render (kwargs : PyDict) (segs : list Segment) :
  forallb plain_segment segs = true ->
  forall acc out,
    format_markup kwargs
      (markup_from (render_template segs) (InLiteral acc)) out =
    with_prefix (out ++ acc) (substitute kwargs segs).
Proof.
  induction segs as [| seg segs IH]; intros Hplain acc out.
  - cbn [render_template markup_from substitute].
    destruct (String.eqb_spec acc "") as [-> | Hacc]; cbn.
    + rewrite !str_app_nil_r. reflexivity.
    + rewrite str_app_nil_r. reflexivity.
  - cbn [forallb] in Hplain. apply andb_true_iff in Hplain as [Hseg Hsegs].
    specialize (IH Hsegs). destruct seg as [text | name].
    + cbn [render_template render_segment substitute].
      rewrite (format_literal kwargs text _ _ IH).
      rewrite with_prefix_fmap, !str_app_assoc. reflexivity.
    + cbn [render_template substitute plain_segment] in *.
      rewrite render_field_shape.
      rewrite <- (format_field_plain kwargs name Hseg).
      unfold plain_name in Hseg.
      rewrite !andb_true_iff, !negb_true_iff in Hseg.
      destruct Hseg as [[Hne _] Hchars].
      destruct name as [| c name]; [discriminate Hne |].
      assert (Hc : Ascii.eqb c "{" = false).
      { cbn [list_ascii_of_string forallb] in Hchars.
        apply andb_true_iff in Hchars as [Hc _].
        destruct (plain_char_eqb c Hc) as [Hopen _]. exact Hopen. }
      rewrite str_app_cons, (markup_enter_field c _ acc Hc).
      rewrite <- str_app_cons.
      rewrite (markup_field_name (String c name) _ acc "" Hchars).
      cbn [format_markup]. rewrite str_app_nil_l.
      destruct (format_field kwargs (String c name)) as [text | e | w];
        cbn; try reflexivity.
      rewrite IH. rewrite str_app_nil_r.
      destruct (substitute kwargs segs) as [s | e | w]; cbn; try reflexivity.
      rewrite !str_app_assoc. reflexivity.
Qed.

Lemma str_format_render (kwargs : PyDict) (segs : list Segment) :
  forallb plain_segment segs = true ->
  str_format (render_template segs) kwargs = substitute kwargs segs.
Proof.
  intros Hplain. unfold str_format, markup.
  rewrite format_render by exact Hplain.
  destruct (substitute kwargs segs); reflexivity.
Qed.


(** ** Dictionaries up to the order of their entries *)

Lemma dict_get_set {V} (k k' : string) (v : V) (d : list (string * V)) :
  dict_get k (dict_set k' v d) =
  if String.eqb k k' then Some v else dict_get k d.
Proof.
  induction d as [| [k0 v0] d IH]; cbn.
  - reflexivity.
  - destruct (String.eqb_spec k' k0) as [-> | Hne]; cbn.
    + destruct (String.eqb k k0); reflexivity.
    + rewrite IH. destruct (String.eqb_spec k k0) as [-> | Hne'].
      * apply String.eqb_neq in Hne. rewrite String.eqb_sym, Hne. reflexivity.
      * reflexivity.
Qed.

Lemma dict_mem_set {V} (k k' : string) (v : V) (d : list (string * V)) :
  dict_mem k (dict_set k' v d) = String.eqb k k' || dict_mem k d.
Proof.
  unfold dict_mem. rewrite dict_get_set.
  destruct (String.eqb k k'); reflexivity.
Qed.

Lemma dict_equiv_refl (d : PyDict) : dict_equiv d d.
Proof. intros k. reflexivity. Qed.

Lemma dict_equiv_sym (d1 d2 : PyDict) : dict_equiv d1 d2 -> dict_equiv d2 d1.
Proof. intros H k. symmetry. apply H. Qed.

Lemma dict_equiv_trans (d1 d2 d3 : PyDict) :
  dict_equiv d1 d2 -> dict_equiv d2 d3 -> dict_equiv d1 d3.
Proof. intros H12 H23 k. rewrite H12. apply H23. Qed.

Lemma dict_equiv_mem (d1 d2 : PyDict) (k : string) :
  dict_equiv d1 d2 -> dict_mem k d1 = dict_mem k d2.
Proof. intros H. unfold dict_mem. rewrite (H k). reflexivity. Qed.

Lemma dict_equiv_set (d1 d2 : PyDict) (k : string) (v : PyVal) :
  dict_equiv d1 d2 -> dict_equiv (dict_set k v d1) (dict_set k v d2).
Proof. intros H k'. rewrite !dict_get_set, (H k'). reflexivity. Qed.

Lemma dict_set_swap (d : PyDict) (k1 k2 : string) (v1 v2 : PyVal) :
  k1 <> k2 ->
  dict_equiv (dict_set k1 v1 (dict_set k2 v2 d))
             (dict_set k2 v2 (dict_set k1 v1 d)).
Proof.
  intros Hne k. rewrite !dict_get_set.
  destruct (String.eqb_spec k k1) as [H1 | H1];
    destruct (String.eqb_spec k k2) as [H2 | H2];
    congruence.
Qed.

(** ** [getcallargs] *)

Lemma bind_positional_snoc (args : list string) (pos : list PyVal)
    (n : string) (v : PyVal) (acc : PyDict) :
  args !! length pos = Some n ->
  bind_positional args (pos ++ [v]) acc =
  dict_set n v (bind_positional args pos acc).
Proof.
  revert pos acc. induction args as [| a args IH]; intros pos acc Hn.
  - discriminate.
  - destruct pos as [| p pos]; cbn in *.
    + inversion Hn; subst. destruct args; reflexivity.
    + apply IH. exact Hn.
Qed.

Lemma bind_named_app (args : list string) (named more : PyDict)
    (acc : PyDict) :
  bind_named args (named ++ more) acc =
  bind_named args named acc ≫= bind_named args more.
Proof.
  revert acc. induction named as [| [kw value] named IH]; intros acc; cbn.
  - reflexivity.
  - destruct (negb (existsb (String.eqb kw) args)); [reflexivity |].
    destruct (dict_mem kw acc); [reflexivity |]. apply IH.
Qed.

Lemma bind_named_equiv (args : list string) (named : PyDict)
    (acc acc' : PyDict) :
  dict_equiv acc acc' ->
  same_binding (bind_named args named acc) (bind_named args named acc').
Proof.
  revert acc acc'. induction named as [| [kw value] named IH];
    intros acc acc' Heq; cbn.
  - exact Heq.
  - destruct (negb (existsb (String.eqb kw) args)); [reflexivity |].
    rewrite (dict_equiv_mem acc acc' kw Heq).
    destruct (dict_mem kw acc'); [reflexivity |].
    apply IH, dict_equiv_set, Heq.
Qed.

(** Binding [n] first and the named arguments afterwards gives what
    binding the named arguments first and [n] afterwards gives, when [n] is
    not among them. *)
Lemma bind_named_set (args : list string) (named : PyDict) (n : string)
    (v : PyVal) (acc acc' : PyDict) :
  dict_get n named = None ->
  dict_equiv acc' (dict_set n v acc) ->
  same_binding (bind_named args named acc')
               (dict_set n v <$> bind_named args named acc).
Proof.
  revert acc acc'. induction named as [| [kw value] named IH];
    intros acc acc' Hn Heq; cbn.
  - exact Heq.
  - cbn in Hn. destruct (String.eqb_spec n kw) as [-> | Hne]; [discriminate |].
    destruct (negb (existsb (String.eqb kw) args)); [reflexivity |].
    rewrite (dict_equiv_mem _ _ kw Heq), dict_mem_set.
    assert (Hkw : String.eqb kw n = false) by (apply String.eqb_neq; congruence).
    rewrite Hkw. cbn [orb].
    destruct (dict_mem kw acc); [reflexivity |].
    apply IH; [exact Hn |].
    eapply dict_equiv_trans; [apply dict_equiv_set, Heq |].
    apply dict_set_swap. congruence.
Qed.

Lemma bind_named_mem (args : list string) (named : PyDict) (n : string)
    (acc d : PyDict) :
  dict_get n named = None ->
  bind_named args named acc = Ok d ->
  dict_mem n d = dict_mem n acc.
Proof.
  revert acc. induction named as [| [kw value] named IH]; intros acc Hn Hd;
    cbn in *.
  - inversion Hd. reflexivity.
  - destruct (String.eqb_spec n kw) as [-> | Hne]; [discriminate |].
    destruct (negb (existsb (String.eqb kw) args)); [discriminate |].
    destruct (dict_mem kw acc); [discriminate |].
    rewrite (IH _ Hn Hd), dict_mem_set.
    apply String.eqb_neq in Hne. rewrite Hne. reflexivity.
Qed.

Lemma bind_named_grows (args : list string) (named : PyDict) (k : string)
    (acc d : PyDict) :
  bind_named args named acc = Ok d ->
  dict_mem k acc = true -> dict_mem k d = true.
Proof.
  revert acc. induction named as [| [kw value] named IH]; intros acc Hd Hk;
    cbn in *.
  - inversion Hd; subst. exact Hk.
  - destruct (negb (existsb (String.eqb kw) args)); [discriminate |].
    destruct (dict_mem kw acc); [discriminate |].
    apply (IH _ Hd). rewrite dict_mem_set, Hk. apply orb_true_r.
Qed.

Lemma check_required_equiv (req : list string) (d d' : PyDict) :
  dict_equiv d d' -> check_required req d = check_required req d'.
Proof.
  intros Heq. induction req as [| a req IH]; cbn; [reflexivity |].
  rewrite (dict_equiv_mem _ _ a Heq), IH. reflexivity.
Qed.

Lemma check_required_all (req : list string) (d : PyDict) :
  (forall a, In a req -> dict_mem a d = true) ->
  check_required req d = Ok tt.
Proof.
  induction req as [| a req IH]; intros Hall; cbn; [reflexivity |].
  rewrite (Hall a) by (left; reflexivity).
  apply IH. intros b Hb. apply Hall. right. exact Hb.
Qed.

Lemma fill_defaults_equiv (opt : list string) (ds : list PyVal)
    (d d' : PyDict) :
  dict_equiv d d' ->
  dict_equiv (fill_defaults opt ds d) (fill_defaults opt ds d').
Proof.
  revert ds d d'. induction opt as [| a opt IH]; intros ds d d' Heq.
  - exact Heq.
  - destruct ds as [| d0 ds]; [exact Heq |]. cbn.
    apply IH. rewrite (dict_equiv_mem _ _ a Heq).
    destruct (dict_mem a d'); [exact Heq |]. apply dict_equiv_set, Heq.
Qed.

Lemma fill_defaults_all (opt : list string) (ds : list PyVal) (d : PyDict) :
  (forall a, In a opt -> dict_mem a d = true) ->
  fill_defaults opt ds d = d.
Proof.
  revert ds. induction opt as [| a opt IH]; intros ds Hall; [reflexivity |].
  destruct ds as [| d0 ds]; [reflexivity |]. cbn.
  rewrite (Hall a) by (left; reflexivity).
  apply IH. intros b Hb. apply Hall. right. exact Hb.
Qed.


Lemma bind_positional_grows (args : list string) (pos : list PyVal)
    (acc : PyDict) (k : string) :
  dict_mem k acc = true -> dict_mem k (bind_positional args pos acc) = true.
Proof.
  revert pos acc. induction args as [| a args IH]; intros pos acc Hk.
  - exact Hk.
  - destruct pos as [| p pos]; [exact Hk |]. cbn.
    apply IH. rewrite dict_mem_set, Hk. apply orb_true_r.
Qed.

Lemma bind_positional_has (args : list string) (pos : list PyVal)
    (acc : PyDict) (i : nat) (a : string) :
  args !! i = Some a -> (i < length pos)%nat ->
  dict_mem a (bind_positional args pos acc) = true.
Proof.
  revert pos acc i. induction args as [| a0 args IH]; intros pos acc i Ha Hi.
  - discriminate.
  - destruct pos as [| p pos]; [cbn in Hi; lia |].
    destruct i as [| i]; cbn in *.
    + inversion Ha; subst. apply bind_positional_grows.
      rewrite dict_mem_set, String.eqb_refl. reflexivity.
    + apply (IH pos _ i Ha). lia.
Qed.

Lemma bind_positional_keys (args : list string) (pos : list PyVal)
    (acc : PyDict) (k : string) :
  dict_mem k (bind_positional args pos acc) = true ->
  dict_mem k acc = true \/ exists i, args !! i = Some k /\ (i < length pos)%nat.
Proof.
  revert pos acc. induction args as [| a args IH]; intros pos acc Hk.
  - left. exact Hk.
  - destruct pos as [| p pos]; [left; exact Hk |]. cbn in Hk.
    destruct (IH _ _ Hk) as [Hacc | [i [Hi Hlt]]].
    + rewrite dict_mem_set in Hacc. apply orb_true_iff in Hacc as [Heq | Hacc].
      * apply String.eqb_eq in Heq as ->. right. exists 0%nat.
        split; [reflexivity | cbn; lia].
      * left. exact Hacc.
    + right. exists (S i). split; [exact Hi | cbn; lia].
Qed.

Lemma bind_positional_fresh (args : list string) (pos : list PyVal)
    (i : nat) (n : string) :
  NoDup args -> args !! i = Some n -> (length pos <= i)%nat ->
  dict_mem n (bind_positional args pos []) = false.
Proof.
  intros Hnodup Hn Hi.
  destruct (dict_mem n (bind_positional args pos [])) eqn:Hmem; [| reflexivity].
  destruct (bind_positional_keys _ _ _ _ Hmem) as [Hnil | [j [Hj Hlt]]].
  - discriminate Hnil.
  - assert (i = j) by (eapply NoDup_lookup; eassumption). lia.
Qed.

Lemma existsb_eqb_In (k : string) (l : list string) :
  existsb (String.eqb k) l = true <-> In k l.
Proof.
  rewrite existsb_exists. split.
  - intros [x [Hx Heq]]. apply String.eqb_eq in Heq as ->. exact Hx.
  - intros Hk. exists k. split; [exact Hk | apply String.eqb_refl].
Qed.

Lemma lookup_In (l : list string) (i : nat) (a : string) :
  l !! i = Some a -> In a l.
Proof. intros H. apply list_elem_of_In. eapply list_elem_of_lookup_2, H. Qed.

Lemma bind_named_keys (args : list string) (named : PyDict)
    (acc d : PyDict) (k : string) :
  bind_named args named acc = Ok d ->
  dict_mem k d = true -> dict_mem k acc = true \/ In k args.
Proof.
  revert acc. induction named as [| [kw value] named IH]; intros acc Hd Hk;
    cbn in Hd.
  - inversion Hd; subst. left. exact Hk.
  - destruct (existsb (String.eqb kw) args) eqn:Hkw; [| discriminate].
    cbn in Hd. destruct (dict_mem kw acc); [discriminate |].
    destruct (IH _ Hd Hk) as [Hacc | Hin]; [| right; exact Hin].
    rewrite dict_mem_set in Hacc. apply orb_true_iff in Hacc as [Heq | Hacc].
    + apply String.eqb_eq in Heq as ->. right. apply existsb_eqb_In, Hkw.
    + left. exact Hacc.
Qed.

Lemma fill_defaults_keys (opt : list string) (ds : list PyVal) (d : PyDict)
    (k : string) :
  dict_mem k (fill_defaults opt ds d) = true ->
  dict_mem k d = true \/ In k opt.
Proof.
  revert ds d. induction opt as [| a opt IH]; intros ds d Hk.
  - left. exact Hk.
  - destruct ds as [| d0 ds]; [left; exact Hk |]. cbn in Hk.
    destruct (IH _ _ Hk) as [Hd | Hin]; [| right; right; exact Hin].
    destruct (dict_mem a d) eqn:Ha; [left; exact Hd |].
    rewrite dict_mem_set in Hd. apply orb_true_iff in Hd as [Heq | Hd].
    + apply String.eqb_eq in Heq as ->. right. left. reflexivity.
    + left. exact Hd.
Qed.

(** The mapping returned by [getcallargs] has no key other than the names
    of the parameters. *)
Lemma getcallargs_keys (func : FuncDecl) (pos : list PyVal)
    (named params : PyDict) (k : string) :
  getcallargs func pos named = Ok params ->
  dict_mem k params = true -> In k (fn_args func).
Proof.
  unfold getcallargs. intros Hcall Hk.
  destruct (bind_named (fn_args func) named
              (bind_positional (fn_args func) pos [])) as [d | e | w] eqn:Hd;
    cbn [mbind res_bind] in Hcall; try discriminate.
  assert (Hd_keys : forall k, dict_mem k d = true -> In k (fn_args func)).
  { intros k' Hk'. destruct (bind_named_keys _ _ _ _ _ Hd Hk') as [Hp | Hin].
    - destruct (bind_positional_keys _ _ _ _ Hp) as [Hnil | [i [Hi _]]].
      + discriminate Hnil.
      + eapply lookup_In, Hi.
    - exact Hin. }
  destruct (length (fn_args func) <? length pos)%nat; [discriminate |].
  destruct (length pos <? length (fn_args func))%nat.
  - destruct (check_required _ d) as [[] | e | w]; cbn [mbind res_bind] in Hcall;
      try discriminate.
    inversion Hcall; subst. clear Hcall.
    destruct (fill_defaults_keys _ _ _ _ Hk) as [Hin | Hin].
    + apply Hd_keys, Hin.
    + apply list_elem_of_In. apply list_elem_of_In in Hin.
      eapply (subseteq_drop _ _ _ Hin).
  - inversion Hcall; subst. apply Hd_keys, Hk.
Qed.


Lemma check_required_ok (req : list string) (d : PyDict) (a : string) :
  check_required req d = Ok tt -> In a req -> dict_mem a d = true.
Proof.
  induction req as [| b req IH]; intros Hok Ha; [destruct Ha |].
  cbn in Hok. destruct (dict_mem b d) eqn:Hb; [| discriminate].
  destruct Ha as [-> | Ha]; [exact Hb | apply (IH Hok Ha)].
Qed.

Lemma fill_defaults_grows (opt : list string) (ds : list PyVal) (d : PyDict)
    (k : string) :
  dict_mem k d = true -> dict_mem k (fill_defaults opt ds d) = true.
Proof.
  revert ds d. induction opt as [| a opt IH]; intros ds d Hk; [exact Hk |].
  destruct ds as [| d0 ds]; [exact Hk |]. cbn. apply IH.
  destruct (dict_mem a d); [exact Hk |].
  rewrite dict_mem_set, Hk. apply orb_true_r.
Qed.

Lemma fill_defaults_binds (opt : list string) (ds : list PyVal) (d : PyDict)
    (a : string) :
  (length opt <= length ds)%nat -> In a opt ->
  dict_mem a (fill_defaults opt ds d) = true.
Proof.
  revert ds d. induction opt as [| b opt IH]; intros ds d Hlen Ha;
    [destruct Ha |].
  destruct ds as [| d0 ds]; [cbn in Hlen; lia |]. cbn in Hlen |- *.
  destruct Ha as [-> | Ha].
  - apply fill_defaults_grows. destruct (dict_mem a d) eqn:Had; [exact Had |].
    rewrite dict_mem_set, String.eqb_refl. reflexivity.
  - apply IH; [lia | exact Ha].
Qed.

(** When [getcallargs] returns, every parameter is bound. *)
Lemma getcallargs_binds_all (func : FuncDecl) (pos : list PyVal)
    (named params : PyDict) (a : string) :
  (length (fn_defaults func) <= length (fn_args func))%nat ->
  getcallargs func pos named = Ok params ->
  In a (fn_args func) -> dict_mem a params = true.
Proof.
  unfold getcallargs. intros Hlen Hcall Ha.
  destruct (bind_named (fn_args func) named
              (bind_positional (fn_args func) pos [])) as [d | e | w] eqn:Hd;
    cbn [mbind res_bind] in Hcall; try discriminate.
  destruct (length (fn_args func) <? length pos)%nat eqn:Hmany;
    [discriminate |].
  apply Nat.ltb_ge in Hmany.
  destruct (length pos <? length (fn_args func))%nat eqn:Hfew.
  - destruct (check_required _ d) as [[] | e | w] eqn:Hreq;
      cbn [mbind res_bind] in Hcall; try discriminate.
    inversion Hcall; subst. clear Hcall.
    rewrite <- (take_drop (length (fn_args func) - length (fn_defaults func))
                  (fn_args func)) in Ha.
    apply in_app_or in Ha as [Ha | Ha].
    + apply fill_defaults_grows. apply (check_required_ok _ _ _ Hreq Ha).
    + apply fill_defaults_binds; [| exact Ha].
      rewrite length_drop. lia.
  - inversion Hcall; subst. apply Nat.ltb_ge in Hfew.
    apply list_elem_of_In, list_elem_of_lookup in Ha. destruct Ha as [i Hi].
    apply (bind_named_grows _ _ _ _ _ Hd).
    apply (bind_positional_has _ pos [] i a Hi).
    pose proof (lookup_lt_Some _ _ _ Hi). lia.
Qed.

Lemma same_binding_ok_l (r : Res PyDict) (d : PyDict) :
  same_binding r (Ok d) -> exists d', r = Ok d' /\ dict_equiv d' d.
Proof.
  destruct r as [d' | e | w]; cbn; intros H; try contradiction.
  exists d'. split; [reflexivity | exact H].
Qed.

Lemma same_binding_refl (r : Res PyDict) : same_binding r r.
Proof. destruct r; cbn; [apply dict_equiv_refl | reflexivity..]. Qed.

Lemma getcallargs_unfold (func : FuncDecl) (pos : list PyVal)
    (named : PyDict) :
  getcallargs func pos named =
  bind_named (fn_args func) named (bind_positional (fn_args func) pos [])
  ≫= getcallargs_checks func (length pos).
Proof. reflexivity. Qed.

Lemma getcallargs_checks_equiv (func : FuncDecl) (num_pos : nat)
    (d d' : PyDict) :
  dict_equiv d d' ->
  same_binding (getcallargs_checks func num_pos d)
               (getcallargs_checks func num_pos d').
Proof.
  intros Heq. unfold getcallargs_checks.
  destruct (length (fn_args func) <? num_pos)%nat; [reflexivity |].
  destruct (num_pos <? length (fn_args func))%nat; [| exact Heq].
  rewrite (check_required_equiv _ _ _ Heq).
  destruct (check_required _ d') as [[] | e | w]; cbn; try reflexivity.
  apply fill_defaults_equiv, Heq.
Qed.

(** When every parameter is bound the checks pass and no default is
    used. *)
Lemma getcallargs_checks_all (func : FuncDecl) (num_pos : nat) (d : PyDict) :
  (num_pos <= length (fn_args func))%nat ->
  (forall a, In a (fn_args func) -> dict_mem a d = true) ->
  getcallargs_checks func num_pos d = Ok d.
Proof.
  intros Hle Hall. unfold getcallargs_checks.
  replace (length (fn_args func) <? num_pos)%nat with false
    by (symmetry; apply Nat.ltb_ge; lia).
  destruct (num_pos <? length (fn_args func))%nat; [| reflexivity].
  rewrite check_required_all.
  - cbn. rewrite fill_defaults_all; [reflexivity |].
    intros a Ha. apply Hall.
    apply list_elem_of_In. apply list_elem_of_In in Ha.
    eapply subseteq_drop, Ha.
  - intros a Ha. apply Hall.
    apply list_elem_of_In. apply list_elem_of_In in Ha.
    eapply subseteq_take, Ha.
Qed.

Lemma getcallargs_checks_next (func : FuncDecl) (num_pos : nat) (d : PyDict) :
  (S num_pos < length (fn_args func))%nat ->
  getcallargs_checks func (S num_pos) d = getcallargs_checks func num_pos d.
Proof.
  intros Hlt. unfold getcallargs_checks.
  replace (length (fn_args func) <? S num_pos)%nat with false
    by (symmetry; apply Nat.ltb_ge; lia).
  replace (length (fn_args func) <? num_pos)%nat with false
    by (symmetry; apply Nat.ltb_ge; lia).
  replace (S num_pos <? length (fn_args func))%nat with true
    by (symmetry; apply Nat.ltb_lt; lia).
  replace (num_pos <? length (fn_args func))%nat with true
    by (symmetry; apply Nat.ltb_lt; lia).
  reflexivity.
Qed.

(** An argument passed by position binds like the same argument passed by
    name. *)
Lemma getcallargs_positional_or_named (func : FuncDecl) (pos : list PyVal)
    (named : PyDict) (n : string) (v : PyVal) :
  NoDup (fn_args func) ->
  fn_args func !! length pos = Some n ->
  dict_get n named = None ->
  same_binding (getcallargs func (pos ++ [v]) named)
               (getcallargs func pos (named ++ [(n, v)])).
Proof.
  intros Hnodup Hn Hnamed. rewrite !getcallargs_unfold.
  set (args := fn_args func) in *.
  rewrite (bind_positional_snoc args pos n v [] Hn), bind_named_app.
  rewrite length_app. cbn [length]. rewrite Nat.add_1_r.
  assert (Hlt : (length pos < length args)%nat) by (eapply lookup_lt_Some, Hn).
  pose proof (bind_named_set args named n v (bind_positional args pos [])
                _ Hnamed (dict_equiv_refl _)) as Hset.
  destruct (bind_named args named (bind_positional args pos []))
    as [x | e | w] eqn:Hx.
  - cbn [fmap res_fmap] in Hset.
    destruct (same_binding_ok_l _ _ Hset) as [x' [-> Hx']].
    cbn [mbind res_bind bind_named].
    assert (Hin : existsb (String.eqb n) args = true).
    { apply existsb_eqb_In. eapply lookup_In, Hn. }
    rewrite Hin. cbn [negb].
    rewrite (bind_named_mem _ _ _ _ _ Hnamed Hx).
    rewrite (bind_positional_fresh args pos _ n Hnodup Hn) by lia.
    change (Ok (dict_set n v x) ≫= getcallargs_checks func (length pos))
      with (getcallargs_checks func (length pos) (dict_set n v x)).
    destruct (decide (S (length pos) < length args)%nat) as [Hmore | Hlast].
    + rewrite getcallargs_checks_next by exact Hmore.
      apply getcallargs_checks_equiv, Hx'.
    + assert (Hall : forall a, In a args -> dict_mem a (dict_set n v x) = true).
      { intros a Ha. apply list_elem_of_In, list_elem_of_lookup in Ha.
        destruct Ha as [i Hi]. rewrite dict_mem_set.
        pose proof (lookup_lt_Some _ _ _ Hi) as Hilt.
        destruct (decide (i = length pos)) as [-> | Hne].
        - rewrite Hn in Hi. inversion Hi; subst.
          rewrite String.eqb_refl. reflexivity.
        - apply orb_true_iff. right.
          apply (bind_named_grows _ _ _ _ _ Hx).
          apply (bind_positional_has args pos [] i a Hi). lia. }
      rewrite (getcallargs_checks_all func (length pos) (dict_set n v x))
        by (fold args; first [lia | exact Hall]).
      rewrite (getcallargs_checks_all func (S (length pos)) x').
      * exact Hx'.
      * fold args. lia.
      * fold args. intros a Ha. rewrite (dict_equiv_mem _ _ a Hx').
        apply Hall, Ha.
  - cbn in Hset.
    destruct (bind_named args named (dict_set n v (bind_positional args pos [])))
      as [x' | e' | w']; cbn in *; try contradiction.
    exact Hset.
  - cbn in Hset.
    destruct (bind_named args named (dict_set n v (bind_positional args pos [])))
      as [x' | e' | w']; cbn in *; try contradiction.
    exact Hset.
Qed.

Lemma check_required_set (req : list string) (d : PyDict) (n : string)
    (v : PyVal) :
  ~ In n req -> check_required req (dict_set n v d) = check_required req d.
Proof.
  induction req as [| a req IH]; intros Hn; cbn; [reflexivity |].
  rewrite dict_mem_set.
  assert (Ha : String.eqb a n = false).
  { apply String.eqb_neq. intros ->. apply Hn. left. reflexivity. }
  rewrite Ha. cbn [orb]. rewrite IH; [reflexivity |].
  intros Hin. apply Hn. right. exact Hin.
Qed.

Lemma fill_defaults_set (opt : list string) (ds : list PyVal)
    (x x' : PyDict) (n : string) (d : PyVal) :
  dict_get n (combine opt ds) = Some d ->
  dict_mem n x = false ->
  dict_equiv x' (dict_set n d x) ->
  dict_equiv (fill_defaults opt ds x) (fill_defaults opt ds x').
Proof.
  revert ds x x'. induction opt as [| a opt IH]; intros ds x x' Hd Hx Heq.
  - discriminate.
  - destruct ds as [| d0 ds]; [discriminate |]. cbn in Hd |- *.
    rewrite (dict_equiv_mem _ _ a Heq), dict_mem_set.
    destruct (String.eqb_spec n a) as [<- | Hne].
    + inversion Hd; subst. rewrite String.eqb_refl, Hx. cbn [orb].
      apply fill_defaults_equiv, dict_equiv_sym, Heq.
    + assert (Ha : String.eqb a n = false)
        by (apply String.eqb_neq; congruence).
      rewrite Ha. cbn [orb]. destruct (dict_mem a x) eqn:Hax.
      * apply (IH _ _ _ Hd Hx Heq).
      * apply (IH _ _ _ Hd).
        -- rewrite dict_mem_set, Hx.
           apply String.eqb_neq in Hne. rewrite Hne. reflexivity.
        -- eapply dict_equiv_trans; [apply dict_equiv_set, Heq |].
           apply dict_set_swap. congruence.
Qed.

Lemma dict_get_combine_In (n : string) (opt : list string)
    (ds : list PyVal) (d : PyVal) :
  dict_get n (combine opt ds) = Some d -> In n opt.
Proof.
  revert ds. induction opt as [| a opt IH]; intros ds Hd; [discriminate |].
  destruct ds as [| d0 ds]; [discriminate |]. cbn in Hd.
  destruct (String.eqb_spec n a) as [-> | Hne].
  - left. reflexivity.
  - right. eapply IH, Hd.
Qed.

(** A parameter left out binds like the same parameter passed by name with
    its default value. *)
Lemma getcallargs_default (func : FuncDecl) (pos : list PyVal)
    (named : PyDict) (n : string) (d : PyVal) (i : nat) :
  NoDup (fn_args func) ->
  fn_args func !! i = Some n ->
  (length pos <= i)%nat ->
  default_of func n = Some d ->
  dict_get n named = None ->
  same_binding (getcallargs func pos named)
               (getcallargs func pos (named ++ [(n, d)])).
Proof.
  intros Hnodup Hn Hi Hd Hnamed. rewrite !getcallargs_unfold.
  rewrite bind_named_app.
  destruct (bind_named (fn_args func) named
              (bind_positional (fn_args func) pos [])) as [x | e | w] eqn:Hx;
    [| reflexivity..].
  cbn [mbind res_bind bind_named].
  assert (Hin : existsb (String.eqb n) (fn_args func) = true).
  { apply existsb_eqb_In. eapply lookup_In, Hn. }
  rewrite Hin. cbn [negb].
  assert (Hfresh : dict_mem n x = false).
  { rewrite (bind_named_mem _ _ _ _ _ Hnamed Hx).
    apply (bind_positional_fresh _ pos i n Hnodup Hn Hi). }
  rewrite Hfresh.
  change (Ok (dict_set n d x) ≫= getcallargs_checks func (length pos))
    with (getcallargs_checks func (length pos) (dict_set n d x)).
  pose proof (lookup_lt_Some _ _ _ Hn) as Hlt.
  unfold getcallargs_checks, default_of in *.
  set (args := fn_args func) in *.
  set (k := (length args - length (fn_defaults func))%nat) in *.
  replace (length args <? length pos)%nat with false
    by (symmetry; apply Nat.ltb_ge; lia).
  replace (length pos <? length args)%nat with true
    by (symmetry; apply Nat.ltb_lt; lia).
  assert (Hreq : ~ In n (firstn k args)).
  { intros Hreq. apply dict_get_combine_In in Hd.
    rewrite <- (take_drop k args) in Hnodup.
    apply NoDup_app in Hnodup as (_ & Hdisj & _).
    apply (Hdisj n); apply list_elem_of_In; assumption. }
  rewrite (check_required_set _ x n d Hreq).
  destruct (check_required (firstn k args) x) as [[] | e | w];
    cbn; try reflexivity.
  apply (fill_defaults_set _ _ x _ n d Hd Hfresh), dict_equiv_refl.
Qed.

(** ** Formatting reads its keyword arguments by name only *)

Lemma format_field_equiv (kwargs kwargs' : PyDict) (name : string) :
  dict_equiv kwargs kwargs' ->
  format_field kwargs name = format_field kwargs' name.
Proof. intros Heq. unfold format_field. rewrite (Heq name). reflexivity. Qed.

Lemma format_markup_equiv (kwargs kwargs' : PyDict) (m : Markup)
    (out : string) :
  dict_equiv kwargs kwargs' ->
  format_markup kwargs m out = format_markup kwargs' m out.
Proof.
  intros Heq. revert out. induction m as [| e | w | lit f more IH];
    intros out; cbn; try reflexivity.
  destruct f as [name |]; [| apply IH].
  rewrite (format_field_equiv _ _ name Heq).
  destruct (format_field kwargs' name); cbn; [apply IH | reflexivity..].
Qed.

Lemma inner_bind_url (r : Route) (self : PyVal) (args : list PyVal)
    (kwargs : PyDict) :
  snd <$> inner_bind r self args kwargs =
  getcallargs (rt_func r) (self :: args) kwargs
  ≫= str_format (rt_url_format r).
Proof.
  unfold inner_bind.
  destruct (getcallargs (rt_func r) (self :: args) kwargs) as [p | e | w];
    cbn; try reflexivity.
  destruct (str_format (rt_url_format r) p); reflexivity.
Qed.

Lemma same_binding_url (template : string) (r1 r2 : Res PyDict) :
  same_binding r1 r2 ->
  r1 ≫= str_format template = r2 ≫= str_format template.
Proof.
  destruct r1 as [d1 | e1 | w1], r2 as [d2 | e2 | w2]; cbn;
    intros H; try contradiction; try congruence.
  apply format_markup_equiv, H.
Qed.

Lemma py_str_primitive (v : PyVal) :
  is_primitive v = true -> py_str v = Ok (py_text v).
Proof.
  destruct v as [| [] | | | | | | |]; cbn; intros H;
    try discriminate; reflexivity.
Qed.

Lemma field_value_primitive (params : PyDict) (name : string) :
  bound_to_primitive params (Field name) = true ->
  field_value params name = Ok (segment_text params (Field name)).
Proof.
  unfold field_value. cbn. destruct (dict_get name params) as [v |];
    [apply py_str_primitive | discriminate].
Qed.

Lemma substitute_primitives (params : PyDict) (segs : list Segment) :
  bound_to_primitives params segs = true ->
  substitute params segs = Ok (fill_template params segs).
Proof.
  unfold bound_to_primitives.
  induction segs as [| seg segs IH]; intros Hbound; [reflexivity |].
  cbn [forallb] in Hbound. apply andb_true_iff in Hbound as [Hseg Htail].
  specialize (IH Htail). destruct seg as [text | name]; cbn [substitute].
  - rewrite IH. reflexivity.
  - rewrite (field_value_primitive params name Hseg), IH. reflexivity.
Qed.

Lemma substitute_missing (params : PyDict) (pre post : list Segment)
    (p : string) :
  bound_to_primitives params pre = true ->
  dict_get p params = None ->
  substitute params (pre ++ Field p :: post) = Raise (KeyError p).
Proof.
  unfold bound_to_primitives.
  induction pre as [| seg pre IH]; intros Hbound Hp.
  - cbn. unfold field_value. rewrite Hp. reflexivity.
  - cbn [forallb] in Hbound. apply andb_true_iff in Hbound as [Hseg Htail].
    specialize (IH Htail Hp).
    destruct seg as [text | name]; cbn [substitute app].
    + rewrite IH. reflexivity.
    + rewrite (field_value_primitive params name Hseg), IH. reflexivity.
Qed.

Lemma items_route_declared :
  get "todos/{id}/items/{kind}" list_items = Ok items_route.
Proof. reflexivity. Qed.

(** ** Declaration *)

Lemma names_of_chunk (lit : string) (m : Markup) (segs : list Segment) :
  names_of m segs -> names_of (MkChunk lit None m) segs.
Proof.
  intros [names [Hnames Hskip]]. exists (None :: names). split.
  - cbn. rewrite Hnames. reflexivity.
  - intros x. cbn. apply Hskip.
Qed.

Lemma field_names_literal (text tail : string) (segs : list Segment) :
  (forall acc, names_of (markup_from tail (InLiteral acc)) segs) ->
  forall acc,
    names_of (markup_from (escape_braces text ++ tail) (InLiteral acc)) segs.
Proof.
  intros Htail. induction text as [| c text IH]; intros acc.
  - apply Htail.
  - cbn [escape_braces].
    destruct (Ascii.eqb c "{") eqn:Hopen; [| destruct (Ascii.eqb c "}") eqn:Hclose].
    + rewrite !str_app_cons. cbn [markup_from Ascii.eqb Bool.eqb].
      apply names_of_chunk, IH.
    + rewrite !str_app_cons. cbn [markup_from Ascii.eqb Bool.eqb].
      apply names_of_chunk, IH.
    + rewrite str_app_cons. cbn [markup_from]. rewrite Hopen, Hclose.
      apply IH.
Qed.

Lemma field_names_render (segs : list Segment) :
  forallb plain_segment segs = true ->
  forall acc,
    names_of (markup_from (render_template segs) (InLiteral acc)) segs.
Proof.
  induction segs as [| seg segs IH]; intros Hplain acc.
  - cbn [render_template markup_from].
    destruct (String.eqb acc ""); [exists [] | exists [None]];
      split; reflexivity.
  - cbn [forallb] in Hplain. apply andb_true_iff in Hplain as [Hseg Hsegs].
    specialize (IH Hsegs). destruct seg as [text | name].
    + cbn [render_template render_segment].
      destruct (field_names_literal text _ segs IH acc) as [names [Hn Hs]].
      exists names. split; [exact Hn | exact Hs].
    + cbn [render_template plain_segment] in *.
      rewrite render_field_shape.
      unfold plain_name in Hseg.
      rewrite !andb_true_iff, !negb_true_iff in Hseg.
      destruct Hseg as [[Hne _] Hchars].
      destruct name as [| c name]; [discriminate Hne |].
      assert (Hc : Ascii.eqb c "{" = false).
      { cbn [list_ascii_of_string forallb] in Hchars.
        apply andb_true_iff in Hchars as [Hc _].
        destruct (plain_char_eqb c Hc) as [Hopen _]. exact Hopen. }
      rewrite str_app_cons, (markup_enter_field c _ acc Hc).
      rewrite <- str_app_cons.
      rewrite (markup_field_name (String c name) _ acc "" Hchars).
      rewrite str_app_nil_l.
      destruct (IH "") as [names [Hn Hs]].
      exists (Some (String c name) :: names). split.
      * cbn. rewrite Hn. reflexivity.
      * intros x. cbn [in_skipped existsb is_field]. f_equal. apply Hs.
Qed.

(** A well-formed template is accepted by the decorator whatever the
    parameters of the decorated function are. *)
Lemma rest_accepts (segs : list Segment) (method body_name : string)
    (func : FuncDecl) :
  forallb plain_segment segs = true ->
  exists r,
    rest (render_template segs) method body_name func = Ok r
    /\ rt_func r = func /\ rt_url_format r = render_template segs.
Proof.
  intros Hplain. unfold rest, markup.
  destruct (field_names_render segs Hplain "") as [names [Hn _]].
  rewrite Hn. cbn. eexists. split; [reflexivity |]. split; reflexivity.
Qed.

Lemma run_inner_bind_raises (r : Route) (args : list PyVal)
    (kwargs : PyDict) (st : State) (e : Exn) :
  dict_mem "self" kwargs = false ->
  inner_bind r (VObj (obj_id (st_self st))) args kwargs = Raise e ->
  inner r args kwargs st = (Raise e, st).
Proof.
  intros Hself Hbind. unfold inner. rewrite run_bind, run_attr, Hself.
  rewrite run_bind, run_lift, Hbind. reflexivity.
Qed.

(** C3, amended.  A template with a placeholder [p] that is no parameter
    of the method is accepted when the method is declared: the decorator
    does not compare placeholders with parameters.  The failure comes with
    the call: when the arguments bind and the placeholders before [p] are
    bound to primitive values, the call raises [KeyError] for [p] while
    building the URL, and nothing is handed to the transport. *)
Theorem undeclared_placeholder_fails_at_call
    (func : FuncDecl) (method body_name : string)
    (pre post : list Segment) (p : string) :
  forallb plain_segment (pre ++ Field p :: post) = true ->
  existsb (String.eqb p) (fn_args func) = false ->
  exists r,
    rest (render_template (pre ++ Field p :: post)) method body_name func
      = Ok r
    /\ forall st args kwargs params,
         dict_mem "self" kwargs = false ->
         getcallargs func (VObj (obj_id (st_self st)) :: args) kwargs
           = Ok params ->
         bound_to_primitives params pre = true ->
         inner r args kwargs st = (Raise (KeyError p), st).
Proof.
  intros Hplain Hundeclared.
  destruct (rest_accepts _ method body_name func Hplain)
    as [r [Hrest [Hfunc Hurl]]].
  exists r. split; [exact Hrest |].
  intros st args kwargs params Hself Hcall Hbound.
  apply run_inner_bind_raises; [exact Hself |].
  unfold inner_bind. rewrite Hfunc, Hcall, Hurl. cbn [mbind res_bind].
  rewrite (str_format_render params _ Hplain).
  rewrite (substitute_missing params pre post p Hbound); [reflexivity |].
  destruct (dict_get p params) as [v |] eqn:Hp; [| reflexivity].
  exfalso. apply not_true_iff_false in Hundeclared. apply Hundeclared.
  apply existsb_eqb_In.
  apply (getcallargs_keys func _ kwargs params p Hcall).
  unfold dict_mem. rewrite Hp. reflexivity.
Qed.

Lemma undeclared_placeholder_fails_at_call_witness :
  exists r,
    rest "todos/{missing}" "GET" "" get_todo = Ok r
    /\ inner r [VInt 7] [] (fresh routed_client)
       = (Raise (KeyError "missing"), fresh routed_client).
Proof.
  destruct (undeclared_placeholder_fails_at_call get_todo "GET" ""
              [Lit "todos/"] [] "missing" eq_refl eq_refl)
    as [r [Hrest Hcall]].
  exists r. split; [exact Hrest |].
  apply (Hcall (fresh routed_client) [VInt 7] []
           [("self", VObj 1); ("id", VInt 7)] eq_refl eq_refl eq_refl).
Defined.

(** The declaration of a method whose template names a parameter that the
    method does not have goes through. *)
Lemma undeclared_placeholder_is_accepted :
  get "todos/{missing}" get_todo
  = Ok {| rt_func := get_todo;
          rt_url_format := "todos/{missing}";
          rt_method := "GET";
          rt_body_name := "";
          rt_result_class := VType (TClass "Todo");
          rt_body_class := VNone;
          rt_args_class := TTypedDict "get_todo_Args" [("id", TClass "int")] |}
  /\ forall e, get "todos/{missing}" get_todo <> Raise e.
Proof. split; [reflexivity | intros e H; discriminate H]. Qed.

(** ** The body of the request *)

(** The body parameter is no field of the arguments class. *)
Lemma args_fields_skipped (args : list string) (self_processed : bool)
    (annotations : list (string * TypeDesc)) (skipped : list (option string))
    (fields : list (string * TypeDesc)) (x : string) :
  in_skipped x skipped = true ->
  dict_mem x fields = false ->
  dict_mem x (args_fields args self_processed annotations skipped fields)
  = false.
Proof.
  intros Hskip. revert self_processed fields.
  induction args as [| a args IH]; intros self_processed fields Hx; cbn.
  - exact Hx.
  - destruct self_processed; cbn [negb]; [| apply IH, Hx].
    destruct (in_skipped a skipped) eqn:Ha; [apply IH, Hx |].
    apply IH. rewrite dict_mem_set, Hx.
    destruct (String.eqb_spec x a) as [-> | Hne]; [congruence | reflexivity].
Qed.

Lemma rest_skips_body (url_format method body_name : string)
    (func : FuncDecl) (r : Route) :
  rest url_format method body_name func = Ok r ->
  exists name fields,
    rt_args_class r = TTypedDict name fields
    /\ dict_mem body_name fields = false.
Proof.
  unfold rest. destruct (field_names (markup url_format)) as [names | e | w];
    cbn; intros H; inversion H; subst; clear H. cbn.
  eexists _, _. split; [reflexivity |].
  apply args_fields_skipped; [| reflexivity].
  unfold in_skipped. rewrite existsb_app. cbn.
  rewrite String.eqb_refl. apply orb_true_iff. right. reflexivity.
Qed.


(** Whatever the transport answers, the request handed to it is the one
    request that the call adds to those sent. *)
Lemma sent_by_try {A} (rq : Request) (k : Response -> M A)
    (handlers : Exn -> option (M A)) (st : State) :
  (forall response, preserves st_sent (k response)) ->
  (forall e clause, handlers e = Some clause -> preserves st_sent clause) ->
  st_sent (snd (try_except (session_request rq ≫= k) handlers st))
  = rq :: st_sent st.
Proof.
  intros Hk Hh. unfold try_except. rewrite run_bind. unfold session_request.
  destruct (session (st_self st) rq) as [response | e | w].
  - match goal with
    | |- context [k response ?s] =>
        pose proof (Hk response s) as Hsent;
        destruct (k response s) as [[a | e | w] st'] eqn:Hrun
    end; cbn in *; try exact Hsent.
    destruct (handlers e) as [clause |] eqn:Hc; [| exact Hsent].
    rewrite (Hh e clause Hc). exact Hsent.
  - destruct (handlers e) as [clause |] eqn:Hc; [| reflexivity].
    rewrite (Hh e clause Hc). reflexivity.
  - reflexivity.
Qed.

(** What [inner] hands to the transport.  The body is looked up in the
    mapping that the serializer returned for the arguments class, the very
    mapping that is sent (filtered) as the query parameters; it is not
    looked up in the bound arguments. *)
Lemma inner_sends (r : Route) (st : State) (args : list PyVal)
    (kwargs params dumped : PyDict) (url : string) (body' : PyVal) :
  let c := st_self st in
  dict_mem "self" kwargs = false ->
  inner_bind r (VObj (obj_id c)) args kwargs = Ok (params, url) ->
  dump (factory c) (VDict params) (VType (rt_args_class r))
    = Ok (VDict dumped) ->
  request_body c (default VNone (dict_get (rt_body_name r) dumped))
    (rt_body_class r) = Ok body' ->
  st_sent (snd (inner r args kwargs st)) =
  request_sent c url (rt_method r)
    (VDict (List.filter
              (fun kv => negb (is_dropped (obj_id c)
                                 [rt_result_class r; rt_body_class r]
                                 (snd kv))) dumped))
    body' :: st_sent st.
Proof.
  cbv zeta. intros Hself Hbind Hdump Hbody. unfold inner.
  rewrite run_bind, run_attr, Hself.
  rewrite run_bind, run_lift, Hbind. cbn [fst snd].
  rewrite run_bind, run_attr, run_bind, run_lift, Hdump.
  rewrite run_bind, run_lift. cbn [py_get].
  assert (Hquery :
    fst (_filter_params (VDict dumped)
           (Some [rt_result_class r; rt_body_class r]) st)
    = Ok (VDict (List.filter
                   (fun kv => negb (is_dropped (obj_id (st_self st))
                                      [rt_result_class r; rt_body_class r]
                                      (snd kv))) dumped))).
  { destruct dumped as [| kv dumped]; [reflexivity |].
    rewrite filter_params_dict_dropped by discriminate. reflexivity. }
  rewrite (run_request st url (rt_method r) (VDict dumped) _
             (rt_body_class r) (rt_result_class r) body' _ Hbody Hquery).
  rewrite sent_by_try.
  - reflexivity.
  - intros response. apply preserves_if.
    + apply preserves_handle_error.
    + auto 8 with frame.
  - apply request_handlers_keep_sent.
Qed.

(** With a serializer that dumps the arguments class to its fields, the
    body parameter is absent from the dumped mapping, and what is sent as
    the body is the serialization of [None]. *)
Lemma inner_sends_none (r : Route) (st : State) (args : list PyVal)
    (kwargs params dumped : PyDict) (url : string) (body' : PyVal) :
  let c := st_self st in
  dict_mem "self" kwargs = false ->
  inner_bind r (VObj (obj_id c)) args kwargs = Ok (params, url) ->
  dump (factory c) (VDict params) (VType (rt_args_class r))
    = Ok (VDict dumped) ->
  dict_get (rt_body_name r) dumped = None ->
  request_body c VNone (rt_body_class r) = Ok body' ->
  exists rq,
    st_sent (snd (inner r args kwargs st)) = rq :: st_sent st
    /\ rq_json rq = body'.
Proof.
  cbv zeta. intros Hself Hbind Hdump Habsent Hbody.
  eexists. split.
  - apply (inner_sends r st args kwargs params dumped url body'
             Hself Hbind Hdump).
    rewrite Habsent. exact Hbody.
  - reflexivity.
Qed.

(** ** The URL of a call *)

Lemma inner_bind_fills (r : Route) (segs : list Segment) (self : PyVal)
    (args : list PyVal) (kwargs params : PyDict) :
  rt_url_format r = render_template segs ->
  forallb plain_segment segs = true ->
  getcallargs (rt_func r) (self :: args) kwargs = Ok params ->
  bound_to_primitives params segs = true ->
  inner_bind r self args kwargs = Ok (params, fill_template params segs).
Proof.
  intros Htemplate Hplain Hcall Hbound. unfold inner_bind.
  rewrite Hcall, Htemplate. cbn [mbind res_bind].
  rewrite (str_format_render params segs Hplain).
  rewrite (substitute_primitives params segs Hbound). reflexivity.
Qed.

Lemma dict_mem_snoc {V} (k n : string) (v : V) (d : list (string * V)) :
  dict_mem k d = false -> k <> n -> dict_mem k (d ++ [(n, v)]) = false.
Proof.
  unfold dict_mem. intros Hd Hne.
  induction d as [| [k' v'] d IH]; cbn in *.
  - destruct (String.eqb_spec k n); [contradiction | reflexivity].
  - destruct (String.eqb k k'); [discriminate | apply IH, Hd].
Qed.

(** A call of [request] hands the transport nothing, or one request
    whose URL is the base URL, a slash and the URL it was given. *)
Lemma request_sent_or_not (st : State) (url method : string)
    (params body body_class result_class : PyVal) :
  let st' := snd (request url method params body body_class result_class st) in
  st_sent st' = st_sent st
  \/ exists query body',
       st_sent st' =
       request_sent (st_self st) url method query body' :: st_sent st.
Proof.
  cbv zeta.
  destruct (request_body (st_self st) body body_class)
    as [body' | e | w] eqn:Hbody;
    [destruct (fst (_filter_params params
                      (Some [result_class; body_class]) st))
       as [query | e | w] eqn:Hquery | |].
  - right. exists query, body'.
    rewrite (run_request st url method params body body_class result_class
               body' query Hbody Hquery).
    rewrite sent_by_try.
    + reflexivity.
    + intros response. apply preserves_if.
      * apply preserves_handle_error.
      * auto 8 with frame.
    + apply request_handlers_keep_sent.
  - left. unfold request, request_body in *.
    rewrite run_bind, run_attr, run_bind. cbn [logger_log]. rewrite run_bind.
    set (st1 := {| st_self := st_self st; st_sent := st_sent st;
                   st_logger := _; st_log := _ |}).
    assert (Hb : (if py_truthy body_class
                  then fac ← attr factory; lift (dump fac body body_class)
                  else mret body) st1 = (Ok body', st1)).
    { destruct (py_truthy body_class).
      - rewrite run_bind, run_attr, run_lift. cbn. rewrite Hbody. reflexivity.
      - inversion Hbody. reflexivity. }
    rewrite Hb. unfold try_except. rewrite !run_bind.
    rewrite (run_filter_params st st1) by reflexivity. rewrite Hquery.
    destruct (request_handlers _ e) as [clause |] eqn:Hclause;
      [| reflexivity].
    rewrite (request_handlers_keep_sent _ e clause Hclause). reflexivity.
  - left. unfold request, request_body in *.
    rewrite run_bind, run_attr, run_bind. cbn [logger_log]. rewrite run_bind.
    set (st1 := {| st_self := st_self st; st_sent := st_sent st;
                   st_logger := _; st_log := _ |}).
    assert (Hb : (if py_truthy body_class
                  then fac ← attr factory; lift (dump fac body body_class)
                  else mret body) st1 = (Ok body', st1)).
    { destruct (py_truthy body_class).
      - rewrite run_bind, run_attr, run_lift. cbn. rewrite Hbody. reflexivity.
      - inversion Hbody. reflexivity. }
    rewrite Hb. unfold try_except. rewrite !run_bind.
    rewrite (run_filter_params st st1) by reflexivity. rewrite Hquery.
    reflexivity.
  - left. unfold request, request_body in *.
    rewrite run_bind, run_attr, run_bind. cbn [logger_log]. rewrite run_bind.
    destruct (py_truthy body_class); [| discriminate].
    rewrite run_bind, run_attr, run_lift. cbn [st_self]. rewrite Hbody.
    reflexivity.
  - left. unfold request, request_body in *.
    rewrite run_bind, run_attr, run_bind. cbn [logger_log]. rewrite run_bind.
    destruct (py_truthy body_class); [| discriminate].
    rewrite run_bind, run_attr, run_lift. cbn [st_self]. rewrite Hbody.
    reflexivity.
Qed.

Lemma cons_not_self {A} (x : A) (l : list A) : l <> x :: l.
Proof.
  intros H. apply (f_equal (@length A)) in H. cbn in H. lia.
Qed.

(** A request that a call of a decorated method hands to the transport
    has the URL that the first two statements of [inner] built, after the
    base URL and a slash. *)
Lemma inner_sent_url (r : Route) (st : State) (args : list PyVal)
    (kwargs : PyDict) (rq : Request) :
  st_sent (snd (inner r args kwargs st)) = rq :: st_sent st ->
  exists params url,
    inner_bind r (VObj (obj_id (st_self st))) args kwargs = Ok (params, url)
    /\ rq_url rq = base_url (st_self st) ++ "/" ++ url.
Proof.
  unfold inner. rewrite run_bind, run_attr.
  destruct (dict_mem "self" kwargs);
    [intros H; cbn in H; destruct (cons_not_self _ _ H) |].
  rewrite run_bind, run_lift.
  destruct (inner_bind r (VObj (obj_id (st_self st))) args kwargs)
    as [[params url] | e | w];
    try (intros H; cbn in H; destruct (cons_not_self _ _ H)).
  cbn [fst snd]. rewrite run_bind, run_attr, run_bind, run_lift.
  destruct (dump (factory (st_self st)) (VDict params)
              (VType (rt_args_class r))) as [dumped | e | w];
    try (intros H; cbn in H; destruct (cons_not_self _ _ H)).
  rewrite run_bind, run_lift.
  destruct (py_get dumped (rt_body_name r)) as [body | e | w];
    try (intros H; cbn in H; destruct (cons_not_self _ _ H)).
  intros Hsent. exists params, url. split; [reflexivity |].
  destruct (request_sent_or_not st url (rt_method r) dumped body
              (rt_body_class r) (rt_result_class r))
    as [Hnone | [query [body' Hone]]].
  - rewrite Hnone in Hsent. destruct (cons_not_self _ _ Hsent).
  - rewrite Hone in Hsent. inversion Hsent. reflexivity.
Qed.

(** Bindings that agree give the same URL, or the same failure to build
    one. *)
Lemma inner_bind_same_binding (r : Route) (self : PyVal)
    (args1 args2 : list PyVal) (kwargs1 kwargs2 : PyDict) :
  same_binding (getcallargs (rt_func r) (self :: args1) kwargs1)
               (getcallargs (rt_func r) (self :: args2) kwargs2) ->
  match inner_bind r self args1 kwargs1, inner_bind r self args2 kwargs2 with
  | Ok (d1, url1), Ok (d2, url2) => dict_equiv d1 d2 /\ url1 = url2
  | Raise e1, Raise e2 => e1 = e2
  | Beyond w1, Beyond w2 => w1 = w2
  | _, _ => False
  end.
Proof.
  intros Hsame. unfold inner_bind.
  destruct (getcallargs (rt_func r) (self :: args1) kwargs1)
    as [d1 | e1 | w1],
           (getcallargs (rt_func r) (self :: args2) kwargs2)
    as [d2 | e2 | w2];
    cbn in Hsame; try contradiction; cbn [mbind res_bind]; try exact Hsame.
  assert (Hurl : str_format (rt_url_format r) d1
                 = str_format (rt_url_format r) d2)
    by (apply format_markup_equiv, Hsame).
  rewrite Hurl.
  destruct (str_format (rt_url_format r) d2) as [url | e | w];
    cbn [mbind res_bind]; [split; [exact Hsame | reflexivity] | |];
    reflexivity.
Qed.

(** Two calls whose arguments bind alike go the same way, with a
    serializer that does not tell apart mappings with the same entries. *)
Lemma inner_same_binding (r : Route) (st : State) (args1 args2 : list PyVal)
    (kwargs1 kwargs2 : PyDict) :
  let c := st_self st in
  dict_mem "self" kwargs1 = false ->
  dict_mem "self" kwargs2 = false ->
  same_binding (getcallargs (rt_func r) (VObj (obj_id c) :: args1) kwargs1)
               (getcallargs (rt_func r) (VObj (obj_id c) :: args2) kwargs2) ->
  dump_ignores_order (factory c) (rt_args_class r) ->
  inner r args1 kwargs1 st = inner r args2 kwargs2 st.
Proof.
  cbv zeta. intros Hself1 Hself2 Hsame Hdump.
  apply inner_bind_same_binding in Hsame. unfold inner.
  rewrite !run_bind, !run_attr, Hself1, Hself2.
  rewrite !run_bind, !run_lift.
  destruct (inner_bind r (VObj (obj_id (st_self st))) args1 kwargs1)
    as [[d1 url1] | e1 | w1],
           (inner_bind r (VObj (obj_id (st_self st))) args2 kwargs2)
    as [[d2 url2] | e2 | w2];
    try contradiction; try (rewrite Hsame; reflexivity).
  destruct Hsame as [Hequiv ->]. cbn [fst snd].
  rewrite !run_bind, !run_attr, !run_bind, !run_lift.
  rewrite (Hdump d1 d2 Hequiv). reflexivity.
Qed.

(** The serializer of the examples reads a mapping through its keys. *)
Lemma project_fields_equiv (fields : list (string * TypeDesc))
    (d1 d2 : PyDict) :
  dict_equiv d1 d2 -> project_fields fields d1 = project_fields fields d2.
Proof.
  intros Heq. induction fields as [| [k t] fields IH]; [reflexivity |].
  cbn. rewrite (Heq k), IH. reflexivity.
Qed.

Lemma plain_factory_ignores_order (name : string)
    (fields : list (string * TypeDesc)) :
  dump_ignores_order plain_factory (TTypedDict name fields).
Proof.
  intros d1 d2 Heq. cbn. rewrite (project_fields_equiv fields d1 d2 Heq).
  reflexivity.
Qed.

(** Two calls whose first two statements build the same URL hand the
    transport requests with the same URL, when both hand it one. *)
Lemma inner_sent_same_url (r : Route) (st : State) (args1 args2 : list PyVal)
    (kwargs1 kwargs2 : PyDict) (rq1 rq2 : Request) :
  let self := VObj (obj_id (st_self st)) in
  snd <$> inner_bind r self args1 kwargs1 =
  snd <$> inner_bind r self args2 kwargs2 ->
  st_sent (snd (inner r args1 kwargs1 st)) = rq1 :: st_sent st ->
  st_sent (snd (inner r args2 kwargs2 st)) = rq2 :: st_sent st ->
  rq_url rq1 = rq_url rq2.
Proof.
  cbv zeta. intros Hurl Hsent1 Hsent2.
  destruct (inner_sent_url r st args1 kwargs1 rq1 Hsent1)
    as [p1 [url1 [Hbind1 ->]]].
  destruct (inner_sent_url r st args2 kwargs2 rq2 Hsent2)
    as [p2 [url2 [Hbind2 ->]]].
  rewrite Hbind1, Hbind2 in Hurl. cbn in Hurl. congruence.
Qed.

(** C9.  For a method whose URL template is made of literal text and
    placeholders, called without a keyword argument named [self]:

    - when the call arguments bind and every placeholder is bound to a
      primitive value ([None], a boolean, an integer, a float or a
      string), the URL of the request that the call hands to the
      transport is the base URL, a slash and the template with each
      placeholder replaced by the string form of the value bound to it;
    - an argument passed by position and the same argument passed by name
      give the same URL or the same failure to build one; the requests
      that the two calls hand to the transport have the same URL; and
      with a serializer that does not look at the order of the entries of
      the mapping it is given, the two calls are the same in every
      respect (outcome, request sent, log);
    - likewise for a parameter left out and the same parameter passed
      with its declared default. *)
Theorem url_built_from_bound_arguments
    (r : Route) (segs : list Segment) (st : State) (args : list PyVal)
    (kwargs : PyDict) :
  let c := st_self st in
  let self := VObj (obj_id c) in
  let same_url (args1 : list PyVal) (kwargs1 : PyDict)
               (args2 : list PyVal) (kwargs2 : PyDict) : Prop :=
    snd <$> inner_bind r self args1 kwargs1 =
    snd <$> inner_bind r self args2 kwargs2
    /\ forall rq1 rq2,
         st_sent (snd (inner r args1 kwargs1 st)) = rq1 :: st_sent st ->
         st_sent (snd (inner r args2 kwargs2 st)) = rq2 :: st_sent st ->
         rq_url rq1 = rq_url rq2 in
  rt_url_format r = render_template segs ->
  forallb plain_segment segs = true ->
  NoDup (fn_args (rt_func r)) ->
  dict_mem "self" kwargs = false ->
  (forall params dumped body',
     getcallargs (rt_func r) (self :: args) kwargs = Ok params ->
     bound_to_primitives params segs = true ->
     dump (factory c) (VDict params) (VType (rt_args_class r))
       = Ok (VDict dumped) ->
     request_body c (default VNone (dict_get (rt_body_name r) dumped))
       (rt_body_class r) = Ok body' ->
     exists rq,
       st_sent (snd (inner r args kwargs st)) = rq :: st_sent st
       /\ rq_url rq = base_url c ++ "/" ++ fill_template params segs)
  /\ (forall n v,
        fn_args (rt_func r) !! S (length args) = Some n ->
        dict_get n kwargs = None ->
        same_url (args ++ [v])%list kwargs args (kwargs ++ [(n, v)])%list
        /\ (n <> "self" ->
            dump_ignores_order (factory c) (rt_args_class r) ->
            inner r (args ++ [v]) kwargs st =
            inner r args (kwargs ++ [(n, v)]) st))
  /\ (forall n d i,
        fn_args (rt_func r) !! i = Some n ->
        (S (length args) <= i)%nat ->
        default_of (rt_func r) n = Some d ->
        dict_get n kwargs = None ->
        same_url args kwargs args (kwargs ++ [(n, d)])%list
        /\ (n <> "self" ->
            dump_ignores_order (factory c) (rt_args_class r) ->
            inner r args kwargs st = inner r args (kwargs ++ [(n, d)]) st)).
Proof.
  cbv zeta. intros Htemplate Hplain Hnodup Hself. split; [| split].
  - intros params dumped body' Hcall Hbound Hdump Hbody.
    eexists. split.
    + apply (inner_sends r st args kwargs params dumped
               (fill_template params segs) body' Hself
               (inner_bind_fills r segs _ args kwargs params
                  Htemplate Hplain Hcall Hbound)
               Hdump Hbody).
    + reflexivity.
  - intros n v Hn Hkw.
    pose proof (getcallargs_positional_or_named (rt_func r)
                  (VObj (obj_id (st_self st)) :: args) kwargs n v
                  Hnodup Hn Hkw) as Hsame.
    assert (Hurl : snd <$> inner_bind r (VObj (obj_id (st_self st)))
                             (args ++ [v]) kwargs =
                   snd <$> inner_bind r (VObj (obj_id (st_self st)))
                             args (kwargs ++ [(n, v)]))
      by (rewrite !inner_bind_url; apply same_binding_url, Hsame).
    split; [split |].
    + exact Hurl.
    + intros rq1 rq2. apply inner_sent_same_url, Hurl.
    + intros Hne Hdump. apply inner_same_binding;
        [exact Hself | | exact Hsame | exact Hdump].
      apply dict_mem_snoc; [exact Hself | congruence].
  - intros n d i Hn Hi Hd Hkw.
    pose proof (getcallargs_default (rt_func r)
                  (VObj (obj_id (st_self st)) :: args) kwargs n d i
                  Hnodup Hn Hi Hd Hkw) as Hsame.
    assert (Hurl : snd <$> inner_bind r (VObj (obj_id (st_self st)))
                             args kwargs =
                   snd <$> inner_bind r (VObj (obj_id (st_self st)))
                             args (kwargs ++ [(n, d)]))
      by (rewrite !inner_bind_url; apply same_binding_url, Hsame).
    split; [split |].
    + exact Hurl.
    + intros rq1 rq2. apply inner_sent_same_url, Hurl.
    + intros Hne Hdump. apply inner_same_binding;
        [exact Hself | | exact Hsame | exact Hdump].
      apply dict_mem_snoc; [exact Hself | congruence].
Qed.

Lemma url_built_from_bound_arguments_witness :
  let st := fresh answering_client in
  let half := VFloat (FFinite 15 (-1)) "7.5" in
  (exists rq,
     st_sent (snd (inner items_route [half] [("kind", VStr "done")] st))
     = rq :: st_sent st
     /\ rq_url rq = "http://api/todos/7.5/items/done")
  /\ snd <$> inner_bind items_route (VObj 1) [VInt 7; VStr "done"] []
     = snd <$> inner_bind items_route (VObj 1) [VInt 7] [("kind", VStr "done")]
  /\ inner items_route [VInt 7; VStr "done"] [] st
     = inner items_route [VInt 7] [("kind", VStr "done")] st
  /\ inner items_route [VInt 7] [] st
     = inner items_route [VInt 7] [("kind", VStr "open")] st.
Proof.
  cbv zeta.
  pose (Hnodup := bool_decide_unpack
                     (NoDup (fn_args (rt_func items_route))) I).
  pose (Horder := plain_factory_ignores_order "list_items_Args"
                    [("page", TClass "int")]).
  split; [| split; [| split]].
  - apply (proj1 (url_built_from_bound_arguments items_route items_template
                    (fresh answering_client)
                    [VFloat (FFinite 15 (-1)) "7.5"] [("kind", VStr "done")]
                    eq_refl eq_refl Hnodup eq_refl)
             [("self", VObj 1); ("id", VFloat (FFinite 15 (-1)) "7.5");
              ("kind", VStr "done"); ("page", VInt 1)]
             [("page", VInt 1)] VNone
             eq_refl eq_refl eq_refl eq_refl).
  - apply (proj1 (proj1 (proj1 (proj2 (url_built_from_bound_arguments
                                         items_route items_template
                                         (fresh answering_client)
                                         [VInt 7] [] eq_refl eq_refl Hnodup
                                         eq_refl))
                           "kind" (VStr "done") eq_refl eq_refl))).
  - apply (proj2 (proj1 (proj2 (url_built_from_bound_arguments items_route
                                  items_template (fresh answering_client)
                                  [VInt 7] [] eq_refl eq_refl Hnodup eq_refl))
                    "kind" (VStr "done") eq_refl eq_refl)
             ltac:(discriminate) Horder).
  - apply (proj2 (proj2 (proj2 (url_built_from_bound_arguments items_route
                                  items_template (fresh answering_client)
                                  [VInt 7] [] eq_refl eq_refl Hnodup eq_refl))
                    "kind" (VStr "open") 2%nat eq_refl ltac:(cbn; lia)
                    eq_refl eq_refl)
             ltac:(discriminate) Horder).
Defined.

(** C4, as the code has it: [add_todo] is declared with the body parameter
    [body]; the call [add_todo(todo, "home")], with [todo] an instance that
    the serializer dumps to itself, hands the transport the body [None]
    and not [todo]. *)
Theorem add_todo_sends_no_body :
  post "todos" "body" add_todo = Ok add_todo_route
  /\ dump (factory answering_client) (VObj 7) (VType (TClass "Todo"))
     = Ok (VObj 7)
  /\ st_sent (snd (inner add_todo_route [VObj 7; VStr "home"] []
                     (fresh answering_client)))
     = [ {| rq_method := "POST"; rq_url := "http://api/todos";
            rq_params := VDict [("tag", VStr "home")];
            rq_json := VNone |} ].
Proof. repeat split. Qed.

(** A 404 answer to a call makes [request] return [None] when the table
    is the default one. *)
Lemma request_404_returns_none :
  fst (request "todos/7" "DELETE" VNone VNone VNone VNone
         (fresh (__init__ 1 "http://api"
                   (fixed_session {| ok := false; status_code := 404;
                                     json := Ok VNone |})
                   plain_factory)))
  = Ok VNone.
Proof. vm_compute. reflexivity. Qed.

(** * Further properties *)

(** ** The constructor *)

Lemma rstrip_slash_spec (s : string) :
  ends_with_slash (rstrip_slash s) = false
  /\ exists n, s = rstrip_slash s ++ slashes n.
Proof.
  induction s as [| c rest [IHend [n IHn]]].
  - split; [reflexivity | exists 0%nat; reflexivity].
  - cbn [rstrip_slash]. destruct (rstrip_slash rest) as [| c' r'] eqn:Hr.
    + rewrite str_app_nil_l in IHn.
      destruct (Ascii.eqb c "/") eqn:Hc.
      * apply Ascii.eqb_eq in Hc as ->. split; [reflexivity |].
        exists (S n). rewrite IHn. reflexivity.
      * split; [cbn; exact Hc |]. exists n. rewrite IHn. reflexivity.
    + split; [exact IHend |]. exists n.
      rewrite str_app_cons, <- IHn. reflexivity.
Qed.

(** X1.  The base URL that the constructor stores does not end with a
    slash, and it is the argument less its trailing slashes. *)
Theorem init_strips_trailing_slashes
    (id : nat) (url : string) (sess : Request -> Res Response)
    (fac : Factory) :
  let c := __init__ id url sess fac in
  ends_with_slash (base_url c) = false
  /\ exists n, url = base_url c ++ slashes n.
Proof. cbv zeta. cbn [__init__ base_url]. apply rstrip_slash_spec. Qed.

(** ** Error routing, for any table *)

Lemma run_handle_error (st : State) (method : string) (response : Response) :
  handle_error method response st =
  (if has_handler (error_handlers (st_self st)) method (status_code response)
   then Ok VNone
   else Raise (ApiError (response_str response) None), st).
Proof.
  unfold handle_error, handle_error_lookup, has_handler. run_m.
  destruct (error_handlers (st_self st) !! (method, status_code response))
    as [h |]; cbn [not_handler]; run_m; [reflexivity |].
  destruct (error_handlers (st_self st) !! ("", status_code response));
    reflexivity.
Qed.

(** X2.  Whatever the table holds and whatever its handlers would do,
    [handle_error] has two outcomes and no other: it returns [None] when a
    handler is registered for the verb and the code or for the empty verb
    and the code, and it raises [ApiError] with the text of the response
    when none is.  In particular it never raises what a handler raises. *)
Theorem handle_error_outcome
    (st : State) (method : string) (response : Response) :
  let found :=
    has_handler (error_handlers (st_self st)) method (status_code response) in
  (found = true /\ handle_error method response st = (Ok VNone, st))
  \/ (found = false
      /\ handle_error method response st =
         (Raise (ApiError (response_str response) None), st)).
Proof.
  cbv zeta. rewrite run_handle_error.
  destruct (has_handler _ _ _); [left | right]; split; reflexivity.
Qed.

Lemma handle_error_lookup_value (st : State) (method : string)
    (response : Response) :
  handle_error_lookup method response st =
  (Ok (match error_handlers (st_self st) !! (method, status_code response)
       with
       | Some h => Some h
       | None => error_handlers (st_self st) !! ("", status_code response)
       end), st).
Proof.
  unfold handle_error_lookup. run_m.
  destruct (error_handlers (st_self st) !! (method, status_code response));
    reflexivity.
Qed.

(** X4.  Registering a handler for a verb and a code makes the lookup for
    that verb and code find it, whatever was registered before; and when
    the verb is not the empty one, the lookup for every other verb finds
    what it found before. *)
Theorem registration_overrides_one_verb
    (st st' : State) (method : string) (code : Z) (h : Handler)
    (response : Response) :
  error_handlers (st_self st') =
    <[ (method, code) := h ]> (error_handlers (st_self st)) ->
  status_code response = code ->
  fst (handle_error_lookup method response st') = Ok (Some h)
  /\ (method <> "" ->
      forall other, other <> method ->
        fst (handle_error_lookup other response st') =
        fst (handle_error_lookup other response st)).
Proof.
  intros Htable Hcode. split.
  - rewrite handle_error_lookup_value. cbn [fst].
    rewrite Htable, Hcode, lookup_insert_eq. reflexivity.
  - intros Hverb other Hother. rewrite !handle_error_lookup_value. cbn [fst].
    rewrite Htable, Hcode.
    rewrite !lookup_insert_ne by congruence. reflexivity.
Qed.

Lemma registration_overrides_one_verb_witness :
  let answer := {| ok := false; status_code := 404; json := Ok VNone |} in
  let before := fresh (__init__ 1 "http://api" (fixed_session answer)
                         plain_factory) in
  fst (handle_error_lookup "GET" answer (fresh routed_client))
    = Ok (Some gone_handler)
  /\ fst (handle_error_lookup "DELETE" answer (fresh routed_client))
     = fst (handle_error_lookup "DELETE" answer before).
Proof.
  cbv zeta.
  pose proof (registration_overrides_one_verb
                (fresh (__init__ 1 "http://api"
                          (fixed_session {| ok := false; status_code := 404;
                                            json := Ok VNone |})
                          plain_factory))
                (fresh routed_client) "GET" 404 gone_handler
                {| ok := false; status_code := 404; json := Ok VNone |}
                eq_refl eq_refl) as [Hsame Hother].
  split; [exact Hsame |].
  apply Hother; discriminate.
Defined.

(** ** The dispatcher, further *)

Lemma request_handlers_pass_ApiError (url msg : string) (cause : option Exn) :
  request_handlers url (ApiError msg cause) = None.
Proof. reflexivity. Qed.

(** X5.  When the transport answers with an error response, the outcome
    of [request] is the outcome of [handle_error]: [None] when a handler
    is registered for the verb or the empty verb and the status code, and
    otherwise [ApiError] with the text of the response, which the
    [except] clauses let through as it is. *)
Theorem request_routes_error_response
    (st : State) (url method : string)
    (params body body_class result_class body' query : PyVal)
    (response : Response) :
  let c := st_self st in
  request_body c body body_class = Ok body' ->
  fst (_filter_params params (Some [result_class; body_class]) st) = Ok query ->
  session c (request_sent c url method query body') = Ok response ->
  ok response = false ->
  fst (request url method params body body_class result_class st) =
  if has_handler (error_handlers c) method (status_code response)
  then Ok VNone
  else Raise (ApiError (response_str response) None).
Proof.
  cbv zeta. intros Hbody Hquery Hsend Hok.
  rewrite (run_request st url method params body body_class result_class
             body' query Hbody Hquery).
  unfold try_except. rewrite run_bind. unfold session_request.
  cbn [st_self]. rewrite Hsend. cbn match. rewrite Hok. cbn [negb].
  rewrite run_handle_error. cbn [st_self].
  destruct (has_handler _ _ _); reflexivity.
Qed.

Lemma request_routes_error_response_witness :
  fst (request "todos/7" "GET" VNone VNone VNone VNone (fresh erroring_client))
  = Raise (ApiError "<Response [500]>" None)
  /\ fst (request "todos/7" "GET" VNone VNone VNone VNone
            (fresh routed_client))
     = Ok VNone.
Proof.
  split.
  - apply (request_routes_error_response (fresh erroring_client)
             "todos/7" "GET" VNone VNone VNone VNone VNone VNone
             {| ok := false; status_code := 500; json := Ok VNone |}
             eq_refl eq_refl eq_refl eq_refl).
  - apply (request_routes_error_response (fresh routed_client)
             "todos/7" "GET" VNone VNone VNone VNone VNone VNone
             {| ok := false; status_code := 404; json := Ok VNone |}
             eq_refl eq_refl eq_refl eq_refl).
Defined.

(** X6.  When the serializer fails on the body, [request] raises the
    serializer's error as it is, whatever its class, and hands nothing to
    the transport: the body is serialized before the [try] block. *)
Theorem request_body_failure_propagates
    (st : State) (url method : string)
    (params body body_class result_class : PyVal) (e : Exn) :
  py_truthy body_class = true ->
  dump (factory (st_self st)) body body_class = Raise e ->
  fst (request url method params body body_class result_class st) = Raise e
  /\ st_sent (snd (request url method params body body_class result_class st))
     = st_sent st.
Proof.
  intros Hclass Hdump. unfold request.
  rewrite run_bind, run_attr, run_bind. cbn [logger_log].
  rewrite run_bind, Hclass, run_bind, run_attr, run_lift. cbn [st_self].
  rewrite Hdump. split; reflexivity.
Qed.

Lemma request_body_failure_propagates_witness :
  let args_class := VType (TTypedDict "Args" [("tag", TClass "str")]) in
  fst (request "todos" "POST" VNone (VInt 1) args_class VNone
         (fresh answering_client))
  = Raise (OtherError "SerializationError" "not a mapping")
  /\ st_sent (snd (request "todos" "POST" VNone (VInt 1) args_class VNone
                     (fresh answering_client))) = [].
Proof.
  cbv zeta.
  apply (request_body_failure_propagates (fresh answering_client)
           "todos" "POST" VNone (VInt 1)
           (VType (TTypedDict "Args" [("tag", TClass "str")])) VNone
           (OtherError "SerializationError" "not a mapping")
           eq_refl eq_refl).
Defined.

(** X7.  When the serializer fails to load the parsed body into the
    result type with an error that is neither a [RequestException] nor a
    [JSONDecodeError], [request] raises that error as it is. *)
Theorem request_load_failure_propagates
    (st : State) (url method : string)
    (params body body_class result_class body' query : PyVal)
    (response : Response) (v : PyVal) (e : Exn) :
  let c := st_self st in
  request_body c body body_class = Ok body' ->
  fst (_filter_params params (Some [result_class; body_class]) st) = Ok query ->
  session c (request_sent c url method query body') = Ok response ->
  ok response = true ->
  json response = Ok v ->
  py_truthy result_class = true ->
  load (factory c) v result_class = Raise e ->
  is_RequestException e = false ->
  is_JSONDecodeError e = false ->
  fst (request url method params body body_class result_class st) = Raise e.
Proof.
  cbv zeta. intros Hbody Hquery Hsend Hok Hjson Hclass Hload Hreq Hdec.
  rewrite (run_request st url method params body body_class result_class
             body' query Hbody Hquery).
  unfold try_except. rewrite run_bind. unfold session_request.
  cbn [st_self]. rewrite Hsend. cbn match. rewrite Hok. cbn [negb].
  rewrite run_bind, run_lift, Hjson, Hclass.
  rewrite run_bind, run_attr, run_lift. cbn [st_self]. rewrite Hload.
  unfold request_handlers. rewrite Hreq, Hdec. reflexivity.
Qed.

Lemma request_load_failure_propagates_witness :
  fst (request "todos/7" "GET" VNone VNone VNone (VType (TClass "Todo"))
         (fresh mistyped_client))
  = Raise (OtherError "SerializationError" "not a number").
Proof.
  apply (request_load_failure_propagates (fresh mistyped_client)
           "todos/7" "GET" VNone VNone VNone (VType (TClass "Todo"))
           VNone VNone
           {| ok := true; status_code := 200; json := Ok (VStr "seven") |}
           (VStr "seven") (OtherError "SerializationError" "not a number")
           eq_refl eq_refl eq_refl eq_refl eq_refl eq_refl eq_refl
           eq_refl eq_refl).
Defined.

Lemma after_response_keeps_sent (method : string) (result_class : PyVal)
    (response : Response) :
  preserves st_sent
    (if negb (ok response) then handle_error method response
     else
       result ← lift (json response);
       if py_truthy result_class then
         fac ← attr factory;
         lift (load fac result result_class)
       else mret result).
Proof.
  apply preserves_if; [apply preserves_handle_error | auto 8 with frame].
Qed.

(** X8.  Once the body is serialized and the query parameters are
    filtered, [request] hands the transport one request and no more,
    whatever the transport answers and whatever [request] then returns or
    raises: the verb as given, the base URL and the path joined by one
    slash, the filtered parameters and the serialized body. *)
Theorem request_sends_once
    (st : State) (url method : string)
    (params body body_class result_class body' query : PyVal) :
  let c := st_self st in
  request_body c body body_class = Ok body' ->
  fst (_filter_params params (Some [result_class; body_class]) st) = Ok query ->
  st_sent (snd (request url method params body body_class result_class st))
  = {| rq_method := method; rq_url := base_url c ++ "/" ++ url;
       rq_params := query; rq_json := body' |} :: st_sent st.
Proof.
  cbv zeta. intros Hbody Hquery.
  rewrite (run_request st url method params body body_class result_class
             body' query Hbody Hquery).
  rewrite sent_by_try.
  - reflexivity.
  - intros response. apply after_response_keeps_sent.
  - apply request_handlers_keep_sent.
Qed.

Lemma request_sends_once_witness :
  st_sent (snd (request "todos" "GET" (VDict [("page", VInt 1)]) VNone
                  VNone VNone (fresh offline_client)))
  = [ {| rq_method := "GET"; rq_url := "http://api/todos";
         rq_params := VDict [("page", VInt 1)]; rq_json := VNone |} ].
Proof.
  apply (request_sends_once (fresh offline_client) "todos" "GET"
           (VDict [("page", VInt 1)]) VNone VNone VNone VNone
           (VDict [("page", VInt 1)]) eq_refl eq_refl).
Defined.

Lemma try_except_request_handlers (body : M PyVal) (url : string)
    (st : State) (e : Exn) :
  fst (try_except body (request_handlers url) st) = Raise e ->
  is_RequestException e = false /\ is_JSONDecodeError e = false.
Proof.
  unfold try_except, request_handlers.
  destruct (body st) as [[v | e0 | w] st']; cbn [fst]; try discriminate.
  destruct (is_RequestException e0) eqn:Hreq.
  - rewrite run_bind. cbn. intros H. inversion H. split; reflexivity.
  - destruct (is_JSONDecodeError e0) eqn:Hdec.
    + rewrite run_bind. cbn. intros H. inversion H. split; reflexivity.
    + cbn. intros H. inversion H; subst. split; assumption.
Qed.

(** X9.  Once the body is serialized, no [RequestException] and no
    [JSONDecodeError] leaves [request], wherever in the [try] block it
    comes from: the transport, [json()] or the serializer's [load]. *)
Theorem request_never_leaks_caught_classes
    (st : State) (url method : string)
    (params body body_class result_class body' : PyVal) (e : Exn) :
  request_body (st_self st) body body_class = Ok body' ->
  fst (request url method params body body_class result_class st) = Raise e ->
  is_RequestException e = false /\ is_JSONDecodeError e = false.
Proof.
  intros Hbody. unfold request, request_body in *.
  rewrite run_bind, run_attr, run_bind. cbn [logger_log].
  rewrite run_bind.
  set (st1 := {| st_self := st_self st; st_sent := st_sent st; st_log := _ |}).
  assert (Hb : (if py_truthy body_class
                then fac ← attr factory; lift (dump fac body body_class)
                else mret body) st1 = (Ok body', st1)).
  { destruct (py_truthy body_class).
    - rewrite run_bind, run_attr, run_lift. cbn. rewrite Hbody. reflexivity.
    - inversion Hbody. reflexivity. }
  rewrite Hb. apply try_except_request_handlers.
Qed.

Lemma request_never_leaks_caught_classes_witness :
  is_RequestException
    (ApiError "RequestException"
       (Some (RequestException "connection refused"))) = false
  /\ is_JSONDecodeError
       (ApiError "RequestException"
          (Some (RequestException "connection refused"))) = false.
Proof.
  apply (request_never_leaks_caught_classes (fresh offline_client)
           "todos" "GET" (VDict [("page", VInt 1)]) VNone VNone VNone VNone
           (ApiError "RequestException"
              (Some (RequestException "connection refused")))
           eq_refl eq_refl).
Defined.

(** ** The convenience methods *)

(** X10.  [get], [delete], [post], [patch] and [put] of the client, called
    with a path and nothing else, hand the transport one request with
    their verb, the joined URL, no parameters and no body; a [method]
    keyword in the call takes the place of the preset verb. *)
Theorem convenience_methods_send_their_verb (st : State) (url : string) :
  let sent verb :=
    {| rq_method := verb; rq_url := base_url (st_self st) ++ "/" ++ url;
       rq_params := VNone; rq_json := VNone |} :: st_sent st in
  let run (m : string -> option string -> option PyVal -> option PyVal ->
               option PyVal -> option PyVal -> M PyVal) :=
    st_sent (snd (m url None None None None None st)) in
  run BaseClient.get = sent "GET"
  /\ run BaseClient.delete = sent "DELETE"
  /\ run BaseClient.post = sent "POST"
  /\ run BaseClient.patch = sent "PATCH"
  /\ run BaseClient.put = sent "PUT"
  /\ forall verb,
       st_sent (snd (BaseClient.get url (Some verb) None None None None st))
       = sent verb.
Proof.
  cbv zeta.
  assert (H : forall verb,
             st_sent (snd (request url verb VNone VNone VNone VNone st))
             = {| rq_method := verb;
                  rq_url := base_url (st_self st) ++ "/" ++ url;
                  rq_params := VNone; rq_json := VNone |} :: st_sent st).
  { intros verb.
    rewrite (run_request st url verb VNone VNone VNone VNone VNone VNone
               eq_refl eq_refl).
    rewrite sent_by_try.
    - reflexivity.
    - intros response. apply after_response_keeps_sent.
    - apply request_handlers_keep_sent. }
  repeat split; apply H.
Qed.

(** ** The arguments class *)

Lemma args_fields_get (args : list string)
    (annotations : list (string * TypeDesc)) (skipped : list (option string))
    (fields : list (string * TypeDesc)) (x : string) :
  dict_get x (args_fields args true annotations skipped fields) =
  if existsb (String.eqb x) args && negb (in_skipped x skipped)
  then Some (default TAny (dict_get x annotations))
  else dict_get x fields.
Proof.
  revert fields. induction args as [| a args IH]; intros fields;
    [reflexivity |].
  cbn [args_fields negb existsb].
  destruct (in_skipped a skipped) eqn:Ha.
  - rewrite IH. destruct (String.eqb_spec x a) as [-> | Hne]; cbn [orb].
    + rewrite Ha, andb_false_r. cbn [negb]. rewrite andb_false_r.
      reflexivity.
    + reflexivity.
  - rewrite IH, dict_get_set.
    destruct (String.eqb_spec x a) as [-> | Hne]; cbn [orb].
    + rewrite Ha. cbn [negb andb]. rewrite andb_true_r.
      destruct (existsb (String.eqb a) args); reflexivity.
    + reflexivity.
Qed.

Lemma create_args_class_fields_get
    (func : FuncDecl) (skipped : list (option string)) (x : string) :
  dict_get x (fields_of (create_args_class func skipped)) =
  if is_later_parameter x func && negb (in_skipped x skipped)
  then Some (default TAny (dict_get x (fn_annotations func)))
  else None.
Proof.
  unfold create_args_class, is_later_parameter. cbn [fields_of].
  destruct (fn_args func) as [| receiver args]; [reflexivity |].
  cbn [args_fields negb tl]. apply args_fields_get.
Qed.

(** X11.  The class that [create_args_class] builds has a field for a name
    exactly when the name is a parameter after the first one and is not in
    [skipped]; the type of the field is the annotation of the parameter,
    and [Any] when the parameter has none. *)
Theorem create_args_class_fields
    (func : FuncDecl) (skipped : list (option string)) (x : string) :
  let fields := fields_of (create_args_class func skipped) in
  (dict_mem x fields = true <->
     In x (tl (fn_args func)) /\ in_skipped x skipped = false)
  /\ (forall t, dict_get x fields = Some t ->
        t = default TAny (dict_get x (fn_annotations func))).
Proof.
  cbv zeta. rewrite create_args_class_fields_get.
  unfold dict_mem, is_later_parameter.
  rewrite create_args_class_fields_get. unfold is_later_parameter.
  rewrite <- existsb_eqb_In, <- negb_true_iff, <- andb_true_iff.
  destruct (existsb (String.eqb x) (tl (fn_args func))
            && negb (in_skipped x skipped)).
  - split; [tauto | intros t H; inversion H; reflexivity].
  - split; [split; discriminate | discriminate].
Qed.

Lemma in_skipped_app (x : string) (names more : list (option string)) :
  in_skipped x (names ++ more) = in_skipped x names || in_skipped x more.
Proof. unfold in_skipped. apply existsb_app. Qed.

(** What [rest] returns, when it returns. *)
Lemma rest_inv (url_format method body_name : string) (func : FuncDecl)
    (r : Route) :
  rest url_format method body_name func = Ok r ->
  exists names,
    field_names (markup url_format) = Ok names
    /\ r = {| rt_func := func; rt_url_format := url_format;
              rt_method := method; rt_body_name := body_name;
              rt_result_class := hints_get (fn_annotations func) "return";
              rt_body_class := hints_get (fn_annotations func) body_name;
              rt_args_class :=
                create_args_class func (names ++ [Some body_name]) |}.
Proof.
  unfold rest. destruct (field_names (markup url_format)) as [names | e | w];
    cbn; intros H; inversion H; subst; clear H.
  exists names. split; reflexivity.
Qed.

Lemma rest_render_inv (segs : list Segment) (method body_name : string)
    (func : FuncDecl) (r : Route) :
  forallb plain_segment segs = true ->
  rest (render_template segs) method body_name func = Ok r ->
  exists names,
    (forall x, in_skipped x names = is_placeholder x segs)
    /\ r = {| rt_func := func; rt_url_format := render_template segs;
              rt_method := method; rt_body_name := body_name;
              rt_result_class := hints_get (fn_annotations func) "return";
              rt_body_class := hints_get (fn_annotations func) body_name;
              rt_args_class :=
                create_args_class func (names ++ [Some body_name]) |}.
Proof.
  intros Hplain Hrest.
  destruct (rest_inv _ _ _ _ _ Hrest) as [names [Hnames Hr]].
  destruct (field_names_render segs Hplain "") as [names' [Hnames' Hskip]].
  unfold markup in Hnames. rewrite Hnames' in Hnames.
  inversion Hnames; subst names'. exists names. split; [exact Hskip | exact Hr].
Qed.

Lemma dict_mem_get {V} (x : string) (d : list (string * V)) (o : option V) :
  dict_get x d = o -> dict_mem x d = match o with Some _ => true | None => false end.
Proof. intros <-. reflexivity. Qed.

Lemma route_args_class_fields_mem
    (segs : list Segment) (method body_name : string) (func : FuncDecl)
    (r : Route) (x : string) :
  forallb plain_segment segs = true ->
  rest (render_template segs) method body_name func = Ok r ->
  dict_mem x (fields_of (rt_args_class r)) =
  is_later_parameter x func && negb (is_placeholder x segs)
  && negb (String.eqb body_name x).
Proof.
  intros Hplain Hrest.
  destruct (rest_render_inv _ _ _ _ _ Hplain Hrest) as [names [Hskip ->]].
  cbn [rt_args_class].
  rewrite (dict_mem_get x _ _ (create_args_class_fields_get func _ x)).
  rewrite in_skipped_app, Hskip. cbn [in_skipped existsb].
  rewrite orb_false_r, negb_orb, andb_assoc.
  destruct (is_later_parameter x func && negb (is_placeholder x segs)
            && negb (String.eqb body_name x)); reflexivity.
Qed.

(** X12.  The arguments class of a declared method has a field for a name
    exactly when the name is a parameter other than the receiver, is no
    placeholder of the URL template and is not the name of the body
    parameter. *)
Theorem route_args_class_fields
    (segs : list Segment) (method body_name : string) (func : FuncDecl)
    (r : Route) (x : string) :
  forallb plain_segment segs = true ->
  rest (render_template segs) method body_name func = Ok r ->
  (dict_mem x (fields_of (rt_args_class r)) = true <->
     In x (tl (fn_args func))
     /\ is_placeholder x segs = false
     /\ x <> body_name).
Proof.
  intros Hplain Hrest.
  rewrite (route_args_class_fields_mem segs method body_name func r x
             Hplain Hrest).
  unfold is_later_parameter.
  rewrite !andb_true_iff, !negb_true_iff, existsb_eqb_In, String.eqb_neq.
  split.
  - intros [[Hparam Hplace] Hbody]. repeat split; congruence.
  - intros [Hparam [Hplace Hbody]]. repeat split; congruence.
Qed.

Lemma route_args_class_fields_witness :
  dict_mem "page" (fields_of (rt_args_class items_route)) = true
  /\ dict_mem "id" (fields_of (rt_args_class items_route)) <> true.
Proof.
  split.
  - apply (proj2 (route_args_class_fields items_template "GET" "" list_items
                    items_route "page" eq_refl eq_refl)).
    split; [right; right; left; reflexivity |].
    split; [reflexivity | discriminate].
  - intros Hid.
    apply (proj1 (route_args_class_fields items_template "GET" "" list_items
                    items_route "id" eq_refl eq_refl)) in Hid.
    destruct Hid as [_ [Hplace _]]. discriminate Hplace.
Defined.

(** ** Malformed templates *)

Lemma field_names_chunk_raises (lit : string) (f : option string)
    (m : Markup) (e : Exn) :
  field_names m = Raise e -> field_names (MkChunk lit f m) = Raise e.
Proof. intros H. cbn. rewrite H. reflexivity. Qed.

Lemma field_names_literal_raises (text tail : string) (e : Exn) :
  (forall acc, field_names (markup_from tail (InLiteral acc)) = Raise e) ->
  forall acc,
    field_names (markup_from (escape_braces text ++ tail) (InLiteral acc))
    = Raise e.
Proof.
  intros Htail. induction text as [| c text IH]; intros acc.
  - apply Htail.
  - cbn [escape_braces].
    destruct (Ascii.eqb c "{") eqn:Hopen; [| destruct (Ascii.eqb c "}") eqn:Hclose].
    + rewrite !str_app_cons. cbn [markup_from Ascii.eqb Bool.eqb].
      apply field_names_chunk_raises, IH.
    + rewrite !str_app_cons. cbn [markup_from Ascii.eqb Bool.eqb].
      apply field_names_chunk_raises, IH.
    + rewrite str_app_cons. cbn [markup_from]. rewrite Hopen, Hclose.
      apply IH.
Qed.

(** A template that goes wrong after a well-formed part goes wrong. *)
Lemma field_names_render_raises (segs : list Segment) (tail : string)
    (e : Exn) :
  forallb plain_segment segs = true ->
  (forall acc, field_names (markup_from tail (InLiteral acc)) = Raise e) ->
  forall acc,
    field_names (markup_from (render_template segs ++ tail) (InLiteral acc))
    = Raise e.
Proof.
  intros Hplain Htail. induction segs as [| seg segs IH]; intros acc.
  - apply Htail.
  - cbn [forallb] in Hplain. apply andb_true_iff in Hplain as [Hseg Hsegs].
    specialize (IH Hsegs). cbn [render_template]. rewrite str_app_assoc.
    destruct seg as [text | name].
    + cbn [render_segment]. apply field_names_literal_raises, IH.
    + cbn [plain_segment] in Hseg. rewrite render_field_shape.
      unfold plain_name in Hseg.
      rewrite !andb_true_iff, !negb_true_iff in Hseg.
      destruct Hseg as [[Hne _] Hchars].
      destruct name as [| c name]; [discriminate Hne |].
      assert (Hc : Ascii.eqb c "{" = false).
      { cbn [list_ascii_of_string forallb] in Hchars.
        apply andb_true_iff in Hchars as [Hc _].
        destruct (plain_char_eqb c Hc) as [Hopen _]. exact Hopen. }
      rewrite str_app_cons, (markup_enter_field c _ acc Hc).
      rewrite <- str_app_cons.
      rewrite (markup_field_name (String c name) _ acc "" Hchars).
      apply field_names_chunk_raises, IH.
Qed.

(** X13.  A template that ends, after well-formed text and placeholders,
    with a brace that is neither doubled nor part of a placeholder is
    refused when the method is declared: the decorator raises
    [ValueError]. *)
Theorem unbalanced_brace_fails_at_declaration
    (segs : list Segment) (method body_name : string) (func : FuncDecl) :
  forallb plain_segment segs = true ->
  rest (render_template segs ++ "{") method body_name func
    = Raise (ValueError "Single '{' encountered in format string")
  /\ rest (render_template segs ++ "}") method body_name func
     = Raise (ValueError "Single '}' encountered in format string").
Proof.
  intros Hplain. unfold rest, markup. split.
  - rewrite (field_names_render_raises segs "{"
               (ValueError "Single '{' encountered in format string") Hplain);
      [reflexivity |].
    intros acc. reflexivity.
  - rewrite (field_names_render_raises segs "}"
               (ValueError "Single '}' encountered in format string") Hplain);
      [reflexivity |].
    intros acc. reflexivity.
Qed.

Lemma unbalanced_brace_fails_at_declaration_witness :
  get "todos/{id}/items/{kind}{" list_items
    = Raise (ValueError "Single '{' encountered in format string")
  /\ get "todos/{id}/items/{kind}}" list_items
     = Raise (ValueError "Single '}' encountered in format string").
Proof.
  apply (unbalanced_brace_fails_at_declaration items_template "GET" ""
           list_items eq_refl).
Defined.

(** ** Binding, further *)

Lemma bind_positional_other (args : list string) (pos : list PyVal)
    (acc : PyDict) (a : string) :
  ~ In a args ->
  dict_get a (bind_positional args pos acc) = dict_get a acc.
Proof.
  revert pos acc. induction args as [| b args IH]; intros pos acc Ha;
    [reflexivity |].
  destruct pos as [| p pos]; [reflexivity |]. cbn.
  rewrite IH by (intros H; apply Ha; right; exact H).
  rewrite dict_get_set.
  destruct (String.eqb_spec a b) as [-> | Hne]; [| reflexivity].
  exfalso. apply Ha. left. reflexivity.
Qed.

Lemma bind_named_keeps (args : list string) (named : PyDict)
    (acc d : PyDict) (a : string) :
  bind_named args named acc = Ok d ->
  dict_mem a acc = true -> dict_get a d = dict_get a acc.
Proof.
  revert acc. induction named as [| [kw value] named IH]; intros acc Hd Ha;
    cbn in Hd.
  - inversion Hd. reflexivity.
  - destruct (negb (existsb (String.eqb kw) args)); [discriminate |].
    destruct (dict_mem kw acc) eqn:Hkw; [discriminate |].
    rewrite (IH _ Hd) by (rewrite dict_mem_set, Ha; apply orb_true_r).
    rewrite dict_get_set.
    destruct (String.eqb_spec a kw) as [-> | Hne]; [congruence | reflexivity].
Qed.

Lemma fill_defaults_keeps (opt : list string) (ds : list PyVal) (d : PyDict)
    (a : string) :
  dict_mem a d = true -> dict_get a (fill_defaults opt ds d) = dict_get a d.
Proof.
  revert ds d. induction opt as [| b opt IH]; intros ds d Ha; [reflexivity |].
  destruct ds as [| d0 ds]; [reflexivity |]. cbn.
  destruct (dict_mem b d) eqn:Hb; [apply IH, Ha |].
  rewrite IH by (rewrite dict_mem_set, Ha; apply orb_true_r).
  rewrite dict_get_set.
  destruct (String.eqb_spec a b) as [-> | Hne]; [congruence | reflexivity].
Qed.

(** X14.  When the call arguments bind, the mapping that [getcallargs]
    returns has the parameters of the function for its keys, no more and
    no fewer, and the first parameter is bound to the receiver. *)
Theorem bound_arguments_are_the_parameters
    (func : FuncDecl) (self : PyVal) (args : list PyVal)
    (kwargs params : PyDict) :
  NoDup (fn_args func) ->
  (length (fn_defaults func) <= length (fn_args func))%nat ->
  getcallargs func (self :: args) kwargs = Ok params ->
  (forall k, dict_mem k params = true <-> In k (fn_args func))
  /\ (forall receiver, head (fn_args func) = Some receiver ->
        dict_get receiver params = Some self).
Proof.
  intros Hnodup Hlen Hcall. split.
  - intros k. split.
    + apply (getcallargs_keys _ _ _ _ _ Hcall).
    + apply (getcallargs_binds_all _ _ _ _ _ Hlen Hcall).
  - intros receiver Hhead.
    destruct (fn_args func) as [| a rest] eqn:Hargs; [discriminate |].
    cbn in Hhead. inversion Hhead; subst a. clear Hhead.
    unfold getcallargs in Hcall. rewrite Hargs in Hcall.
    cbn [bind_positional] in Hcall.
    apply NoDup_cons in Hnodup as [Hfresh _].
    assert (Hfirst : dict_get receiver
                       (bind_positional rest args
                          (dict_set receiver self []))
                     = Some self).
    { rewrite bind_positional_other.
      - cbn. rewrite String.eqb_refl. reflexivity.
      - intros Hin. apply Hfresh, list_elem_of_In, Hin. }
    destruct (bind_named (receiver :: rest) kwargs _) as [d | e | w] eqn:Hd;
      cbn [mbind res_bind] in Hcall; try discriminate.
    assert (Hbound : dict_get receiver d = Some self).
    { rewrite (bind_named_keeps _ _ _ _ receiver Hd); [exact Hfirst |].
      unfold dict_mem. rewrite Hfirst. reflexivity. }
    destruct (_ <? _)%nat; [discriminate |].
    destruct (_ <? _)%nat.
    + destruct (check_required _ d) as [[] | e | w];
        cbn [mbind res_bind] in Hcall; try discriminate.
      inversion Hcall; subst. rewrite fill_defaults_keeps; [exact Hbound |].
      unfold dict_mem. rewrite Hbound. reflexivity.
    + inversion Hcall; subst. exact Hbound.
Qed.

Lemma bound_arguments_are_the_parameters_witness :
  let params := [("self", VObj 1); ("id", VInt 7); ("kind", VStr "done");
                 ("page", VInt 1)] in
  (dict_mem "page" params = true <-> In "page" (fn_args list_items))
  /\ dict_get "self" params = Some (VObj 1).
Proof.
  cbv zeta.
  pose (Hnodup := bool_decide_unpack (NoDup (fn_args list_items)) I).
  pose proof (bound_arguments_are_the_parameters list_items (VObj 1)
                [VInt 7] [("kind", VStr "done")]
                [("self", VObj 1); ("id", VInt 7); ("kind", VStr "done");
                 ("page", VInt 1)]
                Hnodup ltac:(cbn; lia) eq_refl) as [Hkeys Hreceiver].
  split; [apply Hkeys | apply Hreceiver; reflexivity].
Defined.

(** ** Calls that do not bind *)

Lemma bind_named_outcome (args : list string) (named acc : PyDict) :
  (exists d, bind_named args named acc = Ok d)
  \/ (exists detail, bind_named args named acc = Raise (TypeError detail)).
Proof.
  revert acc. induction named as [| [kw value] named IH]; intros acc; cbn.
  - left. eexists. reflexivity.
  - destruct (negb (existsb (String.eqb kw) args));
      [right; eexists; reflexivity |].
    destruct (dict_mem kw acc); [right; eexists; reflexivity |]. apply IH.
Qed.

Lemma bind_named_unknown (args : list string) (named acc : PyDict) :
  existsb (fun kv => negb (existsb (String.eqb (fst kv)) args)) named = true ->
  exists detail, bind_named args named acc = Raise (TypeError detail).
Proof.
  revert acc. induction named as [| [kw value] named IH]; intros acc Hbad;
    [discriminate |].
  cbn in Hbad |- *.
  destruct (negb (existsb (String.eqb kw) args)); [eexists; reflexivity |].
  destruct (dict_mem kw acc); [eexists; reflexivity |].
  apply IH. exact Hbad.
Qed.

Lemma check_required_missing (req : list string) (d : PyDict) (n : string) :
  In n req -> dict_mem n d = false ->
  check_required req d = Raise (TypeError "missing required positional arguments").
Proof.
  induction req as [| a req IH]; intros Hn Hd; [destruct Hn |]. cbn.
  destruct (dict_mem a d) eqn:Ha; [| reflexivity].
  destruct Hn as [-> | Hn]; [congruence | apply (IH Hn Hd)].
Qed.

(** A call of [inner] that fails to bind raises the error of the binding
    and leaves the state as it was. *)
Lemma inner_binding_error (r : Route) (args : list PyVal) (kwargs : PyDict)
    (st : State) (detail : string) :
  getcallargs (rt_func r) (VObj (obj_id (st_self st)) :: args) kwargs
    = Raise (TypeError detail) ->
  exists detail', inner r args kwargs st = (Raise (TypeError detail'), st).
Proof.
  intros Hcall. unfold inner. rewrite run_bind, run_attr.
  destruct (dict_mem "self" kwargs); [eexists; reflexivity |].
  rewrite run_bind, run_lift. unfold inner_bind. rewrite Hcall.
  eexists. reflexivity.
Qed.

(** X15.  A call with a keyword that is no parameter of the method raises
    [TypeError]; nothing is handed to the transport and nothing is
    logged. *)
Theorem unknown_keyword_is_rejected
    (r : Route) (args : list PyVal) (kwargs : PyDict) (st : State) :
  has_unknown_keyword (rt_func r) kwargs = true ->
  exists detail, inner r args kwargs st = (Raise (TypeError detail), st).
Proof.
  intros Hbad.
  destruct (bind_named_unknown (fn_args (rt_func r)) kwargs
              (bind_positional (fn_args (rt_func r))
                 (VObj (obj_id (st_self st)) :: args) []) Hbad)
    as [detail Hd].
  apply (inner_binding_error r args kwargs st detail).
  rewrite getcallargs_unfold, Hd. reflexivity.
Qed.

Lemma unknown_keyword_is_rejected_witness :
  exists detail,
    inner items_route [VInt 7] [("colour", VStr "red")] (fresh routed_client)
    = (Raise (TypeError detail), fresh routed_client).
Proof.
  apply (unknown_keyword_is_rejected items_route [VInt 7]
           [("colour", VStr "red")] (fresh routed_client) eq_refl).
Defined.

(** X16.  A call with more positional arguments than the method has
    parameters after the receiver raises [TypeError]; nothing is handed to
    the transport and nothing is logged. *)
Theorem too_many_arguments_are_rejected
    (r : Route) (args : list PyVal) (kwargs : PyDict) (st : State) :
  (length (fn_args (rt_func r)) < S (length args))%nat ->
  exists detail, inner r args kwargs st = (Raise (TypeError detail), st).
Proof.
  intros Hmany.
  destruct (bind_named_outcome (fn_args (rt_func r)) kwargs
              (bind_positional (fn_args (rt_func r))
                 (VObj (obj_id (st_self st)) :: args) []))
    as [[d Hd] | [detail Hd]].
  - apply (inner_binding_error r args kwargs st
             "too many positional arguments").
    rewrite getcallargs_unfold, Hd. cbn [mbind res_bind].
    unfold getcallargs_checks. cbn [length].
    replace (length (fn_args (rt_func r)) <? S (length args))%nat with true
      by (symmetry; apply Nat.ltb_lt; exact Hmany).
    reflexivity.
  - apply (inner_binding_error r args kwargs st detail).
    rewrite getcallargs_unfold, Hd. reflexivity.
Qed.

Lemma too_many_arguments_are_rejected_witness :
  exists detail,
    inner items_route [VInt 7; VStr "done"; VInt 2; VInt 3] []
      (fresh routed_client)
    = (Raise (TypeError detail), fresh routed_client).
Proof.
  apply (too_many_arguments_are_rejected items_route
           [VInt 7; VStr "done"; VInt 2; VInt 3] [] (fresh routed_client)).
  cbn. lia.
Defined.

(** X17.  A call that gives no value, by position or by name, to a
    parameter without a default raises [TypeError]; nothing is handed to
    the transport and nothing is logged. *)
Theorem missing_argument_is_rejected
    (r : Route) (args : list PyVal) (kwargs : PyDict) (st : State)
    (i : nat) (n : string) :
  NoDup (fn_args (rt_func r)) ->
  fn_args (rt_func r) !! i = Some n ->
  (S (length args) <= i)%nat ->
  (i < length (fn_args (rt_func r)) - length (fn_defaults (rt_func r)))%nat ->
  dict_get n kwargs = None ->
  exists detail, inner r args kwargs st = (Raise (TypeError detail), st).
Proof.
  intros Hnodup Hn Hpos Hreq Hnamed.
  set (pos := VObj (obj_id (st_self st)) :: args).
  destruct (bind_named_outcome (fn_args (rt_func r)) kwargs
              (bind_positional (fn_args (rt_func r)) pos []))
    as [[d Hd] | [detail Hd]].
  - apply (inner_binding_error r args kwargs st
             "missing required positional arguments").
    fold pos. rewrite getcallargs_unfold, Hd. cbn [mbind res_bind].
    unfold getcallargs_checks.
    pose proof (lookup_lt_Some _ _ _ Hn) as Hlt.
    assert (Hlen : length pos = S (length args)) by reflexivity.
    replace (length (fn_args (rt_func r)) <? length pos)%nat with false
      by (symmetry; apply Nat.ltb_ge; lia).
    replace (length pos <? length (fn_args (rt_func r)))%nat with true
      by (symmetry; apply Nat.ltb_lt; lia).
    rewrite (check_required_missing _ d n); [reflexivity | |].
    + apply list_elem_of_In. eapply list_elem_of_lookup_2.
      rewrite lookup_take_lt by exact Hreq. exact Hn.
    + rewrite (bind_named_mem _ _ _ _ _ Hnamed Hd).
      apply (bind_positional_fresh _ pos i n Hnodup Hn). lia.
  - apply (inner_binding_error r args kwargs st detail).
    fold pos. rewrite getcallargs_unfold, Hd. reflexivity.
Qed.

Lemma missing_argument_is_rejected_witness :
  exists detail,
    inner items_route [] [("kind", VStr "done")] (fresh routed_client)
    = (Raise (TypeError detail), fresh routed_client).
Proof.
  pose (Hnodup := bool_decide_unpack
                     (NoDup (fn_args (rt_func items_route))) I).
  apply (missing_argument_is_rejected items_route []
           [("kind", VStr "done")] (fresh routed_client) 1%nat "id"
           Hnodup eq_refl).
  - cbn. lia.
  - cbn. lia.
  - reflexivity.
Defined.

(** ** A declared method, from the call to the transport *)

Lemma hints_get_class_or_none (hints : list (string * TypeDesc))
    (name : string) :
  is_class_or_none (hints_get hints name) = true.
Proof. unfold hints_get. destruct (dict_get name hints); reflexivity. Qed.

Lemma is_dropped_py_eq (self : nat) (rc bc v : PyVal) :
  is_class_or_none rc = true -> is_class_or_none bc = true ->
  is_dropped self [rc; bc] v = py_eq v (VObj self).
Proof.
  intros Hrc Hbc. unfold is_dropped.
  destruct (py_eq v (VObj self)) eqn:Hv; [| reflexivity].
  apply py_eq_obj in Hv as ->.
  destruct rc; try discriminate; destruct bc; try discriminate; reflexivity.
Qed.

(** X18.  A call of a declared method whose arguments bind, with the
    placeholders of the template bound to primitive values, hands the
    transport one request: the verb of the declaration; the base URL, a
    slash and the template with its placeholders replaced; as parameters
    the mapping that the serializer returned for the arguments class,
    less the entries whose value is the client itself; and as body the
    serialization of what that same mapping holds under the name of the
    body parameter. *)
Theorem declared_call_sends
    (segs : list Segment) (method body_name : string) (func : FuncDecl)
    (r : Route) (st : State) (args : list PyVal)
    (kwargs params dumped : PyDict) (body' : PyVal) :
  let c := st_self st in
  forallb plain_segment segs = true ->
  rest (render_template segs) method body_name func = Ok r ->
  dict_mem "self" kwargs = false ->
  getcallargs func (VObj (obj_id c) :: args) kwargs = Ok params ->
  bound_to_primitives params segs = true ->
  dump (factory c) (VDict params) (VType (rt_args_class r))
    = Ok (VDict dumped) ->
  request_body c (default VNone (dict_get body_name dumped))
    (rt_body_class r) = Ok body' ->
  st_sent (snd (inner r args kwargs st)) =
  {| rq_method := method;
     rq_url := base_url c ++ "/" ++ fill_template params segs;
     rq_params :=
       VDict (List.filter
                (fun kv => negb (py_eq (snd kv) (VObj (obj_id c)))) dumped);
     rq_json := body' |} :: st_sent st.
Proof.
  cbv zeta. intros Hplain Hrest Hself Hcall Hbound Hdump Hbody.
  destruct (rest_render_inv _ _ _ _ _ Hplain Hrest) as [names [_ Hr]].
  assert (Hbind : inner_bind r (VObj (obj_id (st_self st))) args kwargs
                  = Ok (params, fill_template params segs)).
  { unfold inner_bind. rewrite Hr. cbn [rt_func rt_url_format].
    rewrite Hcall. cbn [mbind res_bind].
    rewrite (str_format_render params segs Hplain).
    rewrite (substitute_primitives params segs Hbound). reflexivity. }
  assert (Hname : rt_body_name r = body_name) by (rewrite Hr; reflexivity).
  rewrite <- Hname in Hbody.
  rewrite (inner_sends r st args kwargs params dumped _ body'
             Hself Hbind Hdump Hbody).
  unfold request_sent. f_equal. f_equal.
  - rewrite Hr. reflexivity.
  - f_equal. apply List.filter_ext. intros kv. f_equal.
    apply is_dropped_py_eq; rewrite Hr; apply hints_get_class_or_none.
Qed.

Lemma declared_call_sends_witness :
  st_sent (snd (inner items_route [VInt 7] [("kind", VStr "done")]
                  (fresh answering_client)))
  = [ {| rq_method := "GET"; rq_url := "http://api/todos/7/items/done";
         rq_params := VDict [("page", VInt 1)]; rq_json := VNone |} ].
Proof.
  apply (declared_call_sends items_template "GET" "" list_items items_route
           (fresh answering_client) [VInt 7] [("kind", VStr "done")]
           [("self", VObj 1); ("id", VInt 7); ("kind", VStr "done");
            ("page", VInt 1)]
           [("page", VInt 1)] VNone
           eq_refl eq_refl eq_refl eq_refl eq_refl eq_refl eq_refl).
Defined.

Lemma only_fields_mem (dumped : PyDict) (t : TypeDesc) (k : string)
    (v : PyVal) :
  only_fields dumped t = true -> In (k, v) dumped ->
  dict_mem k (fields_of t) = true.
Proof.
  unfold only_fields. rewrite forallb_forall. intros Hall Hin.
  apply (Hall (k, v) Hin).
Qed.

Lemma only_fields_absent (dumped : PyDict) (t : TypeDesc) (k : string) :
  only_fields dumped t = true -> dict_mem k (fields_of t) = false ->
  dict_get k dumped = None.
Proof.
  unfold only_fields. intros Hall Hk.
  induction dumped as [| [k' v] dumped IH]; [reflexivity |].
  cbn [forallb fst] in Hall. apply andb_true_iff in Hall as [Hk' Hall].
  cbn. destruct (String.eqb_spec k k') as [-> | Hne]; [congruence |].
  apply IH, Hall.
Qed.

(** X19.  When the serializer returns, for the arguments class, a mapping
    with no key beyond the fields of the class, every query parameter
    that a declared method hands to the transport is named after a
    parameter of the method other than the receiver, and none is named
    after a placeholder of the URL template or after the body
    parameter. *)
Theorem query_holds_unconsumed_parameters
    (segs : list Segment) (method body_name : string) (func : FuncDecl)
    (r : Route) (st : State) (args : list PyVal)
    (kwargs params dumped : PyDict) (url : string) (body' : PyVal) :
  let c := st_self st in
  forallb plain_segment segs = true ->
  rest (render_template segs) method body_name func = Ok r ->
  dict_mem "self" kwargs = false ->
  inner_bind r (VObj (obj_id c)) args kwargs = Ok (params, url) ->
  dump (factory c) (VDict params) (VType (rt_args_class r))
    = Ok (VDict dumped) ->
  only_fields dumped (rt_args_class r) = true ->
  request_body c (default VNone (dict_get (rt_body_name r) dumped))
    (rt_body_class r) = Ok body' ->
  exists rq query,
    st_sent (snd (inner r args kwargs st)) = rq :: st_sent st
    /\ rq_params rq = VDict query
    /\ forall k v, In (k, v) query ->
         is_later_parameter k func = true
         /\ is_placeholder k segs = false
         /\ k <> body_name.
Proof.
  cbv zeta. intros Hplain Hrest Hself Hbind Hdump Honly Hbody.
  eexists _, _. split; [| split].
  - apply (inner_sends r st args kwargs params dumped url body'
             Hself Hbind Hdump Hbody).
  - reflexivity.
  - intros k v Hin. apply List.filter_In in Hin as [Hin _].
    pose proof (only_fields_mem _ _ k v Honly Hin) as Hfield.
    rewrite (route_args_class_fields_mem segs method body_name func r k
               Hplain Hrest) in Hfield.
    apply andb_true_iff in Hfield as [Hfield Hbody_name].
    apply andb_true_iff in Hfield as [Hparam Hplace].
    apply negb_true_iff in Hplace, Hbody_name.
    split; [exact Hparam | split; [exact Hplace |]].
    intros ->. rewrite String.eqb_refl in Hbody_name. discriminate.
Qed.

Lemma query_holds_unconsumed_parameters_witness :
  exists rq query,
    st_sent (snd (inner items_route [VInt 7] [("kind", VStr "done")]
                    (fresh answering_client))) = [rq]
    /\ rq_params rq = VDict query
    /\ forall k v, In (k, v) query ->
         is_later_parameter k list_items = true
         /\ is_placeholder k items_template = false
         /\ k <> "".
Proof.
  apply (query_holds_unconsumed_parameters items_template "GET" ""
           list_items items_route (fresh answering_client) [VInt 7]
           [("kind", VStr "done")]
           [("self", VObj 1); ("id", VInt 7); ("kind", VStr "done");
            ("page", VInt 1)]
           [("page", VInt 1)] "todos/7/items/done" VNone
           eq_refl eq_refl eq_refl eq_refl eq_refl eq_refl eq_refl).
Defined.

(** X20.  A method declared with [get] or [delete], whose function has no
    annotation under the empty name, sends no body: when the serializer
    returns a mapping with no key beyond the fields of the arguments
    class, the body handed to the transport is [None]. *)
Theorem get_and_delete_send_no_body
    (url_format : string) (func : FuncDecl) (r : Route) (st : State)
    (args : list PyVal) (kwargs params dumped : PyDict) (url : string) :
  let c := st_self st in
  get url_format func = Ok r \/ delete url_format func = Ok r ->
  dict_get "" (fn_annotations func) = None ->
  dict_mem "self" kwargs = false ->
  inner_bind r (VObj (obj_id c)) args kwargs = Ok (params, url) ->
  dump (factory c) (VDict params) (VType (rt_args_class r))
    = Ok (VDict dumped) ->
  only_fields dumped (rt_args_class r) = true ->
  exists rq,
    st_sent (snd (inner r args kwargs st)) = rq :: st_sent st
    /\ rq_json rq = VNone.
Proof.
  cbv zeta. intros Hdecl Hann Hself Hbind Hdump Honly.
  assert (Hrest : exists method, rest url_format method "" func = Ok r).
  { destruct Hdecl as [H | H]; eexists; exact H. }
  destruct Hrest as [method Hrest].
  destruct (rest_skips_body _ _ _ _ _ Hrest) as [name [fields [Hclass Hskip]]].
  destruct (rest_inv _ _ _ _ _ Hrest) as [names [_ Hr]].
  assert (Hname : rt_body_name r = "") by (rewrite Hr; reflexivity).
  assert (Hbc : rt_body_class r = VNone).
  { rewrite Hr. cbn [rt_body_class]. unfold hints_get. rewrite Hann.
    reflexivity. }
  assert (Habsent : dict_get "" dumped = None).
  { apply (only_fields_absent dumped (rt_args_class r) "" Honly).
    rewrite Hclass. exact Hskip. }
  eexists. split.
  - apply (inner_sends r st args kwargs params dumped url VNone
             Hself Hbind Hdump).
    rewrite Hname, Habsent, Hbc. reflexivity.
  - reflexivity.
Qed.

Lemma get_and_delete_send_no_body_witness :
  exists rq,
    st_sent (snd (inner items_route [VInt 7] [("kind", VStr "done")]
                    (fresh answering_client))) = [rq]
    /\ rq_json rq = VNone.
Proof.
  apply (get_and_delete_send_no_body "todos/{id}/items/{kind}" list_items
           items_route (fresh answering_client) [VInt 7]
           [("kind", VStr "done")]
           [("self", VObj 1); ("id", VInt 7); ("kind", VStr "done");
            ("page", VInt 1)]
           [("page", VInt 1)] "todos/7/items/done"
           (or_introl eq_refl) eq_refl eq_refl eq_refl eq_refl eq_refl).
Defined.

(** X3.  When the serializer fails on the bound arguments, the call of a
    declared method raises the serializer's error as it is; nothing is
    handed to the transport and nothing is logged. *)
Theorem arguments_failure_propagates
    (r : Route) (st : State) (args : list PyVal) (kwargs params : PyDict)
    (url : string) (e : Exn) :
  let c := st_self st in
  dict_mem "self" kwargs = false ->
  inner_bind r (VObj (obj_id c)) args kwargs = Ok (params, url) ->
  dump (factory c) (VDict params) (VType (rt_args_class r)) = Raise e ->
  inner r args kwargs st = (Raise e, st).
Proof.
  cbv zeta. intros Hself Hbind Hdump. unfold inner.
  rewrite run_bind, run_attr, Hself.
  rewrite run_bind, run_lift, Hbind. cbn [fst snd].
  rewrite run_bind, run_attr, run_bind, run_lift, Hdump. reflexivity.
Qed.

Lemma arguments_failure_propagates_witness :
  inner items_route [VInt 7] [] (fresh refusing_client)
  = (Raise (OtherError "SerializationError" "refused"),
     fresh refusing_client).
Proof.
  apply (arguments_failure_propagates items_route (fresh refusing_client)
           [VInt 7] []
           [("self", VObj 1); ("id", VInt 7); ("kind", VStr "open");
            ("page", VInt 1)]
           "todos/7/items/open"
           (OtherError "SerializationError" "refused")
           eq_refl eq_refl eq_refl).
Defined.

(** ** The log *)

(** X21.  When the transport raises a [RequestException], [request] has
    called the logger twice, first at level [DEBUG] with the full URL,
    then at level [ERROR] with the full URL and the transport's error, and
    the log has gained the record of each of the two calls for whose level
    the logger is enabled: both with the logger set to [DEBUG], the error
    record alone with the logging defaults. *)
Theorem transport_failure_is_logged
    (st : State) (url method : string)
    (params body body_class result_class body' query : PyVal) (e : Exn) :
  let c := st_self st in
  let full := base_url c ++ "/" ++ url in
  let debug_record :=
    {| log_level := "DEBUG"; log_msg := "Sending requests to `%s`";
       log_args := [LStr full] |} in
  let error_record :=
    {| log_level := "ERROR";
       log_msg := "RequestException when connecting with url: `%s`, error: `%s`";
       log_args := [LStr full; LExn e] |} in
  request_body c body body_class = Ok body' ->
  fst (_filter_params params (Some [result_class; body_class]) st) = Ok query ->
  session c (request_sent c url method query body') = Raise e ->
  is_RequestException e = true ->
  st_log (snd (request url method params body body_class result_class st)) =
  ((if is_enabled_for (st_logger st) (level_no "ERROR")
    then [error_record] else [])
   ++ (if is_enabled_for (st_logger st) (level_no "DEBUG")
       then [debug_record] else [])
   ++ st_log st)%list.
Proof.
  cbv zeta. intros Hbody Hquery Hsend He.
  rewrite (run_request st url method params body body_class result_class
             body' query Hbody Hquery).
  unfold try_except. rewrite run_bind. unfold session_request.
  cbn [st_self]. rewrite Hsend. unfold request_handlers. rewrite He.
  rewrite run_bind. cbn [logger_log st_logger st_log snd raise lift].
  unfold log_after.
  destruct (is_enabled_for (st_logger st) (level_no "ERROR")),
           (is_enabled_for (st_logger st) (level_no "DEBUG")); reflexivity.
Qed.

Lemma transport_failure_is_logged_witness :
  st_log (snd (request "todos" "GET" (VDict [("page", VInt 1)]) VNone VNone
                 VNone (fresh offline_client))) =
  [ {| log_level := "ERROR";
       log_msg := "RequestException when connecting with url: `%s`, error: `%s`";
       log_args := [LStr "http://api/todos";
                    LExn (RequestException "connection refused")] |} ]
  /\ st_log (snd (request "todos" "GET" (VDict [("page", VInt 1)]) VNone
                    VNone VNone (fresh_verbose offline_client))) =
     [ {| log_level := "ERROR";
          log_msg := "RequestException when connecting with url: `%s`, error: `%s`";
          log_args := [LStr "http://api/todos";
                       LExn (RequestException "connection refused")] |};
       {| log_level := "DEBUG"; log_msg := "Sending requests to `%s`";
          log_args := [LStr "http://api/todos"] |} ].
Proof.
  split.
  - apply (transport_failure_is_logged (fresh offline_client)
             "todos" "GET" (VDict [("page", VInt 1)]) VNone VNone VNone
             VNone (VDict [("page", VInt 1)])
             (RequestException "connection refused")
             eq_refl eq_refl eq_refl eq_refl).
  - apply (transport_failure_is_logged (fresh_verbose offline_client)
             "todos" "GET" (VDict [("page", VInt 1)]) VNone VNone VNone
             VNone (VDict [("page", VInt 1)])
             (RequestException "connection refused")
             eq_refl eq_refl eq_refl eq_refl).
Defined.
